(** * Shopping System API: a shallow embedding of [main.py] and [schemas.py]

    The FastAPI handlers of [main.py] are embedded as computations in a
    state-and-exception monad over a model of the MongoDB database they
    talk to.

    - Documents are records following [schemas.py], each under its [_id];
      collections are lists in the store's natural (insertion) order.
    - Python strings are [string]s, in their UTF-8 form; Python ints are
      [Z]; Python floats are IEEE binary64 numbers ([float]), with [round]
      and [float] as CPython computes them.
    - Python exceptions are values of [exn]; an exception that escapes a
      handler is the 500 the client gets.
    - The database is connected ([db is not None]) and answers every
      operation; it holds integers of up to 8 bytes, as BSON does.
    - [database.py] is not part of the sources: its two helpers are
      modelled from the specification's gateway contract. *)

From Stdlib Require Import ZArith NArith List String Ascii Bool Lia Floats.
Import ListNotations.

#[local] Set Warnings "-inexact-float".
#[local] Open Scope string_scope.
#[local] Open Scope list_scope.

(** ** Strings *)

Fixpoint string_forallb (f : ascii -> bool) (s : string) : bool :=
  match s with
  | EmptyString => true
  | String c s' => f c && string_forallb f s'
  end.

(** An optional string argument, and its value when it is given. *)
Definition given (o : option string) : string :=
  match o with Some s => s | None => "" end.

(** Python's truth value of an optional string argument: [None] and the
    empty string are falsy. *)
Definition truthy (o : option string) : bool :=
  match o with
  | None => false
  | Some s => negb (String.eqb s "")
  end.

(** ** bson.ObjectId

    The ObjectId of a stored document is a 12-byte value, kept here as the
    number its bytes spell, big-endian.  [str(oid)] is its 24 lowercase
    hexadecimal digits.  [ObjectId(s)] takes a string of 24 characters and
    reads it with [bytes.fromhex], which skips white space: 24 hexadecimal
    digits give an identifier of 12 bytes, pairs of digits with white
    space between them give a shorter one, the identifier of no document,
    and any other string raises [InvalidId]. *)

Definition ObjectId := N.

Definition oid_bound : N := (2 ^ 96)%N.

Definition hex_char (d : N) : ascii :=
  match d with
  | 0 => "0" | 1 => "1" | 2 => "2" | 3 => "3" | 4 => "4" | 5 => "5"
  | 6 => "6" | 7 => "7" | 8 => "8" | 9 => "9" | 10 => "a" | 11 => "b"
  | 12 => "c" | 13 => "d" | 14 => "e" | _ => "f"
  end%N%char.

Definition hex_value (c : ascii) : option N :=
  let n := N_of_ascii c in
  if ((48 <=? n) && (n <=? 57))%N then Some (n - 48)%N
  else if ((97 <=? n) && (n <=? 102))%N then Some (n - 87)%N
  else if ((65 <=? n) && (n <=? 70))%N then Some (n - 55)%N
  else None.

Definition is_hex (c : ascii) : bool :=
  match hex_value c with Some _ => true | None => false end.

(** The [k] low hexadecimal digits of [n], most significant first, in
    front of [acc]. *)
Fixpoint hexlify (k : nat) (n : N) (acc : string) : string :=
  match k with
  | O => acc
  | S k' => hexlify k' (n / 16)%N (String (hex_char (n mod 16)%N) acc)
  end.

Fixpoint fromhex (acc : N) (s : string) : option N :=
  match s with
  | EmptyString => Some acc
  | String c s' =>
      match hex_value c with
      | Some d => fromhex (16 * acc + d)%N s'
      | None => None
      end
  end.

(** [str(oid)] *)
Definition oid_str (oid : ObjectId) : string := hexlify 24 oid "".

(** The identifier of 12 bytes that a string of 24 hexadecimal digits
    spells. *)
Definition oid_parse (s : string) : option ObjectId :=
  if Nat.eqb (String.length s) 24 then fromhex 0 s else None.

(** The store's identifier format, stated on its own: 24 characters, each
    a hexadecimal digit. *)
Definition well_formed_id (s : string) : Prop :=
  String.length s = 24%nat /\ string_forallb is_hex s = true.

(** ASCII white space, as [bytes.fromhex] skips it. *)
Definition is_space (c : ascii) : bool :=
  let n := N_of_ascii c in
  ((n =? 32) || ((9 <=? n) && (n <=? 13)))%N.

(** [bytes.fromhex(s)]: pairs of hexadecimal digits, with white space
    skipped in front of a pair and at the end; [top] is the first digit of
    a pair under way.  [None] stands for the [ValueError]. *)
Fixpoint bytes_fromhex (top : option N) (s : string) : option (list N) :=
  match s with
  | EmptyString => match top with None => Some [] | Some _ => None end
  | String c s' =>
      match top with
      | None =>
          if is_space c then bytes_fromhex None s'
          else match hex_value c with
               | Some d => bytes_fromhex (Some d) s'
               | None => None
               end
      | Some t =>
          match hex_value c, bytes_fromhex None s' with
          | Some d, Some bs => Some ((16 * t + d)%N :: bs)
          | _, _ => None
          end
      end
  end.

(** The number that bytes spell, big-endian, after [acc]. *)
Definition N_of_bytes (acc : N) (bs : list N) : N :=
  fold_left (fun a b => (256 * a + b)%N) bs acc.

(** What an [ObjectId(s)] holds: the 12 bytes of an identifier as the
    store hands them out, or fewer. *)
Inductive oid_value :=
| Full (oid : ObjectId)
| Short (bytes : list N).

(** [ObjectId(s)]: [None] stands for the [InvalidId] exception.  A
    character beyond ASCII is refused whatever the length, so that the
    length may be counted in bytes. *)
Definition oid_read (s : string) : option oid_value :=
  if Nat.eqb (String.length s) 24
  then match bytes_fromhex None s with
       | Some bs =>
           Some (if Nat.eqb (List.length bs) 12
                 then Full (N_of_bytes 0 bs) else Short bs)
       | None => None
       end
  else None.

(** ** schemas.py *)

(** A stored number: BSON keeps Python ints and floats apart. *)
Inductive number :=
| NInt (z : Z)
| NFloat (f : float).

Module Category.
Record t := mk {
  name : string;
  slug : string;
  description : option string;
  image : option string }.
End Category.

Module Product.
Record t := mk {
  title : string;
  description : option string;
  price : number;
  compare_at_price : option number;
  category : string;
  images : list string;
  rating : number;
  in_stock : bool;
  tags : list string }.
End Product.

Module CartItem.
Record t := mk {
  cart_id : string;
  product_id : string;
  quantity : Z }.
End CartItem.

Module Order.
Record t := mk {
  cart_id : string;
  items : list CartItem.t;
  subtotal : float;
  total : float;
  currency : string;
  status : string }.
End Order.

(** ** The document store

    A stored document is a schema record under its store-assigned [_id].
    A collection lists its documents in natural order.  [next_oid] is the
    state of the ObjectId generator: every [insert_one] takes the next
    value. *)

Record Document (A : Type) := mkDoc { _id : ObjectId; body : A }.
Arguments mkDoc {A}.
Arguments _id {A}.
Arguments body {A}.

Record Database := mkDb {
  db_category : list (Document Category.t);
  db_product : list (Document Product.t);
  db_cartitem : list (Document CartItem.t);
  db_order : list (Document Order.t);
  next_oid : N }.

(** [db[name]]: a collection of the database, as a pair of a reader and a
    writer. *)
Record Collection (A : Type) := mkColl {
  docs : Database -> list (Document A);
  set_docs : list (Document A) -> Database -> Database }.
Arguments docs {A}.
Arguments set_docs {A}.

Definition category : Collection Category.t :=
  mkColl _ db_category
    (fun l db => mkDb l (db_product db) (db_cartitem db) (db_order db) (next_oid db)).
Definition product : Collection Product.t :=
  mkColl _ db_product
    (fun l db => mkDb (db_category db) l (db_cartitem db) (db_order db) (next_oid db)).
Definition cartitem : Collection CartItem.t :=
  mkColl _ db_cartitem
    (fun l db => mkDb (db_category db) (db_product db) l (db_order db) (next_oid db)).
Definition order : Collection Order.t :=
  mkColl _ db_order
    (fun l db => mkDb (db_category db) (db_product db) (db_cartitem db) l (next_oid db)).

Definition bump_oid (db : Database) : Database :=
  mkDb (db_category db) (db_product db) (db_cartitem db) (db_order db)
       (N.succ (next_oid db)).

(** ** Exceptions and the handler monad *)

Inductive exn :=
| HTTPException (status_code : Z) (detail : string)
| RequestValidationError
| InvalidId
| OverflowError
| OperationFailure.

Inductive result (A : Type) :=
| Ok (a : A)
| Raise (e : exn).
Arguments Ok {A}.
Arguments Raise {A}.

(** A handler runs against the database and ends with a value or an
    exception, and with the database as it left it. *)
Definition M (A : Type) : Type := Database -> result A * Database.

Definition ret {A} (a : A) : M A := fun db => (Ok a, db).

Definition bind {A B} (m : M A) (k : A -> M B) : M B :=
  fun db =>
    match m db with
    | (Ok a, db') => k a db'
    | (Raise e, db') => (Raise e, db')
    end.

Definition raise {A} (e : exn) : M A := fun db => (Raise e, db).

(** [try: m except Exception: h] *)
Definition try_except {A} (m : M A) (h : exn -> M A) : M A :=
  fun db =>
    match m db with
    | (Ok a, db') => (Ok a, db')
    | (Raise e, db') => h e db'
    end.

Declare Scope handler_scope.
Delimit Scope handler_scope with handler.
Notation "x <- m ;; k" := (bind m (fun x => k))
  (at level 61, m at next level, right associativity) : handler_scope.
Notation "m ;; k" := (bind m (fun _ => k))
  (at level 61, right associativity) : handler_scope.
#[local] Open Scope handler_scope.

(** [for x in xs: acc = step(acc, x)] *)
Fixpoint for_each {A B} (xs : list A) (acc : B) (step : B -> A -> M B) : M B :=
  match xs with
  | [] => ret acc
  | x :: xs' => acc' <- step acc x ;; for_each xs' acc' step
  end.

(** What the client sees: the status code FastAPI answers with.  An
    [HTTPException] carries its own, a body that fails its schema is a 422,
    any other exception escaping a handler is a 500. *)
Definition status_of {A} (r : result A) : Z :=
  match r with
  | Ok _ => 200
  | Raise (HTTPException code _) => code
  | Raise RequestValidationError => 422
  | Raise _ => 500
  end.

(** ** pymongo collection operations

    A filter is the predicate it stands for.  [find] answers in natural
    order, [find_one], [update_one] and [delete_one] act on the first
    document that passes the filter, [insert_one] appends under a new id. *)

Section Pymongo.
Context {A : Type} (c : Collection A).

Definition find (filt : Document A -> bool) : M (list (Document A)) :=
  fun db => (Ok (filter filt (docs c db)), db).

Definition find_one (filt : Document A -> bool) : M (option (Document A)) :=
  fun db => (Ok (List.find filt (docs c db)), db).

Definition count_documents (filt : Document A -> bool) : M nat :=
  fun db => (Ok (List.length (filter filt (docs c db))), db).

Definition insert_one (a : A) : M ObjectId :=
  fun db =>
    let oid := next_oid db in
    (Ok oid, bump_oid (set_docs c (docs c db ++ [mkDoc oid a]) db)).

Fixpoint insert_many (l : list A) : M (list ObjectId) :=
  match l with
  | [] => ret []
  | a :: l' =>
      oid <- insert_one a ;;
      oids <- insert_many l' ;;
      ret (oid :: oids)
  end.

(** The first document that passes [filt] is rewritten by [upd]. *)
Fixpoint update_first (filt : Document A -> bool) (upd : A -> A)
    (l : list (Document A)) : list (Document A) :=
  match l with
  | [] => []
  | d :: l' =>
      if filt d then mkDoc (_id d) (upd (body d)) :: l'
      else d :: update_first filt upd l'
  end.

Definition update_one (filt : Document A -> bool) (upd : A -> A) : M unit :=
  fun db => (Ok tt, set_docs c (update_first filt upd (docs c db)) db).

(** The first document that passes [filt] is removed. *)
Fixpoint delete_first (filt : Document A -> bool)
    (l : list (Document A)) : list (Document A) :=
  match l with
  | [] => []
  | d :: l' => if filt d then l' else d :: delete_first filt l'
  end.

(** [delete_one(filt).deleted_count] *)
Definition delete_one (filt : Document A -> bool) : M Z :=
  fun db =>
    match List.find filt (docs c db) with
    | Some _ => (Ok 1%Z, set_docs c (delete_first filt (docs c db)) db)
    | None => (Ok 0%Z, db)
    end.
End Pymongo.

(** The filter [{"_id": oid}]. *)
Definition by_id {A} (oid : ObjectId) : Document A -> bool :=
  fun d => N.eqb (_id d) oid.

(** [ObjectId(s)] inside a handler. *)
Definition ObjectId_of (s : string) : M ObjectId :=
  match oid_parse s with
  | Some oid => ret oid
  | None => raise InvalidId
  end.

(** ** Python numbers *)

(** An int as a float, rounded to nearest with ties to even;
    [OverflowError] when the int is beyond the range of a float. *)
Definition float_of_int (z : Z) : M float :=
  match binary_normalize prec emax z 0 false with
  | S754_infinity _ => raise OverflowError
  | sf => ret (SF2Prim sf)
  end.

(** [float(x)] *)
Definition py_float (x : number) : M float :=
  match x with
  | NInt z => float_of_int z
  | NFloat f => ret f
  end.

(** [x * n] for a float [x] and an int [n]: the int is converted first. *)
Definition float_mul_int (x : float) (n : Z) : M float :=
  y <- float_of_int n ;;
  ret (x * y)%float.

(** [num / den] rounded to the nearest integer, ties to even
    ([0 <= num], [0 < den]). *)
Definition div_half_even (num den : Z) : Z :=
  let q := (num / den)%Z in
  let r := (num mod den)%Z in
  match (2 * r ?= den)%Z with
  | Lt => q
  | Gt => (q + 1)%Z
  | Eq => if Z.even q then q else (q + 1)%Z
  end.

(** [round(x, 2)]: the exact value of [x] is rounded to a whole number of
    hundredths, ties to even, and that decimal is read back as the nearest
    float.  Zeros, infinities and NaN round to themselves. *)
Definition round2 (x : float) : float :=
  match Prim2SF x with
  | S754_finite s m e =>
      let hundredths :=
        match e with
        | Zneg p => div_half_even (Zpos m * 100) (Z.pow_pos 2 p)
        | _ => (Zpos m * 100 * 2 ^ e)%Z
        end in
      match hundredths with
      | Zpos n =>
          SF2Prim (SFdiv prec emax (S754_finite s n 0) (S754_finite false 100 0))
      | _ => SF2Prim (S754_zero s)
      end
  | _ => x
  end.

(** ** Filter documents and the store's regular expressions

    A pymongo filter on string-valued keys is a list of conditions, all of
    which a document has to meet.  A condition on an array-valued key is
    met when one element meets it, on an absent or null key never. *)

Inductive cond :=
| Equals (v : string)
| Regex (pattern options : string).

Definition query := list (string * cond).

(** The string values a condition on key [k] is tried against. *)
Definition opt_strings (o : option string) : list string :=
  match o with Some s => [s] | None => [] end.

Definition Category_strings (k : string) (c : Category.t) : list string :=
  if k =? "name" then [Category.name c]
  else if k =? "slug" then [Category.slug c]
  else if k =? "description" then opt_strings (Category.description c)
  else if k =? "image" then opt_strings (Category.image c)
  else [].

Definition Product_strings (k : string) (p : Product.t) : list string :=
  if k =? "title" then [Product.title p]
  else if k =? "description" then opt_strings (Product.description p)
  else if k =? "category" then [Product.category p]
  else if k =? "images" then Product.images p
  else if k =? "tags" then Product.tags p
  else [].

(** ASCII case folding, as the ["i"] option does it. *)
Definition lower (c : ascii) : ascii :=
  let n := N_of_ascii c in
  if ((65 <=? n) && (n <=? 90))%N then ascii_of_N (n + 32) else c.

Fixpoint lower_string (s : string) : string :=
  match s with
  | EmptyString => EmptyString
  | String c s' => String (lower c) (lower_string s')
  end.

(** The characters a regular expression reads as syntax. *)
Definition is_meta (c : ascii) : bool :=
  existsb (Ascii.eqb c)
    (list_ascii_of_string "\^$.[]|()?*+{}").

(** A character that stands for itself in a pattern: ASCII, not NUL and
    not syntax. *)
Definition is_plain (c : ascii) : bool :=
  negb (is_meta c) && (0 <? N_of_ascii c)%N && (N_of_ascii c <? 128)%N.

(** The modelled fragment of the pattern language: a sequence of plain
    characters and of dots. *)
Inductive atom :=
| Lit (c : ascii)
| Dot.

Fixpoint atoms (pattern : string) : option (list atom) :=
  match pattern with
  | EmptyString => Some []
  | String c p' =>
      let a :=
        if Ascii.eqb c "." then Some Dot
        else if is_plain c then Some (Lit c)
        else None in
      match a, atoms p' with
      | Some a, Some l => Some (a :: l)
      | _, _ => None
      end
  end.

(** A dot stands for any character but a newline. *)
Definition atom_matches (a : atom) (c : ascii) : bool :=
  match a with
  | Lit x => Ascii.eqb (lower x) (lower c)
  | Dot => negb (Ascii.eqb c "010")
  end.

Fixpoint match_here (p : list atom) (s : string) : bool :=
  match p, s with
  | [], _ => true
  | _ :: _, EmptyString => false
  | a :: p', String c s' => atom_matches a c && match_here p' s'
  end.

(** An unanchored pattern matches when it matches at some position. *)
Fixpoint search (p : list atom) (s : string) : bool :=
  match_here p s ||
  match s with
  | EmptyString => false
  | String _ s' => search p s'
  end.

(** Output documents: the stored fields under the id as a string. *)
Record WithId (A : Type) := mkWithId { id : string; fields : A }.
Arguments mkWithId {A}.
Arguments id {A}.
Arguments fields {A}.

(** [to_str_id] on a document of the store: it is not [None], and its
    [_id] is an ObjectId, which is truthy, so [_id] always gives way to
    [id]. *)
Definition to_str_id {A} (doc : Document A) : WithId A :=
  mkWithId (oid_str (_id doc)) (body doc).

Section Catalog.
(** The store's engine on the patterns and options outside the modelled
    fragment; [None] when it rejects the pattern. *)
Variable pcre : string -> string -> option (string -> bool).

Definition regex_compile (pattern options : string) : option (string -> bool) :=
  match atoms pattern with
  | Some p => if options =? "i" then Some (search p) else pcre pattern options
  | None => pcre pattern options
  end.

Definition compile_cond (c : cond) : option (string -> bool) :=
  match c with
  | Equals v => Some (String.eqb v)
  | Regex pattern options => regex_compile pattern options
  end.

(** The predicate a filter stands for; [None] when the store rejects
    one of its patterns. *)
Fixpoint compile_query {A} (strings : string -> A -> list string)
    (filt : query) : option (Document A -> bool) :=
  match filt with
  | [] => Some (fun _ => true)
  | (k, c) :: filt' =>
      match compile_cond c, compile_query strings filt' with
      | Some test, Some rest =>
          Some (fun d => existsb test (strings k (body d)) && rest d)
      | _, _ => None
      end
  end.

(** Modelled from the spec: [get_documents] of the absent [database.py],
    the gateway's [find(collection, filter) -> [doc]]. *)
Definition get_documents {A} (c : Collection A)
    (strings : string -> A -> list string) (filt : query)
    : M (list (Document A)) :=
  match compile_query strings filt with
  | Some test => find c test
  | None => raise OperationFailure
  end.

Definition list_categories : M (list Category.t) :=
  ds <- get_documents category Category_strings [] ;;
  ret (map body ds).

Definition list_products (category q : option string)
    : M (list (WithId Product.t)) :=
  let filt : query := [] in
  let filt :=
    if truthy category
    then filt ++ [("category", Equals (given category))]
    else filt in
  let filt :=
    if truthy q
    then filt ++ [("title", Regex (given q) "i")]
    else filt in
  docs <- get_documents product Product_strings filt ;;
  ret (map to_str_id docs).
End Catalog.

(** Modelled from the spec: [create_document] of the absent [database.py],
    the gateway's [insertOne(collection, doc) -> id]. *)
Definition create_document {A} (c : Collection A) (data : A) : M string :=
  oid <- insert_one c data ;;
  ret (oid_str oid).

(** ** main.py: startup seeding *)

Definition seed_categories : list Category.t :=
  [ Category.mk "Featured" "featured" (Some "Editor's picks") None;
    Category.mk "Accessories" "accessories" (Some "Bags & more") None;
    Category.mk "Tech" "tech" (Some "Gadgets & gear") None ].

Definition aurora_tote : Product.t :=
  Product.mk "Aurora Leather Tote"
      (Some "Premium full‑grain leather tote with magnetic closure.")
      (NInt 189) (Some (NInt 249)) "accessories"
      ["https://images.unsplash.com/photo-1548036328-c9fa89d128fa?q=80&w=1200&auto=format&fit=crop"]
      (NFloat 4.9) true ["bag"; "leather"; "tote"].

Definition nebula_earbuds : Product.t :=
  Product.mk "Nebula Wireless Earbuds"
      (Some "Active noise cancelation with 36h battery life.")
      (NInt 129) (Some (NInt 159)) "tech"
      ["https://images.unsplash.com/photo-1590658268037-6bf12165a8df?q=80&w=1200&auto=format&fit=crop"]
      (NFloat 4.7) true ["audio"; "wireless"].

Definition orbit_mug : Product.t :=
  Product.mk "Orbit Ceramic Mug"
      (Some "Matte ceramic with heat‑retaining double wall.")
      (NInt 24) (Some (NInt 0)) "featured"
      ["https://images.unsplash.com/photo-1504754524776-8f4f37790ca0?q=80&w=1200&auto=format&fit=crop"]
      (NFloat 4.8) true ["mug"; "ceramic"].

Definition sample : list Product.t := [aurora_tote; nebula_earbuds; orbit_mug].

(** The filter [{}]. *)
Definition all {A} : Document A -> bool := fun _ => true.

(** [seed_data], with the database configured: without one ([db is None])
    the function returns at once. *)
Definition seed_data : M unit :=
  n <- count_documents category all ;;
  (if Nat.eqb n 0
   then for_each seed_categories tt
          (fun _ c => insert_one category c ;; ret tt)
   else ret tt) ;;
  n <- count_documents product all ;;
  if Nat.eqb n 0
  then insert_many product sample ;; ret tt
  else ret tt.

(** ** main.py: catalog *)

Definition get_product (product_id : string) : M (WithId Product.t) :=
  doc <- try_except
           (oid <- ObjectId_of product_id ;;
            find_one product (by_id oid))
           (fun _ => raise (HTTPException 404 "Invalid product id")) ;;
  match doc with
  | None => raise (HTTPException 404 "Product not found")
  | Some d => ret (to_str_id d)
  end.

(** ** main.py: cart *)

Record StatusResponse := mkStatus { status : string }.

(** The request body of [/api/cart/add] read as a [CartItem]: [quantity]
    defaults to 1 and has to be at least 1. *)
Definition CartItem_validate (cart_id product_id : string)
    (quantity : option Z) : M CartItem.t :=
  let quantity := match quantity with Some n => n | None => 1%Z end in
  if (1 <=? quantity)%Z
  then ret (CartItem.mk cart_id product_id quantity)
  else raise RequestValidationError.

(** The filter [{"cart_id": c, "product_id": p}]. *)
Definition by_cart_product (c p : string) : Document CartItem.t -> bool :=
  fun d =>
    (CartItem.cart_id (body d) =? c) && (CartItem.product_id (body d) =? p).

(** The filter [{"cart_id": c}]. *)
Definition by_cart (c : string) : Document CartItem.t -> bool :=
  fun d => CartItem.cart_id (body d) =? c.

(** The update [{"$inc": {"quantity": n}}]. *)
Definition inc_quantity (n : Z) (it : CartItem.t) : CartItem.t :=
  CartItem.mk (CartItem.cart_id it) (CartItem.product_id it)
              (CartItem.quantity it + n).

Definition add_to_cart (item : CartItem.t) : M StatusResponse :=
  existing <- find_one cartitem
                (by_cart_product (CartItem.cart_id item) (CartItem.product_id item)) ;;
  match existing with
  | Some e =>
      update_one cartitem (by_id (_id e)) (inc_quantity (CartItem.quantity item)) ;;
      ret (mkStatus "updated")
  | None =>
      create_document cartitem item ;;
      ret (mkStatus "added")
  end.

(** [POST /api/cart/add]: the body is validated, then handled. *)
Definition post_cart_add (cart_id product_id : string) (quantity : Z)
    : M StatusResponse :=
  item <- CartItem_validate cart_id product_id (Some quantity) ;;
  add_to_cart item.

(** An entry of the cart listing: [{"id", "product", "quantity"}]. *)
Module CartLine.
Record t := mk {
  id : string;
  product : WithId Product.t;
  quantity : Z }.
End CartLine.

Definition get_cart (cart_id : string) : M (list CartLine.t) :=
  items <- find cartitem (by_cart cart_id) ;;
  for_each items []
    (fun result it =>
       oid <- ObjectId_of (CartItem.product_id (body it)) ;;
       p <- find_one product (by_id oid) ;;
       match p with
       | Some p =>
           ret (result ++ [CartLine.mk (oid_str (_id it)) (to_str_id p)
                                  (CartItem.quantity (body it))])
       | None => ret result
       end).

Module IdModel.
Record t := mk { id : string }.
End IdModel.

Definition remove_from_cart (payload : IdModel.t) : M StatusResponse :=
  deleted_count <- try_except
                     (oid <- ObjectId_of (IdModel.id payload) ;;
                      delete_one cartitem (by_id oid))
                     (fun _ => raise (HTTPException 400 "Invalid id")) ;;
  if (deleted_count =? 0)%Z
  then raise (HTTPException 404 "Item not found")
  else ret (mkStatus "removed").

(** ** main.py: checkout *)

Module CheckoutRequest.
Record t := mk { cart_id : string }.
End CheckoutRequest.

Module CheckoutResponse.
Record t := mk {
  subtotal : float;
  total : float;
  currency : string }.
End CheckoutResponse.

Definition checkout (payload : CheckoutRequest.t) : M CheckoutResponse.t :=
  items <- find cartitem (by_cart (CheckoutRequest.cart_id payload)) ;;
  subtotal <- for_each items 0%float
    (fun subtotal it =>
       oid <- ObjectId_of (CartItem.product_id (body it)) ;;
       p <- find_one product (by_id oid) ;;
       match p with
       | Some p =>
           price <- py_float (Product.price (body p)) ;;
           amount <- float_mul_int price (CartItem.quantity (body it)) ;;
           ret (subtotal + amount)%float
       | None => ret subtotal
       end) ;;
  let total := round2 (subtotal * 1.08)%float in
  ret (CheckoutResponse.mk (round2 subtotal) total "USD").

(** ** Store invariants and specification-side notions *)

(** What the store guarantees of a collection: identifiers are unique and
    were all handed out by the generator. *)
Definition ids_ok {A} (c : Collection A) (db : Database) : Prop :=
  NoDup (map _id (docs c db)) /\
  Forall (fun d => (_id d < next_oid db)%N) (docs c db).

(** The same of every collection. *)
Definition store_ok (db : Database) : Prop :=
  ids_ok category db /\ ids_ok product db /\ ids_ok cartitem db /\
  ids_ok order db.

Definition empty_db : Database := mkDb [] [] [] [] 0.

(** The value and the final database of a run. *)
Definition value_of {A} (run : result A * Database) : result A := fst run.
Definition db_after {A} (run : result A * Database) : Database := snd run.

(** A handler that leaves every database as it found it. *)
Definition read_only {A} (m : M A) : Prop := forall db, db_after (m db) = db.

(** [t] contains [q] as a substring, letter case aside. *)
Definition contains_ci (q t : string) : Prop :=
  exists pre post, lower_string t = (pre ++ lower_string q ++ post)%string.

(** A search text without characters of the pattern syntax. *)
Definition plain_text (q : string) : Prop :=
  string_forallb is_plain q = true.

(** The pattern a plain search text is. *)
Fixpoint lits (q : string) : list atom :=
  match q with
  | EmptyString => []
  | String c q' => Lit c :: lits q'
  end.

(** An engine that knows no pattern beyond the modelled fragment. *)
Definition no_pcre : string -> string -> option (string -> bool) :=
  fun _ _ => None.

(** The products [list_products] is to return: of the category, when one
    is named, and with the search text in the title, when one is given. *)
Definition selects (category q : option string) (p : Product.t) : Prop :=
  (forall c, category = Some c -> c <> "" -> Product.category p = c) /\
  (forall s, q = Some s -> contains_ci s (Product.title p)).

(** The same with an empty category string taken as a category. *)
Definition claimed_selects (category q : option string) (p : Product.t) : Prop :=
  (forall c, category = Some c -> Product.category p = c) /\
  (forall s, q = Some s -> contains_ci s (Product.title p)).

(** The string [product_id] names a product of the database. *)
Definition resolves (db : Database) (product_id : string) : Prop :=
  exists oid d,
    oid_parse product_id = Some oid /\ In d (db_product db) /\ _id d = oid.

(** The rows of a cart, and the product a row resolves to. *)
Definition cart_rows (db : Database) (cart_id : string)
    : list (Document CartItem.t) :=
  filter (by_cart cart_id) (db_cartitem db).

Definition resolve (db : Database) (it : Document CartItem.t)
    : option (Document Product.t) :=
  match oid_parse (CartItem.product_id (body it)) with
  | Some oid => List.find (by_id oid) (db_product db)
  | None => None
  end.

Definition well_formed_row (it : Document CartItem.t) : Prop :=
  well_formed_id (CartItem.product_id (body it)).

(** The line of [get_cart] for a row: none when the product is missing. *)
Definition cart_line (db : Database) (it : Document CartItem.t) : list CartLine.t :=
  match resolve db it with
  | Some p => [CartLine.mk (oid_str (_id it)) (to_str_id p) (CartItem.quantity (body it))]
  | None => []
  end.

(** The price and quantity a row brings to [checkout]. *)
Definition priced (db : Database) (it : Document CartItem.t) : list (number * Z) :=
  match resolve db it with
  | Some p => [(Product.price (body p), CartItem.quantity (body it))]
  | None => []
  end.

(** The cart's resolvable items. *)
Definition resolvable_items (db : Database) (cart_id : string)
    : list (number * Z) :=
  flat_map (priced db) (cart_rows db cart_id).

(** A number as the float [float(x)] is, overflow aside. *)
Definition float_value (x : number) : float :=
  match x with
  | NInt z => SF2Prim (binary_normalize prec emax z 0 false)
  | NFloat f => f
  end.

(** A number within the range of a float. *)
Definition in_float_range (z : Z) : Prop :=
  match binary_normalize prec emax z 0 false with
  | S754_infinity _ => False
  | _ => True
  end.

Definition convertible (pq : number * Z) : Prop :=
  match fst pq with NInt z => in_float_range z | NFloat _ => True end /\
  in_float_range (snd pq).

(** The sum of [price * quantity], accumulated from [0.0] in cart order. *)
Definition add_amount (acc : float) (pq : number * Z) : float :=
  (acc + float_value (fst pq) * float_value (NInt (snd pq)))%float.

Definition sum_price_quantity (l : list (number * Z)) : float :=
  fold_left add_amount l 0%float.

(** The 8% tax multiplier of [checkout]. *)
Definition with_tax (x : float) : float := (x * 1.08)%float.

(** ** Example databases *)

(** A fresh database after startup: three categories under the ids 0 to 2
    and three products under the ids 3 to 5. *)
Definition seeded_db : Database := db_after (seed_data empty_db).

(** The id of the seeded "Aurora Leather Tote", and a well-formed id that
    no document has. *)
Definition tote_id : string := "000000000000000000000003".
Definition ghost_id : string := "00000000000000000000ffff".

(** Cart [cart-1] with two totes. *)
Definition cart_db : Database :=
  db_after (post_cart_add "cart-1" tote_id 2 seeded_db).

(** The same, and cart [cart-2] with one row, of a malformed product id. *)
Definition stray_db : Database :=
  db_after (post_cart_add "cart-2" "not-an-id" 1 cart_db).

(** Cart [cart-1] with two totes and a row of a malformed product id. *)
Definition mixed_db : Database :=
  db_after (post_cart_add "cart-1" "not-an-id" 1 cart_db).

(** Cart [cart-1] with two totes and a row of a product that is gone. *)
Definition ghost_db : Database :=
  db_after (post_cart_add "cart-1" ghost_id 1 cart_db).

(** One product at 100.00 and a cart with two of it. *)
Definition hundred_db : Database :=
  mkDb []
       [mkDoc 0%N (Product.mk "Gift card" None (NFloat 100) None "featured" []
                              (NFloat 4.8) true [])]
       [mkDoc 1%N (CartItem.mk "cart-1" (oid_str 0%N) 2)]
       [] 2.

(** ** main.py: [to_str_id] on any dict

    The function as it is written, on Python dicts of any shape: a dict is
    the list of its items in insertion order. *)

Module Raw.
#[local] Set Warnings "-register-all".

Inductive value :=
| VNone
| VBool (b : bool)
| VInt (z : Z)
| VFloat (f : float)
| VStr (s : string)
| VOid (oid : ObjectId)
| VList (l : list value).

Definition dict := list (string * value).

(** [d.get(k)]: [None] when the key is missing. *)
Fixpoint get (k : string) (d : dict) : value :=
  match d with
  | [] => VNone
  | (k', v) :: d' => if k' =? k then v else get k d'
  end.

(** [k in d] *)
Definition has (k : string) (d : dict) : bool :=
  existsb (fun kv => fst kv =? k) d.

(** [d.pop(k)]: the value and the dict without the key; nothing, for the
    [KeyError], when the key is missing. *)
Fixpoint pop (k : string) (d : dict) : option (value * dict) :=
  match d with
  | [] => None
  | (k', v) :: d' =>
      if k' =? k then Some (v, d')
      else match pop k d' with
           | Some (x, d'') => Some (x, (k', v) :: d'')
           | None => None
           end
  end.

(** [d[k] = v]: an old key keeps its place, a new one goes last. *)
Fixpoint set (k : string) (v : value) (d : dict) : dict :=
  match d with
  | [] => [(k, v)]
  | (k', v') :: d' =>
      if k' =? k then (k, v) :: d' else (k', v') :: set k v d'
  end.

(** Python's truth value. *)
Definition truthy (v : value) : bool :=
  match v with
  | VNone => false
  | VBool b => b
  | VInt z => negb (z =? 0)%Z
  | VFloat f => negb (PrimFloat.eqb f 0)
  | VStr s => negb (s =? "")
  | VOid _ => true
  | VList l => match l with [] => false | _ => true end
  end.

Inductive outcome :=
| Returned (d : option dict)
| KeyError.

Section Str.
(** [str] on the values that are neither strings nor ObjectIds. *)
Variable repr : value -> string.

Definition str (v : value) : string :=
  match v with
  | VStr s => s
  | VOid oid => oid_str oid
  | _ => repr v
  end.

Definition to_str_id (doc : option dict) : outcome :=
  match doc with
  | None => Returned None
  | Some doc =>
      let d := doc in
      if truthy (get "_id" d)
      then match pop "_id" d with
           | Some (v, d) => Returned (Some (set "id" (VStr (str v)) d))
           | None => KeyError
           end
      else Returned (Some d)
  end.
End Str.
End Raw.

(** A stored document as the dict pymongo hands out: [_id] first. *)
Definition stored (oid : ObjectId) (fields : Raw.dict) : Raw.dict :=
  ("_id", Raw.VOid oid) :: fields.

(** ** main.py: the routes

    A request to one of the seven routes under [/api], with the arguments
    FastAPI hands to its handler: the query parameters, the path parameter
    or the fields of the JSON body. *)

Inductive request :=
| GetCategories
| GetProducts (category q : option string)
| GetProduct (product_id : string)
| PostCartAdd (cart_id product_id : string) (quantity : option Z)
| GetCart (cart_id : string)
| PostCartRemove (id : string)
| PostCheckout (cart_id : string).

(** What a handler leaves of a request: the status code and the database. *)
Definition answer {A} (m : M A) : Database -> Z * Database :=
  fun db => (status_of (value_of (m db)), db_after (m db)).

Section Routes.
Variable pcre : string -> string -> option (string -> bool).

(** The handler of the route; the body of [/api/cart/add] is read as a
    [CartItem] first. *)
Definition serve (r : request) : Database -> Z * Database :=
  match r with
  | GetCategories => answer (list_categories pcre)
  | GetProducts category q => answer (list_products pcre category q)
  | GetProduct product_id => answer (get_product product_id)
  | PostCartAdd cart_id product_id quantity =>
      answer (item <- CartItem_validate cart_id product_id quantity ;;
              add_to_cart item)
  | GetCart cart_id => answer (get_cart cart_id)
  | PostCartRemove id => answer (remove_from_cart (IdModel.mk id))
  | PostCheckout cart_id => answer (checkout (CheckoutRequest.mk cart_id))
  end.

(** The database after a sequence of requests. *)
Definition serve_all (rs : list request) (db : Database) : Database :=
  fold_left (fun db r => snd (serve r db)) rs db.
End Routes.

(** The requests to [/api/cart/remove]. *)
Definition is_remove (r : request) : bool :=
  match r with PostCartRemove _ => true | _ => false end.

(** ** Carts *)

(** The cart and the product a row is of. *)
Definition cart_key (d : Document CartItem.t) : string * string :=
  (CartItem.cart_id (body d), CartItem.product_id (body d)).

(** No two rows of the same cart and product id string, and no quantity
    below 1. *)
Definition cart_ok (db : Database) : Prop :=
  NoDup (map cart_key (db_cartitem db)) /\
  Forall (fun d => (1 <= CartItem.quantity (body d))%Z) (db_cartitem db).

(** What the client sees of a cart: the listing and the quote. *)
Definition cart_view (db : Database) (cart_id : string)
    : result (list CartLine.t) * result CheckoutResponse.t :=
  (value_of (get_cart cart_id db),
   value_of (checkout (CheckoutRequest.mk cart_id) db)).

(** The price and quantity of a line of the listing. *)
Definition line_amount (line : CartLine.t) : number * Z :=
  (Product.price (fields (CartLine.product line)), CartLine.quantity line).

(** The quote for a listing: the sum of price times quantity over its
    lines, and that sum with tax, both rounded to 2 decimals. *)
Definition quote_of (lines : list CartLine.t) : CheckoutResponse.t :=
  let subtotal := sum_price_quantity (map line_amount lines) in
  CheckoutResponse.mk (round2 subtotal) (round2 (with_tax subtotal)) "USD".

(** A line of the listing with its quantity raised by [n]. *)
Definition raise_quantity (line_id : string) (n : Z) (line : CartLine.t)
    : CartLine.t :=
  if CartLine.id line =? line_id
  then CartLine.mk (CartLine.id line) (CartLine.product line)
                   (CartLine.quantity line + n)
  else line.

(** A row is still there, with no less of its product. *)
Definition row_kept (row : Document CartItem.t) (db : Database) : Prop :=
  exists row', In row' (db_cartitem db) /\ _id row' = _id row /\
    cart_key row' = cart_key row /\
    (CartItem.quantity (body row) <= CartItem.quantity (body row'))%Z.

(** The row of [db] that [row] was, or is. *)
Definition row_from (db : Database) (row : Document CartItem.t) : Prop :=
  exists row0, In row0 (db_cartitem db) /\ _id row0 = _id row /\
    cart_key row0 = cart_key row.

(** One product under the id [ab] (hexadecimal), and nothing else. *)
Definition lettered_db : Database :=
  mkDb [] [mkDoc 171%N orbit_mug] [] [] 172.

(** * Proof automation *)

(** Closed goals about the example databases. *)
Ltac prove_nodup :=
  repeat (apply NoDup_cons; [cbn; intuition discriminate|]); apply NoDup_nil.

Ltac prove_ids_ok :=
  split;
  [ vm_compute; prove_nodup
  | vm_compute; repeat (constructor; [reflexivity|]); constructor ].

Ltac prove_well_formed_rows :=
  vm_compute; repeat (constructor; [split; reflexivity|]); constructor.

(** * Identifiers *)

Lemma hex_value_hex_char (d : N) : (d < 16)%N -> hex_value (hex_char d) = Some d.
Proof.
  intros H. destruct d as [|p]; [reflexivity|].
  do 4 (destruct p as [p|p|]; try reflexivity); lia.
Qed.

Lemma length_hexlify (k : nat) : forall n acc,
  String.length (hexlify k n acc) = (k + String.length acc)%nat.
Proof.
  induction k as [|k IH]; intros n acc; simpl; [reflexivity|].
  rewrite IH. simpl. lia.
Qed.

Lemma fromhex_hexlify (k : nat) : forall n acc a,
  fromhex a (hexlify k n acc)
  = fromhex (a * 16 ^ N.of_nat k + n mod 16 ^ N.of_nat k)%N acc.
Proof.
  induction k as [|k IH]; intros n acc a.
  - cbn [hexlify N.of_nat]. rewrite N.pow_0_r, N.mod_1_r, N.mul_1_r, N.add_0_r. reflexivity.
  - cbn [hexlify]. rewrite IH. cbn [fromhex].
    rewrite hex_value_hex_char by (apply N.mod_lt; lia).
    f_equal. rewrite Nat2N.inj_succ, N.pow_succ_r'.
    rewrite N.Div0.mod_mul_r. lia.
Qed.

(** An identifier of 12 bytes is read back from its string. *)
Lemma oid_parse_str (oid : ObjectId) :
  (oid < oid_bound)%N -> oid_parse (oid_str oid) = Some oid.
Proof.
  intros H. unfold oid_parse, oid_str.
  rewrite length_hexlify. cbn [String.length Nat.add Nat.eqb].
  rewrite fromhex_hexlify. cbn [fromhex]. f_equal.
  change (16 ^ N.of_nat 24)%N with oid_bound.
  rewrite N.mod_small by exact H. lia.
Qed.

Lemma fromhex_none (s : string) : forall a,
  fromhex a s = None <-> string_forallb is_hex s = false.
Proof.
  induction s as [|c s IH]; intros a; simpl.
  - split; discriminate.
  - unfold is_hex. destruct (hex_value c).
    + simpl. apply IH.
    + simpl. tauto.
Qed.

(** [ObjectId(s)] succeeds exactly on the strings of the identifier format. *)
Lemma oid_parse_well_formed (s : string) :
  well_formed_id s <-> exists oid, oid_parse s = Some oid.
Proof.
  unfold well_formed_id, oid_parse. split.
  - intros [Hlen Hhex]. rewrite Hlen. simpl.
    destruct (fromhex 0 s) eqn:E; [eauto|].
    apply fromhex_none in E. congruence.
  - intros [oid H]. destruct (Nat.eqb_spec (String.length s) 24); [|discriminate].
    split; [assumption|].
    destruct (string_forallb is_hex s) eqn:E; [reflexivity|].
    apply (fromhex_none s 0%N) in E. congruence.
Qed.

Lemma oid_parse_malformed (s : string) :
  ~ well_formed_id s <-> oid_parse s = None.
Proof.
  rewrite oid_parse_well_formed. destruct (oid_parse s); split; intros H.
  - exfalso. apply H. eauto.
  - discriminate.
  - reflexivity.
  - intros [x Hx]. discriminate.
Qed.

(** * Lists of documents *)

Section ListFacts.
Context {A : Type}.
Implicit Types (f : A -> bool) (l : list A).

Lemma find_first f l x :
  List.find f l = Some x ->
  exists before after,
    l = before ++ x :: after /\ f x = true /\
    Forall (fun y => f y = false) before.
Proof.
  induction l as [|y l IH]; simpl; [discriminate|].
  destruct (f y) eqn:E.
  - intros [= ->]. exists [], l. auto.
  - intros H. destruct (IH H) as (b & a & -> & Hx & Hb).
    exists (y :: b), a. auto.
Qed.

Lemma find_skip f before x after :
  Forall (fun y => f y = false) before -> f x = true ->
  List.find f (before ++ x :: after) = Some x.
Proof.
  induction 1 as [|y l Hy _ IH]; intros Hx; simpl.
  - now rewrite Hx.
  - rewrite Hy. auto.
Qed.

Lemma find_absent f l :
  Forall (fun y => f y = false) l -> List.find f l = None.
Proof.
  induction 1 as [|y l Hy _ IH]; simpl; [reflexivity|]. now rewrite Hy.
Qed.

Lemma find_none_absent f l :
  List.find f l = None -> Forall (fun y => f y = false) l.
Proof.
  induction l as [|y l IH]; simpl; [constructor|].
  destruct (f y) eqn:E; [discriminate|]. auto.
Qed.

Lemma filter_absent f l :
  Forall (fun y => f y = false) l -> filter f l = [].
Proof.
  induction 1 as [|y l Hy _ IH]; simpl; [reflexivity|]. now rewrite Hy.
Qed.

End ListFacts.

Section DocFacts.
Context {A : Type}.
Implicit Types (l before after : list (Document A)) (d row : Document A).

Lemma update_first_at (filt : Document A -> bool) upd before row after :
  Forall (fun y => filt y = false) before -> filt row = true ->
  update_first filt upd (before ++ row :: after)
  = before ++ mkDoc (_id row) (upd (body row)) :: after.
Proof.
  induction 1 as [|y l Hy _ IH]; intros Hrow; simpl.
  - now rewrite Hrow.
  - rewrite Hy. f_equal. auto.
Qed.

Lemma delete_first_at (filt : Document A -> bool) before row after :
  Forall (fun y => filt y = false) before -> filt row = true ->
  delete_first filt (before ++ row :: after) = before ++ after.
Proof.
  induction 1 as [|y l Hy _ IH]; intros Hrow; simpl.
  - now rewrite Hrow.
  - rewrite Hy. f_equal. auto.
Qed.

Lemma by_id_refl d : by_id (_id d) d = true.
Proof. apply N.eqb_refl. Qed.

(** In a list without repeated ids, no other document answers to the id
    of [row]. *)
Lemma by_id_unique before row after :
  NoDup (map _id (before ++ row :: after)) ->
  Forall (fun y => by_id (_id row) y = false) before /\
  Forall (fun y => by_id (_id row) y = false) after.
Proof.
  rewrite map_app. cbn [map]. intros H.
  apply NoDup_remove_2 in H. rewrite in_app_iff in H.
  split; apply Forall_forall; intros y Hy; apply N.eqb_neq; intros E;
    apply H; [left | right]; rewrite <- E; now apply in_map.
Qed.

End DocFacts.

Lemma by_id_false {A} (oid : ObjectId) (l : list (Document A)) :
  Forall (fun d => _id d <> oid) l <-> Forall (fun d => by_id oid d = false) l.
Proof.
  split; intros H; eapply Forall_impl; try exact H; intros d Hd;
    unfold by_id in *; now apply N.eqb_neq.
Qed.

Lemma find_by_id_member {A} (l : list (Document A)) (d : Document A) :
  NoDup (map _id l) -> In d l -> List.find (by_id (_id d)) l = Some d.
Proof.
  intros Hnd Hin. apply in_split in Hin. destruct Hin as (before & after & ->).
  apply find_skip; [|apply by_id_refl]. apply (by_id_unique _ _ _ Hnd).
Qed.

Lemma NoDup_insert_fresh {A} (l : list (Document A)) (oid : ObjectId) (a : A) :
  NoDup (map _id l) -> Forall (fun d => (_id d < oid)%N) l ->
  NoDup (map _id (l ++ [mkDoc oid a])).
Proof.
  intros Hnd Hlt. rewrite map_app. cbn [map _id].
  apply NoDup_app; [exact Hnd | repeat constructor; simpl; tauto |].
  intros x Hx [<- | []]. apply in_map_iff in Hx. destruct Hx as (d & E & Hd).
  rewrite Forall_forall in Hlt. specialize (Hlt d Hd). cbv beta in Hlt.
  unfold ObjectId in *. lia.
Qed.

(** * The store invariant

    [store_ok] holds of the empty database and every handler keeps it, so
    it holds of every database the handlers can produce. *)

Lemma store_ok_empty : store_ok empty_db.
Proof. repeat split; cbn; constructor. Qed.

Lemma ids_lt_mono {A} (l : list (Document A)) (n m : N) :
  (n <= m)%N -> Forall (fun d => (_id d < n)%N) l -> Forall (fun d => (_id d < m)%N) l.
Proof.
  intros Hnm H. eapply Forall_impl; [|exact H]. intros d Hd. cbv beta in Hd.
  unfold ObjectId in *. lia.
Qed.

Lemma ids_lt_insert {A} (l : list (Document A)) (n : N) (a : A) :
  Forall (fun d => (_id d < n)%N) l ->
  Forall (fun d => (_id d < N.succ n)%N) (l ++ [mkDoc n a]).
Proof.
  intros H. apply Forall_app. split.
  - apply (ids_lt_mono l n); [lia | exact H].
  - constructor; [cbn; lia | constructor].
Qed.

Lemma map_id_update_first {A} (filt : Document A -> bool) (upd : A -> A) l :
  map _id (update_first filt upd l) = map _id l.
Proof.
  induction l as [|d l IH]; cbn; [reflexivity|].
  destruct (filt d); cbn; [reflexivity | now rewrite IH].
Qed.

Lemma ids_lt_update_first {A} (filt : Document A -> bool) (upd : A -> A) l n :
  Forall (fun d => (_id d < n)%N) l ->
  Forall (fun d => (_id d < n)%N) (update_first filt upd l).
Proof.
  induction 1 as [|d l Hd Hl IH]; cbn; [constructor|].
  destruct (filt d); constructor; cbn [_id]; assumption.
Qed.

Lemma delete_first_incl {A} (filt : Document A -> bool) l :
  forall d, In d (delete_first filt l) -> In d l.
Proof.
  induction l as [|x l IH]; cbn; [tauto|]. intros d.
  destruct (filt x); cbn; [tauto|]. intros [-> | H]; auto.
Qed.

Lemma NoDup_delete_first {A} (filt : Document A -> bool) l :
  NoDup (map _id l) -> NoDup (map _id (delete_first filt l)).
Proof.
  induction l as [|x l IH]; cbn; [trivial|]. intros H.
  apply NoDup_cons_iff in H. destruct H as [Hx Hl].
  destruct (filt x); [exact Hl|]. cbn. apply NoDup_cons; [|auto].
  intros Hin. apply Hx. apply in_map_iff in Hin. destruct Hin as (d & E & Hd).
  apply in_map_iff. exists d. split; [exact E|]. now apply (delete_first_incl filt).
Qed.

Lemma ids_lt_delete_first {A} (filt : Document A -> bool) l n :
  Forall (fun d => (_id d < n)%N) l ->
  Forall (fun d => (_id d < n)%N) (delete_first filt l).
Proof.
  intros H. apply Forall_forall. intros d Hd. rewrite Forall_forall in H.
  apply H. now apply (delete_first_incl filt).
Qed.

(** The parts of [store_ok], one pair per collection. *)
Ltac split_store_ok H :=
  destruct H as ((?Hn1 & ?Hl1) & (?Hn2 & ?Hl2) & (?Hn3 & ?Hl3) & (?Hn4 & ?Hl4));
  cbn [docs category product cartitem order] in *.

(** One insertion into each of the collections a handler writes. *)
Lemma insert_one_cartitem_ok (a : CartItem.t) (db : Database) :
  store_ok db -> store_ok (db_after (insert_one cartitem a db)).
Proof.
  intros H. split_store_ok H. unfold insert_one, db_after, store_ok, ids_ok.
  cbn [snd docs set_docs bump_oid category product cartitem order
       db_category db_product db_cartitem db_order next_oid].
  repeat split; try assumption;
    try (apply NoDup_insert_fresh; assumption);
    try (apply ids_lt_insert; assumption);
    (eapply ids_lt_mono; [|eassumption]; lia).
Qed.

Lemma insert_one_category_ok (a : Category.t) (db : Database) :
  store_ok db -> store_ok (db_after (insert_one category a db)).
Proof.
  intros H. split_store_ok H. unfold insert_one, db_after, store_ok, ids_ok.
  cbn [snd docs set_docs bump_oid category product cartitem order
       db_category db_product db_cartitem db_order next_oid].
  repeat split; try assumption;
    try (apply NoDup_insert_fresh; assumption);
    try (apply ids_lt_insert; assumption);
    (eapply ids_lt_mono; [|eassumption]; lia).
Qed.

Lemma insert_one_product_ok (a : Product.t) (db : Database) :
  store_ok db -> store_ok (db_after (insert_one product a db)).
Proof.
  intros H. split_store_ok H. unfold insert_one, db_after, store_ok, ids_ok.
  cbn [snd docs set_docs bump_oid category product cartitem order
       db_category db_product db_cartitem db_order next_oid].
  repeat split; try assumption;
    try (apply NoDup_insert_fresh; assumption);
    try (apply ids_lt_insert; assumption);
    (eapply ids_lt_mono; [|eassumption]; lia).
Qed.

Lemma add_to_cart_ok (item : CartItem.t) (db : Database) :
  store_ok db -> store_ok (db_after (add_to_cart item db)).
Proof.
  intros H. unfold add_to_cart, bind, find_one.
  destruct (List.find _ (docs cartitem db)) as [e|].
  - split_store_ok H. unfold update_one, ret, db_after, store_ok, ids_ok.
    cbn [snd docs set_docs category product cartitem order
         db_category db_product db_cartitem db_order next_oid].
    rewrite map_id_update_first.
    repeat split; try assumption. now apply ids_lt_update_first.
  - unfold create_document, bind, ret.
    pose proof (insert_one_cartitem_ok item db H) as Hins.
    unfold db_after in *. destruct (insert_one cartitem item db) as [[oid|e] db'];
      exact Hins.
Qed.

Lemma post_cart_add_ok (c p : string) (q : Z) (db : Database) :
  store_ok db -> store_ok (db_after (post_cart_add c p q db)).
Proof.
  intros H. unfold post_cart_add, CartItem_validate, bind.
  destruct (1 <=? q)%Z; [|exact H]. apply (add_to_cart_ok _ db H).
Qed.

Lemma remove_from_cart_ok (payload : IdModel.t) (db : Database) :
  store_ok db -> store_ok (db_after (remove_from_cart payload db)).
Proof.
  intros H. unfold remove_from_cart, bind, try_except, ObjectId_of.
  destruct (oid_parse (IdModel.id payload)) as [oid|]; [|exact H].
  unfold ret, delete_one. destruct (List.find _ (docs cartitem db)); [|exact H].
  split_store_ok H. unfold db_after, store_ok, ids_ok.
  cbn [snd docs set_docs category product cartitem order
       db_category db_product db_cartitem db_order next_oid Z.eqb].
  repeat split; try assumption;
    [now apply NoDup_delete_first | now apply ids_lt_delete_first].
Qed.

Lemma insert_many_product_ok (l : list Product.t) :
  forall db, store_ok db -> store_ok (db_after (insert_many product l db)).
Proof.
  induction l as [|a l IH]; intros db H; [exact H|].
  cbn [insert_many]. unfold bind.
  pose proof (insert_one_product_ok a db H) as H1. unfold db_after in H1.
  destruct (insert_one product a db) as [[oid|e] db1]; [|exact H1].
  cbn [snd] in H1. specialize (IH db1 H1). unfold db_after in IH.
  destruct (insert_many product l db1) as [[oids|e] db2]; exact IH.
Qed.

Lemma seed_categories_ok (l : list Category.t) :
  forall db, store_ok db ->
    store_ok (db_after (for_each l tt (fun _ c => insert_one category c ;; ret tt) db)).
Proof.
  induction l as [|a l IH]; intros db H; [exact H|].
  cbn [for_each]. unfold bind at 1. unfold bind at 1.
  pose proof (insert_one_category_ok a db H) as H1. unfold db_after in H1.
  destruct (insert_one category a db) as [[oid|e] db1]; [|exact H1].
  cbn [snd] in H1. unfold ret at 1. apply (IH db1 H1).
Qed.

Lemma seed_products_ok (db : Database) :
  store_ok db ->
  store_ok (db_after
    ((n <- count_documents product all ;;
      if Nat.eqb n 0 then insert_many product sample ;; ret tt else ret tt) db)).
Proof.
  intros H. unfold bind at 1. unfold count_documents.
  destruct (Nat.eqb _ 0); [|exact H].
  unfold bind. pose proof (insert_many_product_ok sample db H) as H2.
  unfold db_after in H2.
  destruct (insert_many product sample db) as [[oids|e] db2]; exact H2.
Qed.

Lemma seed_data_ok (db : Database) :
  store_ok db -> store_ok (db_after (seed_data db)).
Proof.
  intros H. unfold seed_data. unfold bind at 1. unfold count_documents at 1.
  unfold bind at 1.
  destruct (Nat.eqb _ 0).
  - pose proof (seed_categories_ok seed_categories db H) as H1.
    unfold db_after in H1.
    destruct (for_each seed_categories tt _ db) as [[[]|e] db1]; [|exact H1].
    apply (seed_products_ok db1 H1).
  - unfold ret at 1. apply (seed_products_ok db H).
Qed.

Lemma example_stores_ok :
  store_ok seeded_db /\ store_ok cart_db /\ store_ok stray_db /\
  store_ok mixed_db /\ store_ok ghost_db.
Proof.
  assert (H0 : store_ok seeded_db) by apply seed_data_ok, store_ok_empty.
  assert (H1 : store_ok cart_db) by apply post_cart_add_ok, H0.
  split; [exact H0|]. split; [exact H1|].
  split; [|split]; apply post_cart_add_ok, H1.
Qed.

Lemma store_ok_cartitem (db : Database) : store_ok db -> ids_ok cartitem db.
Proof. now intros (_ & _ & H & _). Qed.

Lemma store_ok_product (db : Database) : store_ok db -> ids_ok product db.
Proof. now intros (_ & H & _). Qed.


(** * The cart: adding *)

Lemma add_to_cart_updates (db : Database) (item : CartItem.t) before row after :
  NoDup (map _id (db_cartitem db)) ->
  db_cartitem db = before ++ row :: after ->
  by_cart_product (CartItem.cart_id item) (CartItem.product_id item) row = true ->
  Forall (fun d => by_cart_product (CartItem.cart_id item) (CartItem.product_id item) d = false) before ->
  add_to_cart item db =
    (Ok (mkStatus "updated"),
     set_docs cartitem
       (before ++ mkDoc (_id row) (inc_quantity (CartItem.quantity item) (body row)) :: after) db).
Proof.
  intros Hnd Hsplit Hrow Hbefore.
  assert (E : List.find (by_cart_product (CartItem.cart_id item) (CartItem.product_id item))
                (db_cartitem db) = Some row).
  { rewrite Hsplit. now apply find_skip. }
  unfold add_to_cart, bind, find_one, update_one, ret. cbn [docs cartitem].
  rewrite E. cbn [set_docs]. rewrite Hsplit in Hnd |- *.
  rewrite update_first_at; [reflexivity | | apply by_id_refl].
  apply (by_id_unique _ _ _ Hnd).
Qed.

Lemma add_to_cart_adds (db : Database) (item : CartItem.t) :
  Forall (fun d => by_cart_product (CartItem.cart_id item) (CartItem.product_id item) d = false)
         (db_cartitem db) ->
  add_to_cart item db =
    (Ok (mkStatus "added"),
     bump_oid (set_docs cartitem (db_cartitem db ++ [mkDoc (next_oid db) item]) db)).
Proof.
  intros H. unfold add_to_cart, bind, find_one, create_document, insert_one, ret, bind.
  cbn [docs cartitem]. rewrite (find_absent _ _ H). reflexivity.
Qed.

Lemma post_cart_add_valid (c p : string) (q : Z) (db : Database) :
  (1 <= q)%Z -> post_cart_add c p q db = add_to_cart (CartItem.mk c p q) db.
Proof.
  intros H. unfold post_cart_add, CartItem_validate, bind.
  destruct (Z.leb_spec 1 q); [reflexivity | lia].
Qed.

(** C1.  Adding to a cart with a quantity [q >= 1] looks up the row of
    cart [c] and product [p] by exact equality of both strings.  When there
    is one, [row] being the first, the answer is ["updated"] and the store
    is the old one but for that row, whose quantity has grown by [q].  When
    there is none, the answer is ["added"] and the store has one more row,
    of [c], [p] and [q].  Then two calls with quantity 1 answer ["added"]
    and ["updated"] and leave exactly one row of [c] and [p], of
    quantity 2. *)
Theorem add_to_cart_upsert (db : Database) (c p : string) (q : Z) :
  (1 <= q)%Z -> ids_ok cartitem db ->
  (forall before row after,
      db_cartitem db = before ++ row :: after ->
      by_cart_product c p row = true ->
      Forall (fun d => by_cart_product c p d = false) before ->
      post_cart_add c p q db =
        (Ok (mkStatus "updated"),
         set_docs cartitem
           (before ++ mkDoc (_id row) (inc_quantity q (body row)) :: after) db))
  /\ (Forall (fun d => by_cart_product c p d = false) (db_cartitem db) ->
      post_cart_add c p q db =
        (Ok (mkStatus "added"),
         bump_oid (set_docs cartitem
           (db_cartitem db ++ [mkDoc (next_oid db) (CartItem.mk c p q)]) db))
      /\
      let first := post_cart_add c p 1 db in
      let second := post_cart_add c p 1 (db_after first) in
      value_of first = Ok (mkStatus "added") /\
      value_of second = Ok (mkStatus "updated") /\
      filter (by_cart_product c p) (db_cartitem (db_after second))
      = [mkDoc (next_oid db) (CartItem.mk c p 2)]).
Proof.
  intros Hq [Hnd Hlt]. cbn [docs cartitem] in Hnd, Hlt. split.
  - intros before row after Hsplit Hrow Hbefore.
    rewrite post_cart_add_valid by exact Hq.
    now apply (add_to_cart_updates db (CartItem.mk c p q) before row after).
  - intros Habsent. split.
    + rewrite post_cart_add_valid by exact Hq.
      exact (add_to_cart_adds db (CartItem.mk c p q) Habsent).
    + cbv zeta. rewrite !post_cart_add_valid by lia.
      rewrite (add_to_cart_adds db (CartItem.mk c p 1) Habsent).
      cbn [db_after value_of fst snd]. split; [reflexivity|].
      set (row := mkDoc (next_oid db) (CartItem.mk c p 1)).
      assert (Hrow : by_cart_product c p row = true).
      { unfold by_cart_product, row. cbn. now rewrite !String.eqb_refl. }
      rewrite (add_to_cart_updates _ (CartItem.mk c p 1) (db_cartitem db) row []);
        [ | | reflexivity | exact Hrow | exact Habsent ].
      * cbn [db_after value_of fst snd set_docs cartitem db_cartitem].
        split; [reflexivity|].
        rewrite filter_app, (filter_absent _ _ Habsent). cbn [filter app].
        unfold by_cart_product. cbn. now rewrite !String.eqb_refl.
      * cbn [bump_oid set_docs cartitem db_cartitem].
        now apply NoDup_insert_fresh.
Qed.

Lemma add_to_cart_upsert_witness :
  (1 <= 5)%Z /\ ids_ok cartitem cart_db /\
  post_cart_add "cart-1" tote_id 5 cart_db
  = (Ok (mkStatus "updated"),
     set_docs cartitem [mkDoc 6%N (CartItem.mk "cart-1" tote_id 7)] cart_db) /\
  value_of (post_cart_add "cart-9" tote_id 1 cart_db) = Ok (mkStatus "added") /\
  value_of (post_cart_add "cart-9" tote_id 1
              (db_after (post_cart_add "cart-9" tote_id 1 cart_db)))
  = Ok (mkStatus "updated") /\
  filter (by_cart_product "cart-9" tote_id)
    (db_cartitem (db_after (post_cart_add "cart-9" tote_id 1
       (db_after (post_cart_add "cart-9" tote_id 1 cart_db)))))
  = [mkDoc 7%N (CartItem.mk "cart-9" tote_id 2)].
Proof.
  assert (Hq : (1 <= 5)%Z) by lia.
  assert (Hok : ids_ok cartitem cart_db) by prove_ids_ok.
  split; [exact Hq|]. split; [exact Hok|]. split.
  - destruct (add_to_cart_upsert cart_db "cart-1" tote_id 5 Hq Hok) as [Hup _].
    apply (Hup [] (mkDoc 6%N (CartItem.mk "cart-1" tote_id 2)) []);
      [reflexivity | reflexivity | constructor].
  - destruct (add_to_cart_upsert cart_db "cart-9" tote_id 5 Hq Hok) as [_ Hadd].
    destruct Hadd as [_ Htwice].
    + vm_compute. repeat (constructor; [reflexivity|]). constructor.
    + exact Htwice.
Defined.

(** C10.  [add_to_cart] takes the product id as the string it is: for any
    [p], well-formed or not, naming a product or not, and any [q >= 1] the
    call answers ["added"] or ["updated"], leaves the products alone, and
    leaves a row of cart [c] with product id [p].  A [p] that names no
    product before the call names none after it, so the row references no
    existing product. *)
Theorem add_to_cart_accepts_any_product_id
    (db : Database) (c p : string) (q : Z) :
  (1 <= q)%Z -> ids_ok cartitem db ->
  let run := post_cart_add c p q db in
  (value_of run = Ok (mkStatus "added") \/ value_of run = Ok (mkStatus "updated")) /\
  db_product (db_after run) = db_product db /\
  (exists row, In row (db_cartitem (db_after run)) /\
               CartItem.cart_id (body row) = c /\
               CartItem.product_id (body row) = p) /\
  (~ resolves db p -> ~ resolves (db_after run) p).
Proof.
  intros Hq [Hnd _]. cbn [docs cartitem] in Hnd. cbv zeta.
  rewrite post_cart_add_valid by exact Hq.
  destruct (List.find (by_cart_product c p) (db_cartitem db)) as [row|] eqn:E.
  - apply find_first in E. destruct E as (before & after & Hsplit & Hrow & Hbefore).
    rewrite (add_to_cart_updates db (CartItem.mk c p q) before row after
               Hnd Hsplit Hrow Hbefore).
    cbn [value_of db_after fst snd set_docs cartitem db_product db_cartitem].
    split; [now right|]. split; [reflexivity|]. split; [|unfold resolves; tauto].
    unfold by_cart_product in Hrow. apply andb_prop in Hrow.
    destruct Hrow as [Hc Hp]. apply String.eqb_eq in Hc, Hp.
    eexists. split; [apply in_or_app; right; left; reflexivity|].
    cbn [body inc_quantity CartItem.cart_id CartItem.product_id]. auto.
  - apply find_none_absent in E.
    rewrite (add_to_cart_adds db (CartItem.mk c p q) E).
    cbn [value_of db_after fst snd bump_oid set_docs cartitem db_product db_cartitem].
    split; [now left|]. split; [reflexivity|]. split; [|unfold resolves; tauto].
    eexists. split; [apply in_or_app; right; left; reflexivity|].
    cbn [body CartItem.cart_id CartItem.product_id]. auto.
Qed.

Lemma add_to_cart_accepts_any_product_id_witness :
  (1 <= 1)%Z /\ ids_ok cartitem cart_db /\
  value_of (post_cart_add "cart-2" "not-an-id" 1 cart_db) = Ok (mkStatus "added") /\
  (exists row, In row (db_cartitem stray_db) /\
               CartItem.product_id (body row) = "not-an-id") /\
  ~ resolves stray_db "not-an-id".
Proof.
  assert (Hq : (1 <= 1)%Z) by lia.
  assert (Hok : ids_ok cartitem cart_db) by prove_ids_ok.
  assert (Hno : ~ resolves cart_db "not-an-id").
  { intros (oid & d & Hoid & _). vm_compute in Hoid. discriminate. }
  destruct (add_to_cart_accepts_any_product_id cart_db "cart-2" "not-an-id" 1 Hq Hok)
    as (Hst & _ & (row & Hin & _ & Hp) & Hres).
  split; [exact Hq|]. split; [exact Hok|].
  split; [vm_compute; reflexivity|].
  split; [exists row; split; [exact Hin | exact Hp]|].
  exact (Hres Hno).
Defined.

(** * Handlers that only read *)

Create HintDb reads discriminated.

Lemma read_only_ret {A} (a : A) : read_only (ret a).
Proof. intro db. reflexivity. Qed.

Lemma read_only_raise {A} (e : exn) : read_only (@raise A e).
Proof. intro db. reflexivity. Qed.

Lemma read_only_bind {A B} (m : M A) (k : A -> M B) :
  read_only m -> (forall a, read_only (k a)) -> read_only (bind m k).
Proof.
  intros Hm Hk db. unfold bind. specialize (Hm db).
  destruct (m db) as [[a|e] db']; cbn in Hm; subst db'; [apply Hk | reflexivity].
Qed.

Lemma read_only_find {A} (c : Collection A) filt : read_only (find c filt).
Proof. intro db. reflexivity. Qed.

Lemma read_only_find_one {A} (c : Collection A) filt : read_only (find_one c filt).
Proof. intro db. reflexivity. Qed.

Lemma read_only_ObjectId_of s : read_only (ObjectId_of s).
Proof. unfold ObjectId_of. destruct (oid_parse s); intro db; reflexivity. Qed.

Lemma read_only_float_of_int z : read_only (float_of_int z).
Proof.
  unfold float_of_int.
  destruct (binary_normalize prec emax z 0 false); intro db; reflexivity.
Qed.

Lemma read_only_py_float x : read_only (py_float x).
Proof. destruct x; [apply read_only_float_of_int | apply read_only_ret]. Qed.

#[export] Hint Resolve read_only_ret read_only_raise read_only_find
  read_only_find_one read_only_ObjectId_of read_only_float_of_int
  read_only_py_float : reads.

Lemma read_only_float_mul_int x n : read_only (float_mul_int x n).
Proof. unfold float_mul_int. apply read_only_bind; auto with reads. Qed.

Lemma read_only_for_each {A B} (xs : list A) (step : B -> A -> M B) :
  (forall acc x, read_only (step acc x)) ->
  forall acc, read_only (for_each xs acc step).
Proof.
  intros Hstep. induction xs as [|x xs IH]; intros acc; cbn [for_each].
  - apply read_only_ret.
  - apply read_only_bind; auto.
Qed.

#[export] Hint Resolve read_only_float_mul_int : reads.

Ltac read_only_step :=
  first [ apply read_only_bind; [ | intro ]
        | apply read_only_for_each; intros
        | match goal with |- read_only (match ?x with _ => _ end) => destruct x end
        | solve [ auto with reads ] ].

Lemma read_only_checkout payload : read_only (checkout payload).
Proof. unfold checkout. repeat read_only_step. Qed.

Lemma read_only_get_cart cart_id : read_only (get_cart cart_id).
Proof. unfold get_cart. repeat read_only_step. Qed.

(** C9.  Checkout is read-only: whatever the cart and the store, and
    whether it answers or raises, [checkout] leaves the database as it was,
    so the [order], [cartitem], [product] and [category] collections are
    unchanged and no Order document is created. *)
Theorem checkout_is_read_only (payload : CheckoutRequest.t) (db : Database) :
  db_after (checkout payload db) = db /\
  db_order (db_after (checkout payload db)) = db_order db /\
  db_cartitem (db_after (checkout payload db)) = db_cartitem db /\
  db_product (db_after (checkout payload db)) = db_product db /\
  db_category (db_after (checkout payload db)) = db_category db.
Proof.
  rewrite (read_only_checkout payload db). repeat split.
Qed.

(** * Looking a product up *)

Lemma get_product_malformed (s : string) (db : Database) :
  ~ well_formed_id s ->
  get_product s db = (Raise (HTTPException 404 "Invalid product id"), db).
Proof.
  intros H. apply oid_parse_malformed in H.
  unfold get_product, bind, try_except, ObjectId_of. now rewrite H.
Qed.

Lemma get_product_parsed (s : string) (oid : ObjectId) (db : Database) :
  oid_parse s = Some oid ->
  get_product s db =
    match List.find (by_id oid) (db_product db) with
    | Some d => (Ok (to_str_id d), db)
    | None => (Raise (HTTPException 404 "Product not found"), db)
    end.
Proof.
  intros H. unfold get_product, bind, try_except, ObjectId_of. rewrite H.
  unfold ret, find_one, raise. cbn [docs product].
  now destruct (List.find (by_id oid) (db_product db)).
Qed.

(** C4.  [get_product] on any string [s]: a malformed [s] is a 404; a
    well-formed [s] that no product document has is a 404; a well-formed [s]
    with a document answers that document's fields under [id], the
    identifier as a string.  The status is 404 in exactly the first two
    cases, and never anything but 200 or 404: no exception escapes. *)
Theorem get_product_not_found (s : string) (db : Database) :
  let run := get_product s db in
  (* malformed identifier *)
  (~ well_formed_id s ->
   run = (Raise (HTTPException 404 "Invalid product id"), db)) /\
  (* well-formed, no document *)
  (forall oid, oid_parse s = Some oid ->
     Forall (fun d => _id d <> oid) (db_product db) ->
     run = (Raise (HTTPException 404 "Product not found"), db)) /\
  (* well-formed, the first document under the identifier *)
  (forall oid before d after, oid_parse s = Some oid ->
     db_product db = before ++ d :: after -> _id d = oid ->
     Forall (fun d => _id d <> oid) before ->
     run = (Ok (mkWithId (oid_str oid) (body d)), db)) /\
  (* the two failures share the status, and are the only ones *)
  (status_of (value_of run) = 404%Z <->
   ~ well_formed_id s \/
   (well_formed_id s /\
    forall oid, oid_parse s = Some oid ->
      Forall (fun d => _id d <> oid) (db_product db))) /\
  (status_of (value_of run) = 200%Z \/ status_of (value_of run) = 404%Z).
Proof.
  cbv zeta. split; [apply get_product_malformed|].
  split.
  { intros oid Hoid Hnone. rewrite (get_product_parsed s oid db Hoid).
    apply by_id_false in Hnone. now rewrite (find_absent _ _ Hnone). }
  split.
  { intros oid before d after Hoid Hsplit Hd Hbefore.
    rewrite (get_product_parsed s oid db Hoid), Hsplit.
    apply by_id_false in Hbefore.
    rewrite (find_skip _ _ _ _ Hbefore); [now subst oid|].
    subst oid. apply by_id_refl. }
  destruct (oid_parse s) as [oid|] eqn:Hoid.
  - assert (Hwf : well_formed_id s) by (apply oid_parse_well_formed; eauto).
    rewrite (get_product_parsed s oid db Hoid).
    destruct (List.find (by_id oid) (db_product db)) as [d|] eqn:Hfind;
      cbn [value_of fst status_of].
    + split; [|now left]. split; [discriminate|].
      intros [Hbad | [_ Hnone]]; [contradiction|].
      specialize (Hnone oid eq_refl). apply by_id_false in Hnone.
      rewrite (find_absent _ _ Hnone) in Hfind. discriminate.
    + split; [|now right]. split; [|reflexivity]. intros _. right.
      split; [assumption|]. intros oid' [= <-].
      apply by_id_false. now apply find_none_absent.
  - assert (Hbad : ~ well_formed_id s) by now apply oid_parse_malformed.
    rewrite (get_product_malformed s db Hbad). cbn [value_of fst status_of].
    split; [|now right]. split; [now left | reflexivity].
Qed.

Lemma get_product_not_found_witness :
  get_product "not-an-id" seeded_db
  = (Raise (HTTPException 404 "Invalid product id"), seeded_db) /\
  get_product ghost_id seeded_db
  = (Raise (HTTPException 404 "Product not found"), seeded_db) /\
  value_of (get_product "000000000000000000000004" seeded_db)
  = Ok (mkWithId "000000000000000000000004" nebula_earbuds).
Proof.
  destruct (get_product_not_found "not-an-id" seeded_db) as (Hbad & _).
  destruct (get_product_not_found ghost_id seeded_db) as (_ & Hnone & _).
  split; [|split].
  - apply Hbad. intros [Hlen _]. vm_compute in Hlen. discriminate.
  - apply (Hnone 65535%N); [reflexivity|].
    vm_compute. repeat (constructor; [discriminate|]). constructor.
  - vm_compute. reflexivity.
Defined.

(** * The cart: removing *)

Lemma remove_from_cart_parsed (s : string) (oid : ObjectId) (db : Database) :
  oid_parse s = Some oid ->
  remove_from_cart (IdModel.mk s) db =
    match List.find (by_id oid) (db_cartitem db) with
    | Some _ =>
        (Ok (mkStatus "removed"),
         set_docs cartitem (delete_first (by_id oid) (db_cartitem db)) db)
    | None => (Raise (HTTPException 404 "Item not found"), db)
    end.
Proof.
  intros H. unfold remove_from_cart, bind, try_except, ObjectId_of.
  cbn [IdModel.id]. rewrite H. unfold ret, delete_one. cbn [docs cartitem].
  now destruct (List.find (by_id oid) (db_cartitem db)).
Qed.

Lemma remove_from_cart_malformed (s : string) (db : Database) :
  ~ well_formed_id s ->
  remove_from_cart (IdModel.mk s) db = (Raise (HTTPException 400 "Invalid id"), db).
Proof.
  intros H. apply oid_parse_malformed in H.
  unfold remove_from_cart, bind, try_except, ObjectId_of. cbn [IdModel.id].
  now rewrite H.
Qed.

(** C5.  [remove_from_cart] on any string [s]: the status is 400 exactly
    when [s] is malformed, 404 exactly when [s] is well-formed and no
    cart-item row has that identifier; otherwise the first row under the
    identifier, the row's own [_id], is deleted, the other rows stay, and
    the answer is ["removed"]. *)
Theorem remove_from_cart_outcomes (s : string) (db : Database) :
  let run := remove_from_cart (IdModel.mk s) db in
  (status_of (value_of run) = 400%Z <-> ~ well_formed_id s) /\
  (status_of (value_of run) = 404%Z <->
   well_formed_id s /\
   forall oid, oid_parse s = Some oid ->
     Forall (fun d => _id d <> oid) (db_cartitem db)) /\
  (forall oid before row after, oid_parse s = Some oid ->
     db_cartitem db = before ++ row :: after -> _id row = oid ->
     Forall (fun d => _id d <> oid) before ->
     run = (Ok (mkStatus "removed"), set_docs cartitem (before ++ after) db)) /\
  (~ well_formed_id s ->
   run = (Raise (HTTPException 400 "Invalid id"), db)) /\
  (forall oid, oid_parse s = Some oid ->
     Forall (fun d => _id d <> oid) (db_cartitem db) ->
     run = (Raise (HTTPException 404 "Item not found"), db)).
Proof.
  cbv zeta.
  assert (Hdel : forall oid before row after, oid_parse s = Some oid ->
     db_cartitem db = before ++ row :: after -> _id row = oid ->
     Forall (fun d => _id d <> oid) before ->
     remove_from_cart (IdModel.mk s) db
     = (Ok (mkStatus "removed"), set_docs cartitem (before ++ after) db)).
  { intros oid before row after Hoid Hsplit Hrow Hbefore.
    rewrite (remove_from_cart_parsed s oid db Hoid), Hsplit.
    apply by_id_false in Hbefore.
    assert (Hr : by_id oid row = true) by (subst oid; apply by_id_refl).
    rewrite (find_skip _ _ _ _ Hbefore Hr).
    now rewrite (delete_first_at _ _ _ _ Hbefore Hr). }
  assert (Hnone : forall oid, oid_parse s = Some oid ->
     Forall (fun d => _id d <> oid) (db_cartitem db) ->
     remove_from_cart (IdModel.mk s) db
     = (Raise (HTTPException 404 "Item not found"), db)).
  { intros oid Hoid Habs. rewrite (remove_from_cart_parsed s oid db Hoid).
    apply by_id_false in Habs. now rewrite (find_absent _ _ Habs). }
  destruct (oid_parse s) as [oid|] eqn:Hoid.
  - assert (Hwf : well_formed_id s) by (apply oid_parse_well_formed; eauto).
    rewrite (remove_from_cart_parsed s oid db Hoid) in *.
    destruct (List.find (by_id oid) (db_cartitem db)) as [d|] eqn:Hfind;
      cbn [value_of fst status_of].
    + split; [split; [discriminate | contradiction]|].
      split; [|now auto].
      split; [discriminate|].
      intros [_ Hn]. specialize (Hn oid eq_refl). apply by_id_false in Hn.
      rewrite (find_absent _ _ Hn) in Hfind. discriminate.
    + split; [split; [discriminate | contradiction]|].
      split; [|now auto].
      split; [|reflexivity]. intros _. split; [assumption|].
      intros oid' [= <-]. apply by_id_false. now apply find_none_absent.
  - assert (Hbad : ~ well_formed_id s) by now apply oid_parse_malformed.
    rewrite (remove_from_cart_malformed s db Hbad) in *.
    cbn [value_of fst status_of].
    split; [split; [now auto | reflexivity]|].
    split; [|now auto].
    split; [discriminate|]. intros [Hwf _]. contradiction.
Qed.

Lemma remove_from_cart_outcomes_witness :
  remove_from_cart (IdModel.mk "not-an-id") cart_db
  = (Raise (HTTPException 400 "Invalid id"), cart_db) /\
  remove_from_cart (IdModel.mk tote_id) cart_db
  = (Raise (HTTPException 404 "Item not found"), cart_db) /\
  remove_from_cart (IdModel.mk "000000000000000000000006") cart_db
  = (Ok (mkStatus "removed"), set_docs cartitem [] cart_db).
Proof.
  destruct (remove_from_cart_outcomes "not-an-id" cart_db) as (_ & _ & _ & Hbad & _).
  destruct (remove_from_cart_outcomes tote_id cart_db) as (_ & _ & _ & _ & Hnone).
  destruct (remove_from_cart_outcomes "000000000000000000000006" cart_db)
    as (_ & _ & Hdel & _).
  split; [|split].
  - apply Hbad. intros [Hlen _]. vm_compute in Hlen. discriminate.
  - apply (Hnone 3%N); [reflexivity|].
    vm_compute. repeat (constructor; [discriminate|]). constructor.
  - apply (Hdel 6%N [] (mkDoc 6%N (CartItem.mk "cart-1" tote_id 2)) []);
      [reflexivity | reflexivity | reflexivity | constructor].
Defined.

(** * The cart: listing and checkout *)

Lemma get_cart_loop (db : Database) (items : list (Document CartItem.t)) :
  Forall well_formed_row items ->
  forall result,
    for_each items result
      (fun result it =>
         oid <- ObjectId_of (CartItem.product_id (body it)) ;;
         p <- find_one product (by_id oid) ;;
         match p with
         | Some p =>
             ret (result ++ [CartLine.mk (oid_str (_id it)) (to_str_id p)
                                     (CartItem.quantity (body it))])
         | None => ret result
         end) db
    = (Ok (result ++ flat_map (cart_line db) items), db).
Proof.
  induction 1 as [|it items Hit _ IH]; intros result; cbn [for_each flat_map].
  - unfold ret. now rewrite app_nil_r.
  - apply oid_parse_well_formed in Hit. destruct Hit as [oid Hoid].
    unfold bind at 1. unfold bind at 1. unfold ObjectId_of. rewrite Hoid.
    unfold ret at 1, bind at 1, find_one at 1. cbn [docs product].
    unfold cart_line at 1, resolve. rewrite Hoid.
    destruct (List.find (by_id oid) (db_product db)) as [p|].
    + unfold ret at 1. rewrite IH. now rewrite <- app_assoc.
    + unfold ret at 1. now rewrite IH.
Qed.

Lemma get_cart_loop_malformed (db : Database) (items : list (Document CartItem.t)) :
  Exists (fun it => ~ well_formed_row it) items ->
  forall result,
    for_each items result
      (fun result it =>
         oid <- ObjectId_of (CartItem.product_id (body it)) ;;
         p <- find_one product (by_id oid) ;;
         match p with
         | Some p =>
             ret (result ++ [CartLine.mk (oid_str (_id it)) (to_str_id p)
                                     (CartItem.quantity (body it))])
         | None => ret result
         end) db
    = (Raise InvalidId, db).
Proof.
  induction items as [|it items IH]; intros Hex result; [inversion Hex|].
  cbn [for_each]. unfold bind at 1. unfold bind at 1. unfold ObjectId_of.
  destruct (oid_parse (CartItem.product_id (body it))) as [oid|] eqn:Hoid.
  - unfold ret at 1, bind at 1, find_one at 1. cbn [docs product].
    assert (Hrest : Exists (fun it => ~ well_formed_row it) items).
    { inversion Hex as [? ? Hbad | ]; subst; [|assumption].
      exfalso. apply Hbad. apply oid_parse_well_formed. eauto. }
    destruct (List.find (by_id oid) (db_product db)); unfold ret at 1; now apply IH.
  - reflexivity.
Qed.

Lemma get_cart_well_formed (db : Database) (cart_id : string) :
  Forall well_formed_row (cart_rows db cart_id) ->
  get_cart cart_id db = (Ok (flat_map (cart_line db) (cart_rows db cart_id)), db).
Proof.
  intros H. unfold cart_rows in *. unfold get_cart. unfold bind at 1.
  unfold find. cbn [docs cartitem]. now rewrite (get_cart_loop db _ H []).
Qed.

(** A malformed product id anywhere in the cart makes [get_cart] raise. *)
Lemma get_cart_malformed (db : Database) (cart_id : string) :
  Exists (fun it => ~ well_formed_row it) (cart_rows db cart_id) ->
  get_cart cart_id db = (Raise InvalidId, db).
Proof.
  intros H. unfold cart_rows in *. unfold get_cart. unfold bind at 1.
  unfold find. cbn [docs cartitem]. now rewrite (get_cart_loop_malformed db _ H []).
Qed.

Lemma float_of_int_in_range (z : Z) (db : Database) :
  in_float_range z -> float_of_int z db = (Ok (float_value (NInt z)), db).
Proof.
  unfold in_float_range, float_of_int, float_value.
  destruct (binary_normalize prec emax z 0 false); intros H; try reflexivity.
  contradiction.
Qed.

Lemma py_float_in_range (x : number) (db : Database) :
  match x with NInt z => in_float_range z | NFloat _ => True end ->
  py_float x db = (Ok (float_value x), db).
Proof.
  destruct x as [z|f]; intros H; [now apply float_of_int_in_range | reflexivity].
Qed.

Lemma checkout_loop (db : Database) (items : list (Document CartItem.t)) :
  Forall well_formed_row items ->
  Forall convertible (flat_map (priced db) items) ->
  forall subtotal,
    for_each items subtotal
      (fun subtotal it =>
         oid <- ObjectId_of (CartItem.product_id (body it)) ;;
         p <- find_one product (by_id oid) ;;
         match p with
         | Some p =>
             price <- py_float (Product.price (body p)) ;;
             amount <- float_mul_int price (CartItem.quantity (body it)) ;;
             ret (subtotal + amount)%float
         | None => ret subtotal
         end) db
    = (Ok (fold_left add_amount (flat_map (priced db) items) subtotal), db).
Proof.
  induction 1 as [|it items Hit _ IH]; intros Hconv subtotal; cbn [for_each flat_map].
  - reflexivity.
  - cbn [flat_map] in Hconv. apply Forall_app in Hconv. destruct Hconv as [Hc Hcs].
    apply oid_parse_well_formed in Hit. destruct Hit as [oid Hoid].
    unfold bind at 1. unfold bind at 1. unfold ObjectId_of. rewrite Hoid.
    unfold ret at 1, bind at 1, find_one at 1. cbn [docs product].
    unfold priced at 1 in Hc. unfold priced at 1. unfold resolve in *. rewrite Hoid in *.
    destruct (List.find (by_id oid) (db_product db)) as [p|].
    + apply Forall_inv in Hc. destruct Hc as [Hp Hq]. cbn [fst snd] in Hp, Hq.
      unfold bind at 1. rewrite (py_float_in_range _ db Hp).
      unfold bind at 1, float_mul_int, bind at 1.
      rewrite (float_of_int_in_range _ db Hq). unfold ret at 1. unfold ret at 1.
      rewrite (IH Hcs). reflexivity.
    + unfold ret at 1. now rewrite (IH Hcs).
Qed.

Lemma checkout_loop_malformed (db : Database) (items : list (Document CartItem.t)) :
  Exists (fun it => ~ well_formed_row it) items ->
  forall subtotal, exists e,
    for_each items subtotal
      (fun subtotal it =>
         oid <- ObjectId_of (CartItem.product_id (body it)) ;;
         p <- find_one product (by_id oid) ;;
         match p with
         | Some p =>
             price <- py_float (Product.price (body p)) ;;
             amount <- float_mul_int price (CartItem.quantity (body it)) ;;
             ret (subtotal + amount)%float
         | None => ret subtotal
         end) db
    = (Raise e, db) /\ (e = InvalidId \/ e = OverflowError).
Proof.
  induction items as [|it items IH]; intros Hex subtotal; [inversion Hex|].
  cbn [for_each]. unfold bind at 1. unfold bind at 1. unfold ObjectId_of.
  destruct (oid_parse (CartItem.product_id (body it))) as [oid|] eqn:Hoid.
  - assert (Hrest : Exists (fun it => ~ well_formed_row it) items).
    { inversion Hex as [? ? Hbad | ]; subst; [|assumption].
      exfalso. apply Hbad. apply oid_parse_well_formed. eauto. }
    unfold ret at 1, bind at 1, find_one at 1. cbn [docs product].
    destruct (List.find (by_id oid) (db_product db)) as [p|].
    + unfold bind at 1.
      pose proof (read_only_py_float (Product.price (body p)) db) as Hro.
      unfold db_after in Hro.
      destruct (py_float (Product.price (body p)) db) as [[price|e] db1] eqn:Hprice;
        cbn [snd] in Hro; subst db1.
      * unfold bind at 1.
        pose proof (read_only_float_mul_int price (CartItem.quantity (body it)) db) as Hro.
        unfold db_after in Hro.
        destruct (float_mul_int price (CartItem.quantity (body it)) db)
          as [[amount|e] db1] eqn:Hmul; cbn [snd] in Hro; subst db1.
        -- unfold ret at 1. now apply IH.
        -- exists e. split; [reflexivity|]. right.
           unfold float_mul_int, bind, float_of_int in Hmul.
           destruct (binary_normalize prec emax (CartItem.quantity (body it)) 0 false);
             unfold ret, raise in Hmul; congruence.
      * exists e. split; [reflexivity|]. right.
        destruct (Product.price (body p)) as [z|f]; cbn in Hprice; [|discriminate].
        unfold float_of_int in Hprice.
        destruct (binary_normalize prec emax z 0 false);
          unfold ret, raise in Hprice; congruence.
    + unfold ret at 1. now apply IH.
  - exists InvalidId. split; [reflexivity | now left].
Qed.

(** A malformed product id anywhere in the cart makes [checkout] raise. *)
Lemma checkout_malformed (db : Database) (cart_id : string) :
  Exists (fun it => ~ well_formed_row it) (cart_rows db cart_id) ->
  exists e, checkout (CheckoutRequest.mk cart_id) db = (Raise e, db) /\
            status_of (@Raise CheckoutResponse.t e) = 500%Z.
Proof.
  intros H. unfold cart_rows in H. unfold checkout. unfold bind at 1.
  unfold find. cbn [docs cartitem CheckoutRequest.cart_id]. unfold bind at 1.
  destruct (checkout_loop_malformed db _ H 0%float) as (e & -> & He).
  exists e. split; [reflexivity|]. destruct He as [-> | ->]; reflexivity.
Qed.

Lemma resolve_unresolved (db : Database) (it : Document CartItem.t) :
  ~ resolves db (CartItem.product_id (body it)) -> resolve db it = None.
Proof.
  intros H. unfold resolve.
  destruct (oid_parse (CartItem.product_id (body it))) as [oid|] eqn:Hoid;
    [|reflexivity].
  destruct (List.find (by_id oid) (db_product db)) as [d|] eqn:Hfind;
    [|reflexivity].
  exfalso. apply H. apply find_some in Hfind. destruct Hfind as [Hin Hid].
  exists oid, d. repeat split; try assumption. now apply N.eqb_eq.
Qed.

Lemma resolve_resolved (db : Database) (it : Document CartItem.t) (p : Document Product.t) :
  resolve db it = Some p ->
  In p (db_product db) /\ oid_parse (CartItem.product_id (body it)) = Some (_id p).
Proof.
  unfold resolve.
  destruct (oid_parse (CartItem.product_id (body it))) as [oid|]; [|discriminate].
  intros H. apply find_some in H. destruct H as [Hin Hid].
  apply N.eqb_eq in Hid. split; [assumption | now rewrite Hid].
Qed.

(** C3, at a failing input.  Cart [cart-2] of [stray_db] holds one row,
    put there by [add_to_cart], whose product id ["not-an-id"] names no
    product.  [get_cart] and [checkout] do not skip the row: [ObjectId]
    raises [InvalidId] in both, outside any [try], and the client gets a
    500.  [get_product] guards the same call and answers 404. *)
Theorem malformed_product_id_breaks_cart :
  (exists row, In row (cart_rows stray_db "cart-2") /\
               CartItem.product_id (body row) = "not-an-id") /\
  ~ resolves stray_db "not-an-id" /\
  get_cart "cart-2" stray_db = (Raise InvalidId, stray_db) /\
  status_of (value_of (get_cart "cart-2" stray_db)) = 500%Z /\
  checkout (CheckoutRequest.mk "cart-2") stray_db = (Raise InvalidId, stray_db) /\
  status_of (value_of (checkout (CheckoutRequest.mk "cart-2") stray_db)) = 500%Z /\
  get_product "not-an-id" stray_db
  = (Raise (HTTPException 404 "Invalid product id"), stray_db).
Proof.
  split; [eexists; split; [left; reflexivity | reflexivity]|].
  split; [intros (oid & d & Hoid & _); vm_compute in Hoid; discriminate|].
  repeat split; vm_compute; reflexivity.
Qed.

(** C2, at a failing input.  Cart [cart-1] of [mixed_db] has one
    resolvable item, two totes at 189, for a subtotal of 378.00 and a total
    of 408.24, and a row with a malformed product id.  [checkout] raises
    [InvalidId] on that row and answers a 500 with no totals. *)
Theorem checkout_raises_on_mixed_cart :
  resolvable_items mixed_db "cart-1" = [(NInt 189, 2%Z)] /\
  round2 (sum_price_quantity [(NInt 189, 2%Z)]) = 378%float /\
  round2 (with_tax (sum_price_quantity [(NInt 189, 2%Z)])) = 408.24%float /\
  checkout (CheckoutRequest.mk "cart-1") mixed_db = (Raise InvalidId, mixed_db) /\
  status_of (value_of (checkout (CheckoutRequest.mk "cart-1") mixed_db)) = 500%Z.
Proof. repeat split; vm_compute; reflexivity. Qed.

(** X2.  In a cart whose rows all carry well-formed product ids, [get_cart]
    answers one line per row whose product exists, in cart order, and
    nothing for a row whose product id names no product: such a row gives
    no line and no amount, and no error. *)
Theorem unresolvable_rows_are_skipped (db : Database) (cart_id : string) :
  Forall well_formed_row (cart_rows db cart_id) ->
  get_cart cart_id db = (Ok (flat_map (cart_line db) (cart_rows db cart_id)), db) /\
  (forall it, In it (cart_rows db cart_id) ->
     ~ resolves db (CartItem.product_id (body it)) ->
     cart_line db it = [] /\ priced db it = []) /\
  (forall line, In line (flat_map (cart_line db) (cart_rows db cart_id)) ->
     exists it p, In it (cart_rows db cart_id) /\ In p (db_product db) /\
       oid_parse (CartItem.product_id (body it)) = Some (_id p) /\
       line = CartLine.mk (oid_str (_id it)) (to_str_id p) (CartItem.quantity (body it))).
Proof.
  intros Hwf. split; [now apply get_cart_well_formed|]. split.
  - intros it _ Hun. unfold cart_line, priced.
    now rewrite (resolve_unresolved db it Hun).
  - intros line Hline. apply in_flat_map in Hline. destruct Hline as (it & Hit & Hl).
    unfold cart_line in Hl. destruct (resolve db it) as [p|] eqn:Hres; [|contradiction].
    destruct Hl as [<- | []]. apply resolve_resolved in Hres. destruct Hres.
    exists it, p. auto.
Qed.

Lemma unresolvable_rows_are_skipped_witness :
  Forall well_formed_row (cart_rows ghost_db "cart-1") /\
  List.length (cart_rows ghost_db "cart-1") = 2%nat /\
  ~ resolves ghost_db ghost_id /\
  exists line,
    get_cart "cart-1" ghost_db = (Ok [line], ghost_db) /\
    id (CartLine.product line) = tote_id.
Proof.
  assert (Hwf : Forall well_formed_row (cart_rows ghost_db "cart-1"))
    by prove_well_formed_rows.
  split; [exact Hwf|]. split; [reflexivity|]. split.
  - intros (oid & d & Hoid & Hin & Hid). vm_compute in Hoid.
    injection Hoid as <-. vm_compute in Hin.
    repeat (destruct Hin as [<- | Hin]; [vm_compute in Hid; discriminate|]).
    exact Hin.
  - destruct (unresolvable_rows_are_skipped ghost_db "cart-1" Hwf) as [Hrun _].
    eexists. split; [rewrite Hrun; vm_compute; reflexivity | reflexivity].
Defined.

(** X1.  In a cart whose rows all carry well-formed product ids, [checkout]
    answers the sum over the resolvable items of price times quantity
    rounded to 2 decimals as [subtotal], that sum times 1.08 rounded to 2
    decimals as [total], and ["USD"].  One item at 100.00 with quantity 2
    gives a subtotal of 200.00 and a total of 216.00. *)
Theorem checkout_quote (db : Database) (cart_id : string) :
  Forall well_formed_row (cart_rows db cart_id) ->
  Forall convertible (resolvable_items db cart_id) ->
  checkout (CheckoutRequest.mk cart_id) db
  = (Ok (CheckoutResponse.mk
           (round2 (sum_price_quantity (resolvable_items db cart_id)))
           (round2 (with_tax (sum_price_quantity (resolvable_items db cart_id))))
           "USD"), db) /\
  (forall price, resolvable_items db cart_id = [(price, 2%Z)] ->
     float_value price = 100%float ->
     checkout (CheckoutRequest.mk cart_id) db
     = (Ok (CheckoutResponse.mk 200 216 "USD"), db)).
Proof.
  intros Hwf Hconv.
  assert (E : checkout (CheckoutRequest.mk cart_id) db
    = (Ok (CheckoutResponse.mk
           (round2 (sum_price_quantity (resolvable_items db cart_id)))
           (round2 (with_tax (sum_price_quantity (resolvable_items db cart_id))))
           "USD"), db)).
  { unfold checkout. unfold bind at 1. unfold find. cbn [docs cartitem CheckoutRequest.cart_id].
    unfold bind. fold (cart_rows db cart_id).
    change (fun (subtotal : float) (it : Document CartItem.t) => _) with
      (fun (subtotal : float) (it : Document CartItem.t) =>
         oid <- ObjectId_of (CartItem.product_id (body it)) ;;
         p <- find_one product (by_id oid) ;;
         match p with
         | Some p =>
             price <- py_float (Product.price (body p)) ;;
             amount <- float_mul_int price (CartItem.quantity (body it)) ;;
             ret (subtotal + amount)%float
         | None => ret subtotal
         end).
    rewrite (checkout_loop db _ Hwf Hconv 0%float). reflexivity. }
  split; [exact E|].
  intros price Hone Hprice. rewrite E, Hone.
  unfold sum_price_quantity, add_amount. cbn [fold_left fst snd].
  rewrite Hprice. vm_compute. reflexivity.
Qed.

Lemma checkout_quote_witness :
  Forall well_formed_row (cart_rows hundred_db "cart-1") /\
  Forall convertible (resolvable_items hundred_db "cart-1") /\
  checkout (CheckoutRequest.mk "cart-1") hundred_db
  = (Ok (CheckoutResponse.mk 200 216 "USD"), hundred_db).
Proof.
  assert (Hwf : Forall well_formed_row (cart_rows hundred_db "cart-1"))
    by prove_well_formed_rows.
  assert (Hconv : Forall convertible (resolvable_items hundred_db "cart-1")).
  { vm_compute. repeat (constructor; [split; exact I|]). constructor. }
  split; [exact Hwf|]. split; [exact Hconv|].
  destruct (checkout_quote hundred_db "cart-1" Hwf Hconv) as [_ Hone].
  apply (Hone (NFloat 100)); reflexivity.
Defined.

(** * Startup seeding *)

Lemma seed_data_keeps_category (db : Database) :
  db_category db <> [] ->
  db_category (db_after (seed_data db)) = db_category db.
Proof.
  destruct db as [cats prods items orders n]. cbn [db_category].
  destruct cats as [|c cats]; [congruence|]. intros _.
  destruct prods as [|p prods]; reflexivity.
Qed.

Lemma seed_data_keeps_product (db : Database) :
  db_product db <> [] ->
  db_product (db_after (seed_data db)) = db_product db.
Proof.
  destruct db as [cats prods items orders n]. cbn [db_product].
  destruct prods as [|p prods]; [congruence|]. intros _.
  destruct cats as [|c cats]; reflexivity.
Qed.

Lemma seed_data_fills (db : Database) :
  db_category (db_after (seed_data db)) <> [] /\
  db_product (db_after (seed_data db)) <> [].
Proof.
  destruct db as [cats prods items orders n].
  destruct cats as [|c cats]; destruct prods as [|p prods]; split; discriminate.
Qed.

Lemma seed_data_noop (db : Database) :
  db_category db <> [] -> db_product db <> [] ->
  seed_data db = (Ok tt, db).
Proof.
  destruct db as [cats prods items orders n]. cbn [db_category db_product].
  destruct cats as [|c cats]; [congruence|].
  destruct prods as [|p prods]; [congruence|]. reflexivity.
Qed.

(** C8.  Seeding is idempotent: from any store, a second run of
    [seed_data] changes nothing, so the counts of [category] and [product]
    are those after the first run; a collection that is not empty is left
    as it is, and an empty one gets its three documents. *)
Theorem seed_data_idempotent (db : Database) :
  let once := db_after (seed_data db) in
  let twice := db_after (seed_data once) in
  twice = once /\
  List.length (db_category twice) = List.length (db_category once) /\
  List.length (db_product twice) = List.length (db_product once) /\
  (db_category db <> [] -> db_category once = db_category db) /\
  (db_product db <> [] -> db_product once = db_product db) /\
  (db_category db = [] -> List.length (db_category once) = 3%nat) /\
  (db_product db = [] -> List.length (db_product once) = 3%nat).
Proof.
  cbv zeta. destruct (seed_data_fills db) as [Hc Hp].
  rewrite (seed_data_noop _ Hc Hp). cbn [db_after snd].
  repeat split.
  - apply seed_data_keeps_category.
  - apply seed_data_keeps_product.
  - destruct db as [cats prods items orders n]. cbn [db_category]. intros ->.
    destruct prods; reflexivity.
  - destruct db as [cats prods items orders n]. cbn [db_product]. intros ->.
    destruct cats; reflexivity.
Qed.

(** * The catalog *)

Lemma atoms_plain_text (q : string) : plain_text q -> atoms q = Some (lits q).
Proof.
  unfold plain_text. induction q as [|c q IH]; cbn [string_forallb atoms lits].
  - reflexivity.
  - intros H. apply andb_prop in H. destruct H as [Hc Hq].
    rewrite (IH Hq), Hc.
    destruct (Ascii.eqb_spec c "."); [|reflexivity].
    subst c. discriminate.
Qed.

Lemma lower_string_app (a b : string) :
  lower_string (a ++ b) = (lower_string a ++ lower_string b)%string.
Proof. induction a as [|c a IH]; cbn; [reflexivity | now rewrite IH]. Qed.

Lemma lower_string_split (t a b : string) :
  lower_string t = (a ++ b)%string ->
  exists t1 t2, t = (t1 ++ t2)%string /\ lower_string t1 = a /\ lower_string t2 = b.
Proof.
  revert t. induction a as [|c a IH]; intros t H.
  - exists "", t. auto.
  - destruct t as [|d t]; [discriminate|]. cbn in H. injection H as Hc Ht.
    destruct (IH t Ht) as (t1 & t2 & -> & H1 & H2).
    exists (String d t1), t2. cbn. rewrite H1, Hc. auto.
Qed.

Lemma match_here_lits (q t : string) :
  match_here (lits q) t = true <->
  exists post, lower_string t = (lower_string q ++ post)%string.
Proof.
  revert t. induction q as [|c q IH]; intros t; cbn [lits match_here].
  - split; [|reflexivity]. intros _. exists (lower_string t). reflexivity.
  - destruct t as [|d t].
    + split; [discriminate|]. intros [post H]. discriminate.
    + cbn [atom_matches lower_string append]. rewrite andb_true_iff, IH.
      split.
      * intros [Hc [post Ht]]. apply Ascii.eqb_eq in Hc.
        exists post. now rewrite Hc, Ht.
      * intros [post H]. injection H as Hc Ht. split; [|eauto].
        apply Ascii.eqb_eq. now symmetry.
Qed.

Lemma search_somewhere (p : list atom) (t : string) :
  search p t = true <->
  exists t1 t2, t = (t1 ++ t2)%string /\ match_here p t2 = true.
Proof.
  induction t as [|c t IH]; cbn [search]; rewrite orb_true_iff.
  - split.
    + intros [H|H]; [|discriminate]. exists "", "". auto.
    + intros (t1 & t2 & E & H). left. destruct t1; [|discriminate].
      cbn in E. now subst t2.
  - rewrite IH. split.
    + intros [H | (t1 & t2 & -> & H)].
      * exists "", (String c t). auto.
      * exists (String c t1), t2. auto.
    + intros (t1 & t2 & E & H). destruct t1 as [|d t1].
      * cbn in E. subst t2. now left.
      * cbn in E. injection E as -> ->. right. eauto.
Qed.

Lemma search_lits (q t : string) :
  search (lits q) t = true <-> contains_ci q t.
Proof.
  unfold contains_ci. rewrite search_somewhere. split.
  - intros (t1 & t2 & -> & H). apply match_here_lits in H. destruct H as [post H].
    exists (lower_string t1), post. now rewrite lower_string_app, H.
  - intros (pre & post & H). apply lower_string_split in H.
    destruct H as (t1 & t2 & -> & _ & H2).
    exists t1, t2. split; [reflexivity|]. apply match_here_lits. eauto.
Qed.

Lemma contains_ci_empty (t : string) : contains_ci "" t.
Proof. exists "", (lower_string t). reflexivity. Qed.

Lemma truthy_cases (o : option string) :
    (truthy o = false /\ (o = None \/ o = Some "")) \/
    (exists s, o = Some s /\ s <> "" /\ truthy o = true).
  Proof.
    destruct o as [s|]; [|left; auto]. cbn [truthy].
    destruct (String.eqb_spec s ""); [left; subst; auto | right; eauto].
  Qed.

Section CatalogFacts.
Variable pcre : string -> string -> option (string -> bool).

Lemma regex_compile_plain (q : string) :
  plain_text q -> regex_compile pcre q "i" = Some (search (lits q)).
Proof. intros H. unfold regex_compile. now rewrite (atoms_plain_text q H). Qed.

Lemma list_products_listing (category q : option string) (db : Database)
    (out : list (WithId Product.t)) :
  value_of (list_products pcre category q db) = Ok out ->
  exists keep, out = map to_str_id (filter keep (db_product db)).
Proof.
  unfold list_products, bind, get_documents.
  destruct (compile_query pcre Product_strings _) as [keep|];
    [|discriminate].
  unfold find, ret. cbn. intros [= <-]. eauto.
Qed.

(** C6, amended.  When the search text [q] holds no character of the
    pattern syntax, [list_products] answers exactly the products, in store
    order, whose category equals the given one, if one is given and is not
    the empty string, and whose title contains [q], letter case aside, if
    [q] is given.  An empty category or search text filters nothing. *)
Theorem list_products_filter (category q : option string) (db : Database) :
  (forall s, q = Some s -> plain_text s) ->
  exists keep,
    list_products pcre category q db
    = (Ok (map to_str_id (filter keep (db_product db))), db) /\
    forall d, keep d = true <-> selects category q (body d).
Proof.
  intros Hplain. unfold list_products, selects, bind, get_documents.
  destruct (truthy_cases category) as [[Hcf Hcat] | (c & -> & Hc & Hct)];
    destruct (truthy_cases q) as [[Hqf Hqq] | (s & -> & Hs & Hqt)];
    rewrite ?Hcf, ?Hct, ?Hqf, ?Hqt;
    cbn [app given compile_query compile_cond];
    rewrite ?(regex_compile_plain s (Hplain s eq_refl));
    eexists; (split; [reflexivity|]); intros d;
    cbn [Product_strings String.eqb Ascii.eqb Bool.eqb existsb];
    rewrite ?orb_false_r, ?andb_true_r.
  - split; [|reflexivity]. intros _. split.
    + intros c E Hne. destruct Hcat as [-> | ->]; congruence.
    + intros s E. destruct Hqq as [-> | ->]; [discriminate|].
      injection E as <-. apply contains_ci_empty.
  - rewrite search_lits. split.
    + intros H. split.
      * intros c E Hne. destruct Hcat as [-> | ->]; congruence.
      * now intros s' [= <-].
    + intros [_ H]. now apply H.
  - rewrite String.eqb_eq. split.
    + intros H. split.
      * now intros c' [= <-] _.
      * intros s E. destruct Hqq as [-> | ->]; [discriminate|].
        injection E as <-. apply contains_ci_empty.
    + intros [H _]. symmetry. now apply H.
  - rewrite andb_true_iff, String.eqb_eq, search_lits. split.
    + intros [H1 H2]. split.
      * now intros c' [= <-] _.
      * now intros s' [= <-].
    + intros [H1 H2]. split; [symmetry; now apply H1 | now apply H2].
Qed.

(** C7.  Round trip: every entry that [list_products] lists, under any
    filter, is what [get_product] answers for the entry's [id]. *)
Theorem get_product_round_trip (category q : option string) (db : Database)
    (out : list (WithId Product.t)) (e : WithId Product.t) :
  ids_ok product db -> (next_oid db <= oid_bound)%N ->
  value_of (list_products pcre category q db) = Ok out ->
  In e out ->
  get_product (id e) db = (Ok e, db).
Proof.
  intros [Hnd Hlt] Hbound Hout He. cbn [docs product] in Hnd, Hlt.
  apply list_products_listing in Hout. destruct Hout as [keep ->].
  apply in_map_iff in He. destruct He as (d & <- & Hd).
  apply filter_In in Hd. destruct Hd as [Hd _].
  assert (Hoid : oid_parse (oid_str (_id d)) = Some (_id d)).
  { apply oid_parse_str. rewrite Forall_forall in Hlt.
    specialize (Hlt d Hd). cbv beta in Hlt. unfold ObjectId in *. lia. }
  cbn [id to_str_id]. rewrite (get_product_parsed _ _ db Hoid).
  now rewrite (find_by_id_member _ d Hnd Hd).
Qed.

End CatalogFacts.

(** C6 as stated fails.  The search text ["."] is read as a pattern that
    any character matches: every seeded product is listed, though no title
    contains a dot.  The category [""] is taken as no category: every
    seeded product is listed, though none has the empty category. *)
Lemma list_products_regex_counterexample :
  List.length (db_product seeded_db) = 3%nat /\
  value_of (list_products no_pcre None (Some ".") seeded_db)
  = Ok (map to_str_id (db_product seeded_db)) /\
  Forall (fun d => ~ claimed_selects None (Some ".") (body d))
         (db_product seeded_db) /\
  value_of (list_products no_pcre (Some "") None seeded_db)
  = Ok (map to_str_id (db_product seeded_db)) /\
  Forall (fun d => ~ claimed_selects (Some "") None (body d))
         (db_product seeded_db).
Proof.
  split; [reflexivity|]. split; [vm_compute; reflexivity|]. split.
  - change (db_product seeded_db)
      with [mkDoc 3%N aurora_tote; mkDoc 4%N nebula_earbuds; mkDoc 5%N orbit_mug].
    repeat (constructor;
            [ intros [_ H]; specialize (H "." eq_refl);
              apply search_lits in H; vm_compute in H; discriminate | ]).
    constructor.
  - split; [vm_compute; reflexivity|].
    change (db_product seeded_db)
      with [mkDoc 3%N aurora_tote; mkDoc 4%N nebula_earbuds; mkDoc 5%N orbit_mug].
    repeat (constructor;
            [ intros [H _]; specialize (H "" eq_refl);
              vm_compute in H; discriminate | ]).
    constructor.
Qed.

Lemma list_products_filter_witness :
  (forall s, Some "EAR" = Some s -> plain_text s) /\
  exists keep,
    list_products no_pcre (Some "tech") (Some "EAR") seeded_db
    = (Ok (map to_str_id (filter keep (db_product seeded_db))), seeded_db) /\
    forall d, keep d = true <-> selects (Some "tech") (Some "EAR") (body d).
Proof.
  assert (H : forall s, Some "EAR" = Some s -> plain_text s)
    by (intros s [= <-]; reflexivity).
  split; [exact H|].
  exact (list_products_filter no_pcre (Some "tech") (Some "EAR") seeded_db H).
Defined.

Lemma get_product_round_trip_witness :
  ids_ok product seeded_db /\ (next_oid seeded_db <= oid_bound)%N /\
  value_of (list_products no_pcre (Some "tech") None seeded_db)
  = Ok [mkWithId "000000000000000000000004" nebula_earbuds] /\
  get_product "000000000000000000000004" seeded_db
  = (Ok (mkWithId "000000000000000000000004" nebula_earbuds), seeded_db).
Proof.
  assert (Hok : ids_ok product seeded_db) by prove_ids_ok.
  assert (Hb : (next_oid seeded_db <= oid_bound)%N) by (vm_compute; discriminate).
  assert (Hout : value_of (list_products no_pcre (Some "tech") None seeded_db)
                 = Ok [mkWithId "000000000000000000000004" nebula_earbuds])
    by (vm_compute; reflexivity).
  split; [exact Hok|]. split; [exact Hb|]. split; [exact Hout|].
  apply (get_product_round_trip no_pcre (Some "tech") None seeded_db _
           (mkWithId "000000000000000000000004" nebula_earbuds) Hok Hb Hout).
  left. reflexivity.
Defined.

(** * Requests *)

(** ** Reading and failing *)

Section RoutesFacts.
Variable pcre : string -> string -> option (string -> bool).

Lemma read_only_get_documents {A} (c : Collection A)
    (strings : string -> A -> list string) (filt : query) :
  read_only (get_documents pcre c strings filt).
Proof.
  unfold get_documents. destruct (compile_query pcre strings filt);
    auto with reads.
Qed.

Lemma read_only_list_categories : read_only (list_categories pcre).
Proof.
  unfold list_categories. apply read_only_bind;
    [apply read_only_get_documents | auto with reads].
Qed.

Lemma read_only_list_products (category q : option string) :
  read_only (list_products pcre category q).
Proof.
  unfold list_products. apply read_only_bind;
    [apply read_only_get_documents | auto with reads].
Qed.

Lemma read_only_get_product (s : string) : read_only (get_product s).
Proof.
  intros db. destruct (oid_parse s) as [oid|] eqn:E.
  - rewrite (get_product_parsed s oid db E).
    now destruct (List.find (by_id oid) (db_product db)).
  - apply oid_parse_malformed in E. now rewrite (get_product_malformed s db E).
Qed.

(** X3.  The four handlers behind a GET route, [get_cart], [get_product],
    [list_products] and [list_categories], leave every database as they
    found it, whatever they are asked and whether they answer or raise. *)
Theorem get_handlers_are_read_only (db : Database) :
  (forall cart_id, db_after (get_cart cart_id db) = db) /\
  (forall product_id, db_after (get_product product_id db) = db) /\
  (forall category q, db_after (list_products pcre category q db) = db) /\
  db_after (list_categories pcre db) = db.
Proof.
  split; [intros c; apply read_only_get_cart|].
  split; [intros s; apply read_only_get_product|].
  split; [intros c q; apply read_only_list_products|].
  apply read_only_list_categories.
Qed.
End RoutesFacts.

(** What [add_to_cart] does to the database, by cases. *)
Lemma add_to_cart_run (item : CartItem.t) (db : Database) :
  (exists e,
      List.find (by_cart_product (CartItem.cart_id item) (CartItem.product_id item))
                (db_cartitem db) = Some e /\
      add_to_cart item db =
        (Ok (mkStatus "updated"),
         set_docs cartitem
           (update_first (by_id (_id e)) (inc_quantity (CartItem.quantity item))
                         (db_cartitem db)) db)) \/
  (List.find (by_cart_product (CartItem.cart_id item) (CartItem.product_id item))
             (db_cartitem db) = None /\
   add_to_cart item db =
     (Ok (mkStatus "added"),
      bump_oid (set_docs cartitem (db_cartitem db ++ [mkDoc (next_oid db) item]) db))).
Proof.
  unfold add_to_cart, bind, find_one. cbn [docs cartitem].
  destruct (List.find _ (db_cartitem db)) as [e|]; [left | right; auto].
  exists e. auto.
Qed.

Lemma validate_run (c p : string) (quantity : option Z) (db : Database) :
  (exists q, (1 <= q)%Z /\
     CartItem_validate c p quantity db = (Ok (CartItem.mk c p q), db) /\
     (quantity = Some q \/ (quantity = None /\ q = 1%Z))) \/
  ((exists q, quantity = Some q /\ (q < 1)%Z) /\
   CartItem_validate c p quantity db = (Raise RequestValidationError, db)).
Proof.
  unfold CartItem_validate. destruct quantity as [q|].
  - destruct (Z.leb_spec 1 q); [left; exists q; auto | right; eauto].
  - left. exists 1%Z. cbn. repeat split; auto. lia.
Qed.

Section ServeFacts.
Variable pcre : string -> string -> option (string -> bool).

Lemma serve_get (r : request) (db : Database) :
  match r with
  | PostCartAdd _ _ _ | PostCartRemove _ => True
  | _ => snd (serve pcre r db) = db
  end.
Proof.
  destruct r; cbn [serve answer snd]; trivial;
    first [ apply read_only_list_categories | apply read_only_list_products
          | apply read_only_get_product | apply read_only_get_cart
          | apply read_only_checkout ].
Qed.

Lemma serve_cart_add (c p : string) (quantity : option Z) (db : Database) :
  (exists q, (1 <= q)%Z /\
     serve pcre (PostCartAdd c p quantity) db
     = (200%Z, db_after (add_to_cart (CartItem.mk c p q) db))) \/
  serve pcre (PostCartAdd c p quantity) db = (422%Z, db).
Proof.
  cbn [serve]. unfold answer, bind.
  destruct (validate_run c p quantity db) as [(q & Hq & E & _) | (_ & E)];
    rewrite E.
  - left. exists q. split; [exact Hq|].
    destruct (add_to_cart_run (CartItem.mk c p q) db) as [(e & _ & ->) | (_ & ->)];
      reflexivity.
  - right. reflexivity.
Qed.

Lemma serve_cart_remove (s : string) (db : Database) :
  serve pcre (PostCartRemove s) db = (400%Z, db) \/
  serve pcre (PostCartRemove s) db = (404%Z, db) \/
  exists oid, oid_parse s = Some oid /\
    serve pcre (PostCartRemove s) db
    = (200%Z, set_docs cartitem (delete_first (by_id oid) (db_cartitem db)) db).
Proof.
  cbn [serve]. unfold answer. destruct (oid_parse s) as [oid|] eqn:E.
  - rewrite (remove_from_cart_parsed s oid db E).
    destruct (List.find (by_id oid) (db_cartitem db)); [|right; left; reflexivity].
    right. right. exists oid. auto.
  - apply oid_parse_malformed in E. rewrite (remove_from_cart_malformed s db E).
    left. reflexivity.
Qed.

(** X4.  A request that is not answered with status 200 has changed
    nothing: whenever a handler raises, or the body of [/api/cart/add]
    fails its schema, the database is the one before the request. *)
Theorem failed_request_changes_nothing (r : request) (db : Database) :
  fst (serve pcre r db) <> 200%Z -> snd (serve pcre r db) = db.
Proof.
  intros H. pose proof (serve_get r db) as Hget.
  destruct r as [| category q | product_id | cart_id product_id quantity
                | cart_id | s | cart_id];
    try exact Hget.
  - destruct (serve_cart_add cart_id product_id quantity db) as [(q & _ & E) | E];
      rewrite E in *; [now cbn in H | reflexivity].
  - destruct (serve_cart_remove s db) as [E | [E | (oid & _ & E)]];
      rewrite E in *; [reflexivity | reflexivity | now cbn in H].
Qed.

Lemma add_to_cart_frame (item : CartItem.t) (db : Database) :
  let db' := db_after (add_to_cart item db) in
  db_category db' = db_category db /\ db_product db' = db_product db /\
  db_order db' = db_order db /\
  (next_oid db <= next_oid db' <= N.succ (next_oid db))%N.
Proof.
  cbv zeta.
  destruct (add_to_cart_run item db) as [(e & _ & ->) | (_ & ->)];
    cbn; repeat split; lia.
Qed.

Lemma serve_frame (r : request) (db : Database) :
  let db' := snd (serve pcre r db) in
  db_category db' = db_category db /\ db_product db' = db_product db /\
  db_order db' = db_order db /\
  (next_oid db <= next_oid db' <= N.succ (next_oid db))%N.
Proof.
  cbv zeta. pose proof (serve_get r db) as Hget.
  destruct r as [| category q | product_id | cart_id product_id quantity
                | cart_id | s | cart_id];
    try (rewrite Hget; repeat split; lia).
  - destruct (serve_cart_add cart_id product_id quantity db) as [(q & _ & ->) | ->];
      cbn [snd]; [apply add_to_cart_frame | repeat split; lia].
  - destruct (serve_cart_remove s db) as [-> | [-> | (oid & _ & ->)]];
      cbn; repeat split; lia.
Qed.

(** The catalog after a sequence of requests. *)
Lemma serve_all_catalog (rs : list request) (db : Database) :
  db_category (serve_all pcre rs db) = db_category db /\
  db_product (serve_all pcre rs db) = db_product db.
Proof.
  revert db. induction rs as [|r rs IH]; intros db; cbn [serve_all fold_left].
  - now split.
  - fold (serve_all pcre rs (snd (serve pcre r db))).
    destruct (IH (snd (serve pcre r db))) as (-> & ->).
    destruct (serve_frame r db) as (-> & -> & _). now split.
Qed.

(** X5.  No sequence of requests changes the category, product or order
    collection: the catalog stays as it was seeded and no handler records
    an order.  A request takes at most one identifier from the
    generator. *)
Theorem catalog_is_immutable (rs : list request) (db : Database) :
  let db' := serve_all pcre rs db in
  db_category db' = db_category db /\ db_product db' = db_product db /\
  db_order db' = db_order db /\
  (next_oid db <= next_oid db' <= next_oid db + N.of_nat (List.length rs))%N.
Proof.
  cbv zeta. revert db. induction rs as [|r rs IH]; intros db; cbn [serve_all fold_left].
  - cbn. repeat split; lia.
  - fold (serve_all pcre rs (snd (serve pcre r db))).
    destruct (IH (snd (serve pcre r db))) as (-> & -> & -> & H).
    destruct (serve_frame r db) as (-> & -> & -> & H').
    repeat split; cbn [List.length]; lia.
Qed.
End ServeFacts.

Lemma failed_request_changes_nothing_witness :
  fst (serve no_pcre (PostCartRemove "not-an-id") cart_db) = 400%Z /\
  fst (serve no_pcre (PostCartRemove "not-an-id") cart_db) <> 200%Z /\
  snd (serve no_pcre (PostCartRemove "not-an-id") cart_db) = cart_db.
Proof.
  assert (H : fst (serve no_pcre (PostCartRemove "not-an-id") cart_db) <> 200%Z)
    by (vm_compute; discriminate).
  split; [reflexivity|]. split; [exact H|].
  exact (failed_request_changes_nothing no_pcre _ cart_db H).
Defined.

(** * The cart invariant *)

Lemma map_key_update_first (filt : Document CartItem.t -> bool) (n : Z) l :
  map cart_key (update_first filt (inc_quantity n) l) = map cart_key l.
Proof.
  induction l as [|d l IH]; cbn [update_first map]; [reflexivity|].
  destruct (filt d); cbn [map]; [reflexivity | now rewrite IH].
Qed.

Lemma quantities_update_first (filt : Document CartItem.t -> bool) (n : Z) l :
  (0 <= n)%Z ->
  Forall (fun d => (1 <= CartItem.quantity (body d))%Z) l ->
  Forall (fun d => (1 <= CartItem.quantity (body d))%Z)
         (update_first filt (inc_quantity n) l).
Proof.
  intros Hn. induction 1 as [|d l Hd Hl IH]; cbn [update_first]; [constructor|].
  destruct (filt d); constructor; try assumption. cbn. lia.
Qed.

Lemma NoDup_map_delete_first {A B} (f : Document A -> B)
    (filt : Document A -> bool) l :
  NoDup (map f l) -> NoDup (map f (delete_first filt l)).
Proof.
  induction l as [|x l IH]; cbn; [trivial|]. intros H.
  apply NoDup_cons_iff in H. destruct H as [Hx Hl].
  destruct (filt x); [exact Hl|]. cbn. apply NoDup_cons; [|auto].
  intros Hin. apply Hx. apply in_map_iff in Hin. destruct Hin as (d & E & Hd).
  apply in_map_iff. exists d. split; [exact E|]. now apply (delete_first_incl filt).
Qed.

Lemma Forall_delete_first {A} (P : Document A -> Prop)
    (filt : Document A -> bool) l :
  Forall P l -> Forall P (delete_first filt l).
Proof.
  intros H. apply Forall_forall. intros d Hd. rewrite Forall_forall in H.
  apply H. now apply (delete_first_incl filt).
Qed.

Lemma absent_key (c p : string) l :
  Forall (fun d => by_cart_product c p d = false) l ->
  ~ In (c, p) (map cart_key l).
Proof.
  intros H Hin. apply in_map_iff in Hin. destruct Hin as (d & E & Hd).
  rewrite Forall_forall in H. specialize (H d Hd).
  unfold cart_key in E. injection E as Hc Hp.
  unfold by_cart_product in H. rewrite Hc, Hp, !String.eqb_refl in H. discriminate.
Qed.

Lemma add_to_cart_cart_ok (item : CartItem.t) (db : Database) :
  (1 <= CartItem.quantity item)%Z ->
  cart_ok db -> cart_ok (db_after (add_to_cart item db)).
Proof.
  intros Hq [Hnd Hqs]. unfold cart_ok.
  destruct (add_to_cart_run item db) as [(e & _ & ->) | (Hnone & ->)];
    cbn [db_after snd set_docs cartitem bump_oid db_cartitem].
  - rewrite map_key_update_first. split; [exact Hnd|].
    apply quantities_update_first; [lia | exact Hqs].
  - split.
    + rewrite map_app. cbn [map]. apply NoDup_app; [exact Hnd | |].
      * repeat constructor. cbn. tauto.
      * intros k Hk [<- | []]. revert Hk. destruct item as [c p q].
        apply absent_key. now apply find_none_absent.
    + apply Forall_app. split; [exact Hqs|]. repeat constructor. exact Hq.
Qed.

Section InvariantFacts.
Variable pcre : string -> string -> option (string -> bool).

Lemma serve_cart_ok (r : request) (db : Database) :
  cart_ok db -> cart_ok (snd (serve pcre r db)).
Proof.
  intros H. pose proof (serve_get pcre r db) as Hget.
  destruct r as [| category q | product_id | cart_id product_id quantity
                | cart_id | s | cart_id];
    try (rewrite Hget; exact H).
  - destruct (serve_cart_add pcre cart_id product_id quantity db)
      as [(q & Hq & ->) | ->]; cbn [snd]; [|exact H].
    now apply add_to_cart_cart_ok.
  - destruct (serve_cart_remove pcre s db) as [-> | [-> | (oid & _ & ->)]];
      cbn [snd]; try exact H.
    destruct H as [Hnd Hqs]. split; cbn [set_docs cartitem db_cartitem].
    + now apply NoDup_map_delete_first.
    + now apply Forall_delete_first.
Qed.

Lemma serve_store_ok (r : request) (db : Database) :
  store_ok db -> store_ok (snd (serve pcre r db)).
Proof.
  intros H. pose proof (serve_get pcre r db) as Hget.
  destruct r as [| category q | product_id | cart_id product_id quantity
                | cart_id | s | cart_id];
    try (rewrite Hget; exact H).
  - destruct (serve_cart_add pcre cart_id product_id quantity db)
      as [(q & Hq & ->) | ->]; cbn [snd]; [|exact H].
    now apply add_to_cart_ok.
  - cbn [serve answer snd]. now apply remove_from_cart_ok.
Qed.

(** X6.  Every request keeps the invariants of the store: identifiers
    stay unique and store-assigned, no cart holds two rows of the same
    product id string, and no row has a quantity below 1. *)
Theorem requests_keep_the_cart_invariant (rs : list request) (db : Database) :
  store_ok db -> cart_ok db ->
  store_ok (serve_all pcre rs db) /\ cart_ok (serve_all pcre rs db).
Proof.
  revert db. induction rs as [|r rs IH]; intros db Hs Hc; [now split|].
  cbn [serve_all fold_left]. fold (serve_all pcre rs (snd (serve pcre r db))).
  apply IH; [now apply serve_store_ok | now apply serve_cart_ok].
Qed.
End InvariantFacts.

Lemma cart_ok_empty : cart_ok empty_db.
Proof. split; constructor. Qed.

Lemma cart_ok_seed (db : Database) : cart_ok db -> cart_ok (db_after (seed_data db)).
Proof.
  intros H. unfold cart_ok.
  replace (db_cartitem (db_after (seed_data db))) with (db_cartitem db); [exact H|].
  destruct db as [cats prods items orders n].
  destruct cats, prods; reflexivity.
Qed.

Lemma requests_keep_the_cart_invariant_witness :
  let rs := [PostCartAdd "cart-1" tote_id None;
             PostCartAdd "cart-1" "not-an-id" (Some 2%Z);
             PostCartAdd "cart-1" tote_id (Some 4%Z);
             PostCartRemove "000000000000000000000007";
             PostCheckout "cart-1"] in
  store_ok seeded_db /\ cart_ok seeded_db /\
  store_ok (serve_all no_pcre rs seeded_db) /\
  cart_ok (serve_all no_pcre rs seeded_db) /\
  db_cartitem (serve_all no_pcre rs seeded_db)
  = [mkDoc 6%N (CartItem.mk "cart-1" tote_id 5)].
Proof.
  cbv zeta.
  assert (Hs : store_ok seeded_db) by apply seed_data_ok, store_ok_empty.
  assert (Hc : cart_ok seeded_db) by apply cart_ok_seed, cart_ok_empty.
  split; [exact Hs|]. split; [exact Hc|].
  destruct (requests_keep_the_cart_invariant no_pcre
              [PostCartAdd "cart-1" tote_id None;
               PostCartAdd "cart-1" "not-an-id" (Some 2%Z);
               PostCartAdd "cart-1" tote_id (Some 4%Z);
               PostCartRemove "000000000000000000000007";
               PostCheckout "cart-1"] seeded_db Hs Hc) as [H1 H2].
  split; [exact H1|]. split; [exact H2|]. vm_compute. reflexivity.
Defined.

(** * Carts side by side *)

Lemma well_formed_rows_dec (items : list (Document CartItem.t)) :
  Forall well_formed_row items \/ Exists (fun it => ~ well_formed_row it) items.
Proof.
  induction items as [|it items [IH | IH]].
  - left. constructor.
  - destruct (oid_parse (CartItem.product_id (body it))) as [oid|] eqn:E.
    + left. constructor; [|exact IH]. apply oid_parse_well_formed. eauto.
    + right. left. now apply oid_parse_malformed.
  - right. now right.
Qed.

(** A listing is answered only for a cart whose rows all carry well-formed
    product ids. *)
Lemma get_cart_ok (db db' : Database) (cart_id : string) (lines : list CartLine.t) :
  get_cart cart_id db = (Ok lines, db') ->
  Forall well_formed_row (cart_rows db cart_id) /\
  lines = flat_map (cart_line db) (cart_rows db cart_id) /\ db' = db.
Proof.
  intros H. destruct (well_formed_rows_dec (cart_rows db cart_id)) as [Hwf | Hbad].
  - rewrite (get_cart_well_formed db cart_id Hwf) in H. injection H as <- <-. auto.
  - rewrite (get_cart_malformed db cart_id Hbad) in H. discriminate.
Qed.

Lemma resolve_frame (db db' : Database) (it : Document CartItem.t) :
  db_product db' = db_product db -> resolve db' it = resolve db it.
Proof. intros H. unfold resolve. now rewrite H. Qed.

Lemma cart_line_frame (db db' : Database) (items : list (Document CartItem.t)) :
  db_product db' = db_product db ->
  flat_map (cart_line db') items = flat_map (cart_line db) items.
Proof.
  intros H. apply flat_map_ext. intros it. unfold cart_line.
  now rewrite (resolve_frame db db' it H).
Qed.

Lemma get_cart_frame (db db' : Database) (cart_id : string) :
  db_product db' = db_product db ->
  cart_rows db' cart_id = cart_rows db cart_id ->
  value_of (get_cart cart_id db') = value_of (get_cart cart_id db).
Proof.
  intros Hp Hr.
  destruct (well_formed_rows_dec (cart_rows db cart_id)) as [Hwf | Hbad].
  - rewrite (get_cart_well_formed db cart_id Hwf).
    rewrite <- Hr in Hwf. rewrite (get_cart_well_formed db' cart_id Hwf).
    cbn [value_of fst]. now rewrite Hr, (cart_line_frame db db' _ Hp).
  - rewrite (get_cart_malformed db cart_id Hbad).
    rewrite <- Hr in Hbad. now rewrite (get_cart_malformed db' cart_id Hbad).
Qed.

(** A loop whose step reads the same from two databases and writes to
    neither gives the same in both. *)
Lemma for_each_frame {A B} (step : B -> A -> M B) (db db' : Database) :
  (forall acc x, fst (step acc x db') = fst (step acc x db) /\
                 snd (step acc x db) = db /\ snd (step acc x db') = db') ->
  forall items acc,
    fst (for_each items acc step db') = fst (for_each items acc step db).
Proof.
  intros Hstep. induction items as [|x items IH]; intros acc; [reflexivity|].
  cbn [for_each]. unfold bind. destruct (Hstep acc x) as (Hv & Hdb & Hdb').
  destruct (step acc x db) as [[a|e] d1]; destruct (step acc x db') as [[a'|e'] d2];
    cbn [fst snd] in *; subst; try discriminate.
  - injection Hv as ->. apply IH.
  - exact Hv.
Qed.

(** The loop of [checkout] reads the products and nothing else. *)
Lemma checkout_loop_frame (db db' : Database) (items : list (Document CartItem.t)) :
  db_product db' = db_product db ->
  forall subtotal,
    fst (for_each items subtotal
      (fun subtotal it =>
         oid <- ObjectId_of (CartItem.product_id (body it)) ;;
         p <- find_one product (by_id oid) ;;
         match p with
         | Some p =>
             price <- py_float (Product.price (body p)) ;;
             amount <- float_mul_int price (CartItem.quantity (body it)) ;;
             ret (subtotal + amount)%float
         | None => ret subtotal
         end) db')
    = fst (for_each items subtotal
      (fun subtotal it =>
         oid <- ObjectId_of (CartItem.product_id (body it)) ;;
         p <- find_one product (by_id oid) ;;
         match p with
         | Some p =>
             price <- py_float (Product.price (body p)) ;;
             amount <- float_mul_int price (CartItem.quantity (body it)) ;;
             ret (subtotal + amount)%float
         | None => ret subtotal
         end) db).
Proof.
  intros Hp. apply for_each_frame. intros acc it.
  unfold bind, ObjectId_of, find_one, ret, raise.
  destruct (oid_parse (CartItem.product_id (body it))) as [oid|]; [|auto].
  cbn [docs product]. rewrite Hp.
  destruct (List.find (by_id oid) (db_product db)) as [p|]; [|auto].
  unfold py_float, float_mul_int, float_of_int, bind, ret, raise.
  destruct (Product.price (body p)) as [z|f];
    [destruct (binary_normalize prec emax z 0 false)|];
    destruct (binary_normalize prec emax (CartItem.quantity (body it)) 0 false);
    auto.
Qed.

(** [checkout] is its loop over the rows of the cart, then the rounding. *)
Lemma checkout_run (db : Database) (cart_id : string) :
  checkout (CheckoutRequest.mk cart_id) db
  = match for_each (cart_rows db cart_id) 0%float
      (fun subtotal it =>
         oid <- ObjectId_of (CartItem.product_id (body it)) ;;
         p <- find_one product (by_id oid) ;;
         match p with
         | Some p =>
             price <- py_float (Product.price (body p)) ;;
             amount <- float_mul_int price (CartItem.quantity (body it)) ;;
             ret (subtotal + amount)%float
         | None => ret subtotal
         end) db with
    | (Ok subtotal, db') =>
        (Ok (CheckoutResponse.mk (round2 subtotal)
                                 (round2 (subtotal * 1.08)%float) "USD"), db')
    | (Raise e, db') => (Raise e, db')
    end.
Proof. reflexivity. Qed.

Lemma checkout_frame (db db' : Database) (cart_id : string) :
  db_product db' = db_product db ->
  cart_rows db' cart_id = cart_rows db cart_id ->
  value_of (checkout (CheckoutRequest.mk cart_id) db')
  = value_of (checkout (CheckoutRequest.mk cart_id) db).
Proof.
  intros Hp Hr. rewrite !checkout_run, Hr.
  pose proof (checkout_loop_frame db db' (cart_rows db cart_id) Hp 0%float) as H.
  match type of H with
  | fst ?a = fst ?b => destruct a as [[x|e] d1]; destruct b as [[y|e'] d2]
  end; cbn [fst] in H; try discriminate; injection H as <-; reflexivity.
Qed.

Lemma cart_view_frame (db db' : Database) (cart_id : string) :
  db_product db' = db_product db ->
  cart_rows db' cart_id = cart_rows db cart_id ->
  cart_view db' cart_id = cart_view db cart_id.
Proof.
  intros Hp Hr. unfold cart_view.
  now rewrite (get_cart_frame db db' _ Hp Hr), (checkout_frame db db' _ Hp Hr).
Qed.

Lemma filter_update_first {A} (filt g : Document A -> bool) (upd : A -> A)
    (l : list (Document A)) (row : Document A) :
  List.find filt l = Some row ->
  g row = false -> g (mkDoc (_id row) (upd (body row))) = false ->
  filter g (update_first filt upd l) = filter g l.
Proof.
  intros Hfind H1 H2.
  destruct (find_first _ _ _ Hfind) as (before & after & -> & Hrow & Hb).
  rewrite (update_first_at _ _ _ _ _ Hb Hrow), !filter_app. cbn [filter].
  now rewrite H1, H2.
Qed.

Lemma filter_delete_first {A} (filt g : Document A -> bool)
    (l : list (Document A)) (row : Document A) :
  List.find filt l = Some row -> g row = false ->
  filter g (delete_first filt l) = filter g l.
Proof.
  intros Hfind H1.
  destruct (find_first _ _ _ Hfind) as (before & after & -> & Hrow & Hb).
  rewrite (delete_first_at _ _ _ _ Hb Hrow), !filter_app. cbn [filter].
  now rewrite H1.
Qed.

Lemma by_cart_other (c c' : string) (d : Document CartItem.t) :
  CartItem.cart_id (body d) = c -> c <> c' -> by_cart c' d = false.
Proof. intros <- H. unfold by_cart. now apply String.eqb_neq. Qed.

Lemma find_by_cart_product (c p : string) (l : list (Document CartItem.t))
    (e : Document CartItem.t) :
  List.find (by_cart_product c p) l = Some e ->
  In e l /\ CartItem.cart_id (body e) = c /\ CartItem.product_id (body e) = p.
Proof.
  intros H. apply find_some in H. destruct H as [Hin H]. unfold by_cart_product in H.
  apply andb_true_iff in H. destruct H as [H1 H2].
  apply String.eqb_eq in H1, H2. auto.
Qed.

Lemma add_to_cart_other_cart (db : Database) (c p : string) (q : Z) (c' : string) :
  ids_ok cartitem db -> c <> c' ->
  cart_rows (db_after (add_to_cart (CartItem.mk c p q) db)) c' = cart_rows db c'.
Proof.
  intros [Hnd _] Hc. cbn [docs cartitem] in Hnd. unfold cart_rows.
  destruct (add_to_cart_run (CartItem.mk c p q) db) as [(e & He & ->) | (_ & ->)];
    cbn [db_after snd set_docs cartitem bump_oid db_cartitem
         CartItem.cart_id CartItem.product_id CartItem.quantity] in *.
  - destruct (find_by_cart_product _ _ _ _ He) as (Hin & Hce & _).
    apply (filter_update_first _ _ _ _ e).
    + now apply find_by_id_member.
    + now apply (by_cart_other c).
    + now apply (by_cart_other c).
  - rewrite filter_app. cbn [filter].
    rewrite (by_cart_other c c') by auto. apply app_nil_r.
Qed.

Lemma remove_from_cart_other_cart (db : Database) (s : string) (oid : ObjectId)
    (row : Document CartItem.t) (c' : string) :
  oid_parse s = Some oid -> List.find (by_id oid) (db_cartitem db) = Some row ->
  CartItem.cart_id (body row) <> c' ->
  cart_rows (db_after (remove_from_cart (IdModel.mk s) db)) c' = cart_rows db c'.
Proof.
  intros Hs Hrow Hc. rewrite (remove_from_cart_parsed s oid db Hs), Hrow.
  unfold cart_rows. cbn [db_after snd set_docs cartitem db_cartitem].
  apply (filter_delete_first _ _ _ row Hrow). now apply (by_cart_other _ c' row eq_refl).
Qed.

Lemma remove_from_cart_products (db : Database) (payload : IdModel.t) :
  db_product (db_after (remove_from_cart payload db)) = db_product db.
Proof.
  destruct payload as [s]. destruct (oid_parse s) as [oid|] eqn:E.
  - rewrite (remove_from_cart_parsed s oid db E).
    now destruct (List.find (by_id oid) (db_cartitem db)).
  - apply oid_parse_malformed in E. now rewrite (remove_from_cart_malformed s db E).
Qed.

(** X7.  Carts do not interfere: adding to a cart, or removing a row of a
    cart, changes neither the listing nor the quote, values and errors
    alike, of any other cart. *)
Theorem carts_are_isolated (db : Database) (cart_id : string) :
  ids_ok cartitem db ->
  (forall c p q, c <> cart_id ->
     cart_view (db_after (add_to_cart (CartItem.mk c p q) db)) cart_id
     = cart_view db cart_id) /\
  (forall s oid row,
     oid_parse s = Some oid ->
     List.find (by_id oid) (db_cartitem db) = Some row ->
     CartItem.cart_id (body row) <> cart_id ->
     cart_view (db_after (remove_from_cart (IdModel.mk s) db)) cart_id
     = cart_view db cart_id).
Proof.
  intros Hok. split.
  - intros c p q Hc. apply cart_view_frame.
    + apply add_to_cart_frame.
    + now apply add_to_cart_other_cart.
  - intros s oid row Hs Hrow Hc. apply cart_view_frame.
    + apply remove_from_cart_products.
    + now apply (remove_from_cart_other_cart db s oid row).
Qed.

Lemma carts_are_isolated_witness :
  ids_ok cartitem cart_db /\
  cart_view (db_after (add_to_cart (CartItem.mk "cart-2" tote_id 5) cart_db)) "cart-1"
  = cart_view cart_db "cart-1" /\
  cart_view (db_after (remove_from_cart (IdModel.mk "000000000000000000000006")
                                        cart_db)) "cart-2"
  = cart_view cart_db "cart-2".
Proof.
  assert (Hok : ids_ok cartitem cart_db) by prove_ids_ok.
  split; [exact Hok|].
  destruct (carts_are_isolated cart_db "cart-1" Hok) as [Hadd _].
  destruct (carts_are_isolated cart_db "cart-2" Hok) as [_ Hrem].
  split.
  - apply Hadd. discriminate.
  - eapply Hrem; [reflexivity | reflexivity | discriminate].
Defined.

(** * From the listing to the rows and back *)

Lemma oid_str_inj (a b : ObjectId) :
  (a < oid_bound)%N -> (b < oid_bound)%N -> oid_str a = oid_str b -> a = b.
Proof.
  intros Ha Hb E. apply oid_parse_str in Ha, Hb. rewrite E in Ha. congruence.
Qed.

Lemma cart_line_id (db : Database) (items : list (Document CartItem.t))
    (line : CartLine.t) :
  In line (flat_map (cart_line db) items) ->
  exists it, In it items /\ CartLine.id line = oid_str (_id it).
Proof.
  intros H. apply in_flat_map in H. destruct H as (it & Hit & Hl).
  unfold cart_line in Hl. destruct (resolve db it); [|contradiction].
  destruct Hl as [<- | []]. eauto.
Qed.

(** The lines of rows with other identifiers have other ids. *)
Lemma cart_lines_other (db : Database) (items : list (Document CartItem.t))
    (oid : ObjectId) :
  (oid < oid_bound)%N ->
  Forall (fun it => (_id it < oid_bound)%N /\ _id it <> oid) items ->
  Forall (fun line => (CartLine.id line =? oid_str oid) = false)
         (flat_map (cart_line db) items).
Proof.
  intros Hoid H. apply Forall_forall. intros line Hl.
  destruct (cart_line_id db items line Hl) as (it & Hit & ->).
  rewrite Forall_forall in H. destruct (H it Hit) as [Hlt Hne].
  apply String.eqb_neq. intros E. apply Hne. now apply oid_str_inj.
Qed.

Lemma filter_all {A} (f : A -> bool) (l : list A) :
  Forall (fun x => f x = true) l -> filter f l = l.
Proof.
  induction 1 as [|x l Hx _ IH]; cbn; [reflexivity|]. now rewrite Hx, IH.
Qed.

Lemma map_id_on {A} (f : A -> A) (l : list A) :
  Forall (fun x => f x = x) l -> map f l = l.
Proof.
  induction 1 as [|x l Hx _ IH]; cbn; [reflexivity|]. now rewrite Hx, IH.
Qed.

(** The rows around one row, in a collection without repeated ids below
    the bound. *)
Lemma rows_around (before after : list (Document CartItem.t))
    (row : Document CartItem.t) (n : N) :
  NoDup (map _id (before ++ row :: after)) ->
  Forall (fun d => (_id d < n)%N) (before ++ row :: after) ->
  (n <= oid_bound)%N ->
  (_id row < oid_bound)%N /\
  Forall (fun it => (_id it < oid_bound)%N /\ _id it <> _id row) before /\
  Forall (fun it => (_id it < oid_bound)%N /\ _id it <> _id row) after.
Proof.
  intros Hnd Hlt Hn. destruct (by_id_unique _ _ _ Hnd) as [Hb Ha].
  apply by_id_false in Hb, Ha.
  apply Forall_app in Hlt. destruct Hlt as [Hlb Hla].
  apply Forall_cons_iff in Hla. destruct Hla as [Hrow Hla].
  unfold ObjectId in *. split; [lia|].
  split; apply Forall_forall; intros it Hit;
    rewrite Forall_forall in Hb, Ha, Hlb, Hla.
  - specialize (Hb it Hit). specialize (Hlb it Hit). cbv beta in *.
    split; [lia | exact Hb].
  - specialize (Ha it Hit). specialize (Hla it Hit). cbv beta in *.
    split; [lia | exact Ha].
Qed.

Lemma Forall_filter {A} (P : A -> Prop) (f : A -> bool) (l : list A) :
  Forall P l -> Forall P (filter f l).
Proof.
  intros H. apply Forall_forall. intros x Hx. apply filter_In in Hx.
  rewrite Forall_forall in H. now apply H.
Qed.

(** * Adding, listing, removing *)

Lemma get_cart_after (db db' : Database) (cart_id : string) :
  db_product db' = db_product db ->
  Forall well_formed_row (cart_rows db' cart_id) ->
  get_cart cart_id db' = (Ok (flat_map (cart_line db) (cart_rows db' cart_id)), db').
Proof.
  intros Hp Hwf. rewrite (get_cart_well_formed db' cart_id Hwf).
  now rewrite (cart_line_frame db db' _ Hp).
Qed.

(** The listing of a cart after a product new to it was added. *)
Lemma get_cart_add_new (db : Database) (c p : string) (q : Z)
    (lines : list CartLine.t) (oid : ObjectId) (d : Document Product.t) :
  get_cart c db = (Ok lines, db) ->
  oid_parse p = Some oid -> List.find (by_id oid) (db_product db) = Some d ->
  List.find (by_cart_product c p) (db_cartitem db) = None ->
  let db' := db_after (add_to_cart (CartItem.mk c p q) db) in
  get_cart c db'
  = (Ok (lines ++ [CartLine.mk (oid_str (next_oid db)) (to_str_id d) q]), db').
Proof.
  intros Hget Hp Hd Hnone db'.
  apply get_cart_ok in Hget. destruct Hget as (Hwf & -> & _).
  assert (Hwfp : well_formed_id p) by (apply oid_parse_well_formed; eauto).
  assert (Hdb' : db' = bump_oid (set_docs cartitem
                   (db_cartitem db ++ [mkDoc (next_oid db) (CartItem.mk c p q)]) db)).
  { subst db'.
    destruct (add_to_cart_run (CartItem.mk c p q) db) as [(e & He & _) | (_ & ->)];
      [cbn in He; congruence | reflexivity]. }
  assert (Hrows : cart_rows db' c
                  = cart_rows db c ++ [mkDoc (next_oid db) (CartItem.mk c p q)]).
  { rewrite Hdb'. unfold cart_rows, bump_oid. cbn [set_docs cartitem db_cartitem].
    rewrite filter_app. cbn [filter]. unfold by_cart at 2.
    cbn [body CartItem.cart_id]. now rewrite String.eqb_refl. }
  rewrite (get_cart_after db); [| now rewrite Hdb' |]; rewrite Hrows.
  - rewrite flat_map_app. cbn [flat_map]. unfold cart_line at 2, resolve.
    cbn [body CartItem.product_id]. rewrite Hp, Hd. now rewrite app_nil_r.
  - apply Forall_app. split; [exact Hwf|]. constructor; [exact Hwfp | constructor].
Qed.

(** X8.  After [add_to_cart] of an existing product to a cart that
    [get_cart] can list, the listing is the former one with [q] added to
    the quantity on the line of the row of that product id or, when the
    cart had no row of that product id, with a new last line of quantity
    [q] under the next identifier of the store. *)
Theorem added_item_is_listed (db : Database) (c p : string) (q : Z)
    (lines : list CartLine.t) (oid : ObjectId) (d : Document Product.t) :
  ids_ok cartitem db -> (next_oid db <= oid_bound)%N ->
  get_cart c db = (Ok lines, db) ->
  oid_parse p = Some oid -> List.find (by_id oid) (db_product db) = Some d ->
  let db' := db_after (add_to_cart (CartItem.mk c p q) db) in
  get_cart c db'
  = (Ok match List.find (by_cart_product c p) (db_cartitem db) with
        | Some e => map (raise_quantity (oid_str (_id e)) q) lines
        | None => lines ++ [CartLine.mk (oid_str (next_oid db)) (to_str_id d) q]
        end, db').
Proof.
  intros [Hnd Hlt] Hbound Hget Hp Hd db'. cbn [docs cartitem] in Hnd, Hlt.
  destruct (List.find (by_cart_product c p) (db_cartitem db)) as [e|] eqn:He;
    [|now apply (get_cart_add_new db c p q lines oid d)].
  apply get_cart_ok in Hget. destruct Hget as (Hwf & -> & _).
  assert (Hprod : db_product db' = db_product db)
    by apply (add_to_cart_frame (CartItem.mk c p q) db).
  assert (Hdb' : db' = set_docs cartitem
                   (update_first (by_id (_id e)) (inc_quantity q) (db_cartitem db)) db).
  { subst db'.
    destruct (add_to_cart_run (CartItem.mk c p q) db) as [(e' & He' & ->) | (He' & _)];
      cbn [CartItem.cart_id CartItem.product_id CartItem.quantity] in *;
      [|congruence].
    rewrite He in He'. now injection He' as <-. }
  destruct (find_by_cart_product _ _ _ _ He) as (Hin & Hce & Hpe).
  apply in_split in Hin. destruct Hin as (before & after & Hrows).
  unfold cart_rows in Hwf. rewrite Hrows in *.
  destruct (by_id_unique _ _ _ Hnd) as [Hb Ha].
  destruct (rows_around _ _ _ _ Hnd Hlt Hbound) as (Hide & Hob & Hoa).
  assert (Hcart : by_cart c e = true) by (unfold by_cart; now apply String.eqb_eq).
  assert (Hres : resolve db e = Some d).
  { unfold resolve. now rewrite Hpe, Hp. }
  rewrite (update_first_at _ _ _ _ _ Hb (by_id_refl e)) in Hdb'.
  rewrite filter_app in Hwf. cbn [filter] in Hwf. rewrite Hcart in Hwf.
  apply Forall_app in Hwf. destruct Hwf as [Hwb Hwa].
  apply Forall_cons_iff in Hwa. destruct Hwa as [Hwe Hwa].
  assert (Hrows' : cart_rows db' c
                   = filter (by_cart c) before
                     ++ mkDoc (_id e) (inc_quantity q (body e))
                     :: filter (by_cart c) after).
  { rewrite Hdb'. unfold cart_rows. cbn [db_cartitem set_docs cartitem].
    rewrite filter_app. cbn [filter]. unfold by_cart at 2.
    cbn [body inc_quantity CartItem.cart_id]. fold (by_cart c e). now rewrite Hcart. }
  rewrite (get_cart_after db); [| exact Hprod |]; rewrite Hrows'.
  - f_equal. f_equal. unfold cart_rows. rewrite Hrows, filter_app. cbn [filter].
    rewrite Hcart, !flat_map_app. cbn [flat_map]. rewrite !map_app.
    f_equal; [|f_equal].
    + symmetry. apply map_id_on.
      eapply Forall_impl; [| apply (cart_lines_other db _ (_id e) Hide),
                               Forall_filter, Hob].
      intros line H. unfold raise_quantity. now rewrite H.
    + unfold cart_line. rewrite Hres.
      assert (Hres' : resolve db (mkDoc (_id e) (inc_quantity q (body e))) = Some d).
      { unfold resolve. cbn [body inc_quantity CartItem.product_id].
        now rewrite Hpe, Hp. }
      rewrite Hres'. cbn [map]. unfold raise_quantity.
      cbn [CartLine.id CartLine.product CartLine.quantity _id body inc_quantity
           CartItem.quantity]. now rewrite String.eqb_refl.
    + symmetry. apply map_id_on.
      eapply Forall_impl; [| apply (cart_lines_other db _ (_id e) Hide),
                               Forall_filter, Hoa].
      intros line H. unfold raise_quantity. now rewrite H.
  - apply Forall_app. split; [exact Hwb|]. constructor; [|exact Hwa].
    unfold well_formed_row. cbn [body inc_quantity CartItem.product_id].
    exact Hwe.
Qed.

Lemma added_item_is_listed_witness :
  ids_ok cartitem cart_db /\ (next_oid cart_db <= oid_bound)%N /\
  (exists line,
     get_cart "cart-1" cart_db = (Ok [line], cart_db) /\
     CartLine.quantity line = 2%Z /\
     let db' := db_after (add_to_cart (CartItem.mk "cart-1" tote_id 3) cart_db) in
     get_cart "cart-1" db'
     = (Ok [CartLine.mk (CartLine.id line) (CartLine.product line) 5], db')) /\
  let db' := db_after (add_to_cart (CartItem.mk "cart-2" tote_id 1) cart_db) in
  get_cart "cart-2" db'
  = (Ok [CartLine.mk "000000000000000000000007" (mkWithId tote_id aurora_tote) 1],
     db').
Proof.
  assert (Hok : ids_ok cartitem cart_db) by prove_ids_ok.
  assert (Hb : (next_oid cart_db <= oid_bound)%N) by (vm_compute; discriminate).
  split; [exact Hok|]. split; [exact Hb|]. split.
  - eexists. split; [vm_compute; reflexivity|]. split; [reflexivity|].
    exact (added_item_is_listed cart_db "cart-1" tote_id 3 _ 3%N
             (mkDoc 3%N aurora_tote) Hok Hb eq_refl eq_refl eq_refl).
  - exact (added_item_is_listed cart_db "cart-2" tote_id 1 [] 3%N
             (mkDoc 3%N aurora_tote) Hok Hb eq_refl eq_refl eq_refl).
Defined.

(** X9.  Every line that [get_cart] lists can be removed by its [id]:
    [remove_from_cart] answers [removed], exactly one row is gone, and the
    listing afterwards is the former one without that line. *)
Theorem listed_line_can_be_removed (db : Database) (cart_id : string)
    (lines : list CartLine.t) (line : CartLine.t) :
  ids_ok cartitem db -> (next_oid db <= oid_bound)%N ->
  get_cart cart_id db = (Ok lines, db) -> In line lines ->
  let run := remove_from_cart (IdModel.mk (CartLine.id line)) db in
  value_of run = Ok (mkStatus "removed") /\
  get_cart cart_id (db_after run)
  = (Ok (filter (fun l => negb (CartLine.id l =? CartLine.id line)) lines),
     db_after run) /\
  S (List.length (db_cartitem (db_after run))) = List.length (db_cartitem db).
Proof.
  intros [Hnd Hlt] Hbound Hget Hline run. cbn [docs cartitem] in Hnd, Hlt.
  apply get_cart_ok in Hget. destruct Hget as (Hwf & -> & _).
  destruct (cart_line_id db _ line Hline) as (row & Hrow & Hid).
  unfold cart_rows in Hrow. apply filter_In in Hrow. destruct Hrow as [Hin Hcart].
  assert (Hfind : List.find (by_id (_id row)) (db_cartitem db) = Some row)
    by now apply find_by_id_member.
  apply in_split in Hin. destruct Hin as (before & after & Hrows).
  rewrite Hrows in Hnd, Hlt.
  destruct (by_id_unique _ _ _ Hnd) as [Hb Ha].
  destruct (rows_around _ _ _ _ Hnd Hlt Hbound) as (Hidr & Hob & Hoa).
  assert (Hrun : run = (Ok (mkStatus "removed"),
                        set_docs cartitem (before ++ after) db)).
  { subst run. rewrite Hid.
    rewrite (remove_from_cart_parsed _ (_id row) db (oid_parse_str _ Hidr)), Hfind.
    rewrite Hrows. now rewrite (delete_first_at _ _ _ _ Hb (by_id_refl row)). }
  rewrite Hrun. cbn [value_of db_after fst snd]. split; [reflexivity|].
  unfold cart_rows in *. rewrite Hrows in *.
  rewrite filter_app in *. cbn [filter] in *. rewrite Hcart in *.
  apply Forall_app in Hwf. destruct Hwf as [Hwb Hwa].
  apply Forall_cons_iff in Hwa. destruct Hwa as [Hwr Hwa].
  split.
  - rewrite (get_cart_after db); [| reflexivity |];
      unfold cart_rows; cbn [set_docs cartitem db_cartitem]; rewrite filter_app.
    + f_equal. f_equal. rewrite !flat_map_app. cbn [flat_map].
      rewrite !filter_app. rewrite Hid.
      assert (Hkeep : forall items,
        Forall (fun it => (_id it < oid_bound)%N /\ _id it <> _id row) items ->
        filter (fun l => negb (CartLine.id l =? oid_str (_id row)))
               (flat_map (cart_line db) (filter (by_cart cart_id) items))
        = flat_map (cart_line db) (filter (by_cart cart_id) items)).
      { intros items H. apply filter_all.
        eapply Forall_impl; [| apply (cart_lines_other db _ (_id row) Hidr),
                                 Forall_filter, H].
        intros l Hl. cbv beta in Hl. now rewrite Hl. }
      rewrite (Hkeep before Hob), (Hkeep after Hoa). f_equal.
      rewrite <- (app_nil_l (flat_map _ (filter _ after))) at 1. f_equal.
      unfold cart_line in *. destruct (resolve db row); [|reflexivity].
      cbn [filter CartLine.id]. now rewrite String.eqb_refl.
    + apply Forall_app. now split.
  - cbn [set_docs cartitem db_cartitem]. rewrite !length_app. cbn [List.length]. lia.
Qed.

Lemma listed_line_can_be_removed_witness :
  ids_ok cartitem ghost_db /\ (next_oid ghost_db <= oid_bound)%N /\
  exists line,
    get_cart "cart-1" ghost_db = (Ok [line], ghost_db) /\
    let run := remove_from_cart (IdModel.mk (CartLine.id line)) ghost_db in
    value_of run = Ok (mkStatus "removed") /\
    get_cart "cart-1" (db_after run) = (Ok [], db_after run) /\
    List.length (db_cartitem (db_after run)) = 1%nat.
Proof.
  assert (Hok : ids_ok cartitem ghost_db) by prove_ids_ok.
  assert (Hb : (next_oid ghost_db <= oid_bound)%N) by (vm_compute; discriminate).
  split; [exact Hok|]. split; [exact Hb|].
  eexists. split; [vm_compute; reflexivity|].
  destruct (listed_line_can_be_removed ghost_db "cart-1" _ _ Hok Hb eq_refl
              (or_introl eq_refl)) as (H1 & H2 & H3).
  split; [exact H1|]. split; [exact H2|]. apply Nat.succ_inj. exact H3.
Defined.

(** X10.  A well-formed identifier is removed at most once: after
    [remove_from_cart], whatever it answered, the same request is answered
    with 404 and changes nothing. *)
Theorem removed_id_is_gone (db : Database) (s : string) :
  ids_ok cartitem db -> well_formed_id s ->
  let db' := db_after (remove_from_cart (IdModel.mk s) db) in
  remove_from_cart (IdModel.mk s) db'
  = (Raise (HTTPException 404 "Item not found"), db').
Proof.
  intros [Hnd _] Hs db'. cbn [docs cartitem] in Hnd.
  apply oid_parse_well_formed in Hs. destruct Hs as [oid Hs].
  subst db'. rewrite (remove_from_cart_parsed s oid db Hs).
  destruct (List.find (by_id oid) (db_cartitem db)) as [row|] eqn:Hfind;
    cbn [db_after snd]; rewrite (remove_from_cart_parsed s oid _ Hs).
  - cbn [set_docs cartitem db_cartitem].
    destruct (find_first _ _ _ Hfind) as (before & after & Hrows & Hrow & Hb).
    rewrite Hrows in *. rewrite (delete_first_at _ _ _ _ Hb Hrow).
    unfold by_id in Hrow. apply N.eqb_eq in Hrow. subst oid.
    destruct (by_id_unique _ _ _ Hnd) as [_ Ha].
    rewrite find_absent; [reflexivity|]. apply Forall_app. now split.
  - now rewrite Hfind.
Qed.

Lemma removed_id_is_gone_witness :
  ids_ok cartitem cart_db /\ well_formed_id "000000000000000000000006" /\
  let db' := db_after (remove_from_cart (IdModel.mk "000000000000000000000006")
                                        cart_db) in
  value_of (remove_from_cart (IdModel.mk "000000000000000000000006") cart_db)
  = Ok (mkStatus "removed") /\
  remove_from_cart (IdModel.mk "000000000000000000000006") db'
  = (Raise (HTTPException 404 "Item not found"), db').
Proof.
  assert (Hok : ids_ok cartitem cart_db) by prove_ids_ok.
  assert (Hwf : well_formed_id "000000000000000000000006") by (split; reflexivity).
  split; [exact Hok|]. split; [exact Hwf|]. split; [reflexivity|].
  exact (removed_id_is_gone cart_db _ Hok Hwf).
Defined.

(** * The quote and the listing *)

Lemma priced_lines (db : Database) (items : list (Document CartItem.t)) :
  flat_map (priced db) items = map line_amount (flat_map (cart_line db) items).
Proof.
  induction items as [|it items IH]; [reflexivity|].
  cbn [flat_map]. rewrite map_app, IH. f_equal.
  unfold priced, cart_line. now destruct (resolve db it).
Qed.

Lemma checkout_well_formed (db : Database) (cart_id : string) :
  Forall well_formed_row (cart_rows db cart_id) ->
  Forall convertible (resolvable_items db cart_id) ->
  checkout (CheckoutRequest.mk cart_id) db
  = (Ok (CheckoutResponse.mk
           (round2 (sum_price_quantity (resolvable_items db cart_id)))
           (round2 (with_tax (sum_price_quantity (resolvable_items db cart_id))))
           "USD"), db).
Proof.
  intros Hwf Hconv. rewrite checkout_run.
  now rewrite (checkout_loop db _ Hwf Hconv 0%float).
Qed.

(** A step of the loop of [checkout] that comes to an end has added the
    amount of its row: no conversion overflowed. *)
Lemma checkout_step_ok (db db' : Database) (it : Document CartItem.t)
    (subtotal x : float) :
  (oid <- ObjectId_of (CartItem.product_id (body it)) ;;
   p <- find_one product (by_id oid) ;;
   match p with
   | Some p =>
       price <- py_float (Product.price (body p)) ;;
       amount <- float_mul_int price (CartItem.quantity (body it)) ;;
       ret (subtotal + amount)%float
   | None => ret subtotal
   end) db = (Ok x, db') ->
  x = fold_left add_amount (priced db it) subtotal /\ db' = db.
Proof.
  unfold bind, ObjectId_of, find_one, priced, resolve, ret, raise.
  destruct (oid_parse (CartItem.product_id (body it))) as [oid|]; [|discriminate].
  cbn [docs product].
  destruct (List.find (by_id oid) (db_product db)) as [p|];
    [|now intros [= <- <-]].
  unfold py_float, float_mul_int, float_of_int, bind, ret, raise.
  cbn [fold_left]. unfold add_amount, float_value. cbn [fst snd].
  destruct (Product.price (body p)) as [z|f];
    [destruct (binary_normalize prec emax z 0 false)|];
    destruct (binary_normalize prec emax (CartItem.quantity (body it)) 0 false);
    try discriminate; now intros [= <- <-].
Qed.

Lemma checkout_loop_ok (db : Database) (items : list (Document CartItem.t)) :
  forall subtotal x db',
    for_each items subtotal
      (fun subtotal it =>
         oid <- ObjectId_of (CartItem.product_id (body it)) ;;
         p <- find_one product (by_id oid) ;;
         match p with
         | Some p =>
             price <- py_float (Product.price (body p)) ;;
             amount <- float_mul_int price (CartItem.quantity (body it)) ;;
             ret (subtotal + amount)%float
         | None => ret subtotal
         end) db = (Ok x, db') ->
    x = fold_left add_amount (flat_map (priced db) items) subtotal.
Proof.
  induction items as [|it items IH]; intros subtotal x db'; cbn [for_each flat_map].
  - unfold ret. now intros [= <- _].
  - rewrite fold_left_app. unfold bind at 1.
    match goal with
    | |- (let (r, d) := ?m in _) = _ -> _ => destruct m as [[a|e] d1] eqn:Hstep
    end; [|discriminate].
    apply checkout_step_ok in Hstep. destruct Hstep as [-> ->]. apply IH.
Qed.

(** X11.  [checkout] prices what [get_cart] lists.  Whenever [checkout]
    answers, [get_cart] answers too, and the quote is the one of its lines:
    the sum of price times quantity and that sum times 1.08, both rounded
    to 2 decimals, in USD.  Conversely a listing whose prices and
    quantities are within the range of a float is given that quote. *)
Theorem checkout_prices_the_listing (db : Database) (cart_id : string) :
  (forall quote,
     value_of (checkout (CheckoutRequest.mk cart_id) db) = Ok quote ->
     exists lines,
       get_cart cart_id db = (Ok lines, db) /\ quote = quote_of lines) /\
  (forall lines,
     get_cart cart_id db = (Ok lines, db) ->
     Forall convertible (map line_amount lines) ->
     checkout (CheckoutRequest.mk cart_id) db = (Ok (quote_of lines), db)).
Proof.
  split.
  - intros quote Hq.
    destruct (well_formed_rows_dec (cart_rows db cart_id)) as [Hwf | Hbad].
    + eexists. split; [now apply get_cart_well_formed|].
      rewrite checkout_run in Hq.
      destruct (for_each _ _ _ db) as [[x|e] db'] eqn:Hloop; [|discriminate].
      apply checkout_loop_ok in Hloop. injection Hq as <-.
      unfold quote_of, sum_price_quantity, with_tax.
      now rewrite <- priced_lines, <- Hloop.
    + destruct (checkout_malformed db cart_id Hbad) as (e & E & _).
      rewrite E in Hq. discriminate.
  - intros lines Hget Hconv. apply get_cart_ok in Hget.
    destruct Hget as (Hwf & -> & _). unfold quote_of. rewrite <- priced_lines in *.
    now apply checkout_well_formed.
Qed.

Lemma checkout_prices_the_listing_witness :
  exists line,
    get_cart "cart-1" cart_db = (Ok [line], cart_db) /\
    line_amount line = (NInt 189, 2%Z) /\
    checkout (CheckoutRequest.mk "cart-1") cart_db
    = (Ok (CheckoutResponse.mk 378 408.24 "USD"), cart_db).
Proof.
  eexists. split; [vm_compute; reflexivity|]. split; [reflexivity|].
  destruct (checkout_prices_the_listing cart_db "cart-1") as [_ H].
  rewrite (H _ eq_refl).
  - vm_compute. reflexivity.
  - repeat constructor.
Defined.

(** X12.  A cart none of whose rows names an existing product, an empty
    or unknown cart in particular, is listed as the empty list and quoted
    at 0.0, 0.0 and USD: there is no 404 and no error. *)
Theorem cart_without_products_is_empty (db : Database) (cart_id : string) :
  Forall (fun it => well_formed_row it /\
                    ~ resolves db (CartItem.product_id (body it)))
         (cart_rows db cart_id) ->
  get_cart cart_id db = (Ok [], db) /\
  checkout (CheckoutRequest.mk cart_id) db
  = (Ok (CheckoutResponse.mk 0 0 "USD"), db).
Proof.
  intros H.
  assert (Hwf : Forall well_formed_row (cart_rows db cart_id))
    by (eapply Forall_impl; [|exact H]; now intros it [? _]).
  assert (Hlines : flat_map (cart_line db) (cart_rows db cart_id) = []).
  { induction H as [|it items [_ Hun] _ IH]; [reflexivity|]. cbn [flat_map].
    unfold cart_line at 1. rewrite (resolve_unresolved db it Hun).
    apply IH. now apply Forall_inv_tail in Hwf. }
  split.
  - now rewrite (get_cart_well_formed db cart_id Hwf), Hlines.
  - assert (Hitems : resolvable_items db cart_id = []).
    { unfold resolvable_items. now rewrite priced_lines, Hlines. }
    rewrite (checkout_well_formed db cart_id Hwf); rewrite Hitems;
      [reflexivity | constructor].
Qed.

Lemma cart_without_products_is_empty_witness :
  let db := db_after (add_to_cart (CartItem.mk "cart-3" ghost_id 1) seeded_db) in
  List.length (cart_rows db "cart-3") = 1%nat /\
  cart_rows db "nobody" = [] /\
  get_cart "cart-3" db = (Ok [], db) /\
  checkout (CheckoutRequest.mk "cart-3") db
  = (Ok (CheckoutResponse.mk 0 0 "USD"), db) /\
  get_cart "nobody" db = (Ok [], db) /\
  checkout (CheckoutRequest.mk "nobody") db
  = (Ok (CheckoutResponse.mk 0 0 "USD"), db).
Proof.
  cbv zeta.
  set (db := db_after (add_to_cart (CartItem.mk "cart-3" ghost_id 1) seeded_db)).
  assert (H : Forall (fun it => well_formed_row it /\
                                ~ resolves db (CartItem.product_id (body it)))
                     (cart_rows db "cart-3")).
  { change (cart_rows db "cart-3")
      with [mkDoc 6%N (CartItem.mk "cart-3" ghost_id 1)].
    apply Forall_cons; [split; [split; reflexivity|] | apply Forall_nil].
    intros (oid & d & Hoid & Hin & Hid). vm_compute in Hoid.
    injection Hoid as <-. vm_compute in Hin.
    repeat (destruct Hin as [<- | Hin]; [vm_compute in Hid; discriminate|]).
    exact Hin. }
  split; [reflexivity|]. split; [reflexivity|].
  split; [apply (cart_without_products_is_empty db "cart-3" H)|].
  split; [apply (cart_without_products_is_empty db "cart-3" H)|].
  split; apply (cart_without_products_is_empty db "nobody"); constructor.
Defined.

(** * Identifiers and letter case *)

Lemma hex_value_lower (c : ascii) :
  match hex_value c with
  | Some d => (d < 16)%N /\ hex_value (lower c) = Some d /\ hex_char d = lower c
  | None => hex_value (lower c) = None
  end.
Proof.
  destruct c as [[] [] [] [] [] [] [] []]; vm_compute; auto.
Qed.

Lemma length_lower_string (s : string) :
  String.length (lower_string s) = String.length s.
Proof. induction s as [|c s IH]; cbn; [reflexivity | now rewrite IH]. Qed.

Lemma fromhex_lower (s : string) : forall a,
  fromhex a (lower_string s) = fromhex a s.
Proof.
  induction s as [|c s IH]; intros a; cbn [lower_string fromhex]; [reflexivity|].
  pose proof (hex_value_lower c) as H.
  destruct (hex_value c) as [d|]; [destruct H as (_ & -> & _); apply IH | now rewrite H].
Qed.

Lemma oid_parse_lower (s : string) : oid_parse (lower_string s) = oid_parse s.
Proof. unfold oid_parse. now rewrite length_lower_string, fromhex_lower. Qed.

(** The digit in front: [hexlify] one digit further. *)
Lemma hexlify_succ (k : nat) : forall n acc,
  hexlify (S k) n acc
  = String (hex_char ((n / 16 ^ N.of_nat k) mod 16)%N) (hexlify k n acc).
Proof.
  induction k as [|k IH]; intros n acc.
  - cbn [hexlify N.of_nat]. now rewrite N.pow_0_r, N.div_1_r.
  - change (hexlify (S (S k)) n acc)
      with (hexlify (S k) (n / 16)%N (String (hex_char (n mod 16)%N) acc)).
    rewrite IH. cbn [hexlify]. f_equal. f_equal. f_equal.
    rewrite Nat2N.inj_succ, N.pow_succ_r', N.Div0.div_div. reflexivity.
Qed.

(** The string an identifier was read from is, letter case aside, the one
    it is written as. *)
Lemma hexlify_fromhex (s : string) : forall a v,
  fromhex a s = Some v ->
  (v / 16 ^ N.of_nat (String.length s))%N = a /\
  forall acc, hexlify (String.length s) v acc = (lower_string s ++ acc)%string.
Proof.
  induction s as [|c s IH]; intros a v; cbn [fromhex String.length lower_string].
  - intros [= ->]. cbn [N.of_nat]. rewrite N.pow_0_r, N.div_1_r. auto.
  - pose proof (hex_value_lower c) as Hc.
    destruct (hex_value c) as [d|]; [|discriminate].
    destruct Hc as (Hd & _ & Hchar). intros H.
    destruct (IH _ _ H) as [Hdiv Hstr]. split.
    + rewrite Nat2N.inj_succ, N.pow_succ_r', N.mul_comm, <- N.Div0.div_div, Hdiv.
      rewrite N.mul_comm, N.div_add_l by lia. rewrite N.div_small by exact Hd. lia.
    + intros acc. rewrite hexlify_succ, Hdiv, Hstr. cbn [String.append]. f_equal.
      rewrite <- Hchar. f_equal.
      rewrite N.add_comm, N.mul_comm, N.Div0.mod_add. now apply N.mod_small.
Qed.

Lemma oid_str_parse (s : string) (oid : ObjectId) :
  oid_parse s = Some oid -> oid_str oid = lower_string s.
Proof.
  unfold oid_parse, oid_str.
  destruct (Nat.eqb_spec (String.length s) 24) as [Hlen|]; [|discriminate].
  intros H. destruct (hexlify_fromhex s _ _ H) as [_ Hstr].
  rewrite <- Hlen, Hstr. clear. induction (lower_string s) as [|c t IH];
    cbn; [reflexivity | now rewrite IH].
Qed.

Lemma get_product_run (s : string) (db : Database) :
  get_product s db
  = match oid_parse s with
    | Some oid =>
        match List.find (by_id oid) (db_product db) with
        | Some d => (Ok (to_str_id d), db)
        | None => (Raise (HTTPException 404 "Product not found"), db)
        end
    | None => (Raise (HTTPException 404 "Invalid product id"), db)
    end.
Proof.
  destruct (oid_parse s) as [oid|] eqn:E.
  - now rewrite (get_product_parsed s oid db E).
  - apply oid_parse_malformed in E. now rewrite (get_product_malformed s db E).
Qed.

Lemma remove_from_cart_run (s : string) (db : Database) :
  remove_from_cart (IdModel.mk s) db
  = match oid_parse s with
    | Some oid =>
        match List.find (by_id oid) (db_cartitem db) with
        | Some _ =>
            (Ok (mkStatus "removed"),
             set_docs cartitem (delete_first (by_id oid) (db_cartitem db)) db)
        | None => (Raise (HTTPException 404 "Item not found"), db)
        end
    | None => (Raise (HTTPException 400 "Invalid id"), db)
    end.
Proof.
  destruct (oid_parse s) as [oid|] eqn:E.
  - now rewrite (remove_from_cart_parsed s oid db E).
  - apply oid_parse_malformed in E. now rewrite (remove_from_cart_malformed s db E).
Qed.

(** X13.  Identifiers are read in any letter case and written in lower
    case: [get_product] and [remove_from_cart] do the same for a string as
    for its lower-case form, and the [id] of the product that
    [get_product] answers is the lower-case form of the string asked
    for. *)
Theorem identifiers_ignore_letter_case (s : string) (db : Database) :
  get_product (lower_string s) db = get_product s db /\
  remove_from_cart (IdModel.mk (lower_string s)) db
  = remove_from_cart (IdModel.mk s) db /\
  (forall entry, value_of (get_product s db) = Ok entry ->
     id entry = lower_string s).
Proof.
  split; [now rewrite !get_product_run, oid_parse_lower|].
  split; [now rewrite !remove_from_cart_run, oid_parse_lower|].
  intros entry. rewrite get_product_run.
  destruct (oid_parse s) as [oid|] eqn:E; [|discriminate].
  destruct (List.find (by_id oid) (db_product db)) as [d|] eqn:Hd; [|discriminate].
  cbn [value_of fst]. intros [= <-]. cbn [to_str_id id].
  apply find_some in Hd. destruct Hd as [_ Hd]. unfold by_id in Hd.
  apply N.eqb_eq in Hd. rewrite Hd. now apply oid_str_parse.
Qed.

Lemma identifiers_ignore_letter_case_witness :
  get_product "0000000000000000000000AB" lettered_db
  = (Ok (mkWithId "0000000000000000000000ab" orbit_mug), lettered_db).
Proof.
  destruct (identifiers_ignore_letter_case "0000000000000000000000AB" lettered_db)
    as (H & _ & _).
  rewrite <- H. reflexivity.
Defined.

Lemma find_by_cart_product_app (c p : string) (l : list (Document CartItem.t))
    (row : Document CartItem.t) :
  List.find (by_cart_product c p) l = None ->
  by_cart_product c p row = false ->
  List.find (by_cart_product c p) (l ++ [row]) = None.
Proof.
  intros Hl Hrow. apply find_absent. apply Forall_app. split.
  - now apply find_none_absent.
  - now repeat constructor.
Qed.

(** X14.  [add_to_cart] tells products apart by the spelling of
    [product_id], [get_cart] by the identifier it spells: two spellings of
    one identifier, which differ in letter case, get a row each, the second
    is answered [added] like the first, and the cart lists the same product
    on two lines. *)
Theorem letter_case_splits_a_cart_line (db : Database) (c p p' : string)
    (q q' : Z) (lines : list CartLine.t) (oid : ObjectId)
    (d : Document Product.t) :
  get_cart c db = (Ok lines, db) ->
  oid_parse p = Some oid -> oid_parse p' = Some oid -> p <> p' ->
  List.find (by_id oid) (db_product db) = Some d ->
  List.find (by_cart_product c p) (db_cartitem db) = None ->
  List.find (by_cart_product c p') (db_cartitem db) = None ->
  let db1 := db_after (add_to_cart (CartItem.mk c p q) db) in
  let run := add_to_cart (CartItem.mk c p' q') db1 in
  value_of run = Ok (mkStatus "added") /\
  get_cart c (db_after run)
  = (Ok (lines ++ [CartLine.mk (oid_str (next_oid db)) (to_str_id d) q;
                   CartLine.mk (oid_str (N.succ (next_oid db))) (to_str_id d) q']),
     db_after run).
Proof.
  intros Hget Hp Hp' Hne Hd Hnone Hnone' db1 run.
  pose proof (get_cart_add_new db c p q lines oid d Hget Hp Hd Hnone) as Hget1.
  cbv zeta in Hget1. fold db1 in Hget1.
  assert (Hdb1 : db1 = bump_oid (set_docs cartitem
                   (db_cartitem db ++ [mkDoc (next_oid db) (CartItem.mk c p q)]) db)).
  { subst db1.
    destruct (add_to_cart_run (CartItem.mk c p q) db) as [(e & He & _) | (_ & ->)];
      [cbn in He; congruence | reflexivity]. }
  assert (Hnone1 : List.find (by_cart_product c p') (db_cartitem db1) = None).
  { rewrite Hdb1. cbn [bump_oid set_docs cartitem db_cartitem].
    apply find_by_cart_product_app; [exact Hnone'|].
    unfold by_cart_product. cbn [body CartItem.cart_id CartItem.product_id].
    rewrite String.eqb_refl. cbn [andb]. now apply String.eqb_neq. }
  assert (Hd1 : List.find (by_id oid) (db_product db1) = Some d).
  { now rewrite Hdb1. }
  pose proof (get_cart_add_new db1 c p' q' _ oid d Hget1 Hp' Hd1 Hnone1) as Hget2.
  cbv zeta in Hget2. fold run in Hget2.
  split.
  - subst run.
    destruct (add_to_cart_run (CartItem.mk c p' q') db1) as [(e & He & _) | (_ & ->)];
      [cbn in He; congruence | reflexivity].
  - rewrite Hget2. rewrite <- app_assoc. cbn [app].
    replace (next_oid db1) with (N.succ (next_oid db)) by now rewrite Hdb1.
    reflexivity.
Qed.

Lemma letter_case_splits_a_cart_line_witness :
  let db1 := db_after (add_to_cart
               (CartItem.mk "cart-1" "0000000000000000000000ab" 1) lettered_db) in
  let run := add_to_cart (CartItem.mk "cart-1" "0000000000000000000000AB" 1) db1 in
  "0000000000000000000000ab" <> "0000000000000000000000AB" /\
  oid_parse "0000000000000000000000ab" = oid_parse "0000000000000000000000AB" /\
  value_of run = Ok (mkStatus "added") /\
  get_cart "cart-1" (db_after run)
  = (Ok [CartLine.mk "0000000000000000000000ac"
           (mkWithId "0000000000000000000000ab" orbit_mug) 1;
         CartLine.mk "0000000000000000000000ad"
           (mkWithId "0000000000000000000000ab" orbit_mug) 1],
     db_after run).
Proof.
  cbv zeta.
  assert (Hne : "0000000000000000000000ab" <> "0000000000000000000000AB")
    by discriminate.
  split; [exact Hne|]. split; [reflexivity|].
  exact (letter_case_splits_a_cart_line lettered_db "cart-1"
           "0000000000000000000000ab" "0000000000000000000000AB" 1 1 []
           171%N (mkDoc 171%N orbit_mug) eq_refl eq_refl eq_refl Hne
           eq_refl eq_refl eq_refl).
Defined.

Section CatalogStable.
Variable pcre : string -> string -> option (string -> bool).

Lemma filter_true {A} (l : list A) : filter (fun _ => true) l = l.
Proof. induction l as [|x l IH]; cbn; [reflexivity | now rewrite IH]. Qed.

Lemma list_categories_run (db : Database) :
  list_categories pcre db = (Ok (map body (db_category db)), db).
Proof.
  unfold list_categories, bind, get_documents, find, ret.
  cbn [compile_query docs category]. now rewrite filter_true.
Qed.

Lemma list_products_frame (category q : option string) (db db' : Database) :
  db_product db' = db_product db ->
  value_of (list_products pcre category q db')
  = value_of (list_products pcre category q db).
Proof.
  intros H. unfold list_products, bind, get_documents.
  destruct (compile_query pcre Product_strings _); [|reflexivity].
  unfold find, ret. cbn [docs product value_of fst]. now rewrite H.
Qed.

Lemma get_product_frame (s : string) (db db' : Database) :
  db_product db' = db_product db ->
  value_of (get_product s db') = value_of (get_product s db).
Proof.
  intros H. rewrite !get_product_run, H.
  destruct (oid_parse s) as [oid|]; [|reflexivity].
  now destruct (List.find (by_id oid) (db_product db)).
Qed.

(** X15.  What the catalog routes answer does not depend on the requests
    served before.  After any sequence of requests [list_categories]
    answers the fields of the category documents in store order, and
    [list_products], under any filter, and [get_product], for any id,
    answer what they answered at the start. *)
Theorem catalog_answers_are_stable (rs : list request) (db : Database) :
  let db' := serve_all pcre rs db in
  value_of (list_categories pcre db') = Ok (map body (db_category db)) /\
  (forall category q,
     value_of (list_products pcre category q db')
     = value_of (list_products pcre category q db)) /\
  (forall product_id,
     value_of (get_product product_id db')
     = value_of (get_product product_id db)).
Proof.
  cbv zeta. destruct (serve_all_catalog pcre rs db) as (Hc & Hp).
  split; [now rewrite list_categories_run, Hc|].
  split; [intros category q; now apply list_products_frame|].
  intros s. now apply get_product_frame.
Qed.
End CatalogStable.

(** * [to_str_id] on any dict *)

Lemma raw_get_has (k : string) (d : Raw.dict) :
  Raw.truthy (Raw.get k d) = true -> Raw.has k d = true.
Proof.
  induction d as [|[k' v] d IH]; cbn; [discriminate|].
  destruct (k' =? k); [reflexivity | exact IH].
Qed.

Lemma raw_has_keys (k : string) (d : Raw.dict) :
  Raw.has k d = true <-> In k (map fst d).
Proof.
  unfold Raw.has. rewrite existsb_exists, in_map_iff. split.
  - intros (kv & Hin & E). apply String.eqb_eq in E. eauto.
  - intros (kv & E & Hin). exists kv. split; [exact Hin | now apply String.eqb_eq].
Qed.

Lemma raw_has_false (k : string) (d : Raw.dict) :
  Raw.has k d = false <-> ~ In k (map fst d).
Proof.
  rewrite <- raw_has_keys. destruct (Raw.has k d).
  - split; [discriminate | intros H; exfalso; now apply H].
  - split; [intros _ H; discriminate | reflexivity].
Qed.

Lemma raw_has_cons (k k0 : string) (v : Raw.value) (d : Raw.dict) :
  Raw.has k ((k0, v) :: d) = (k0 =? k) || Raw.has k d.
Proof. reflexivity. Qed.

Lemma raw_pop (k : string) (d : Raw.dict) :
  Raw.has k d = true ->
  exists d',
    Raw.pop k d = Some (Raw.get k d, d') /\
    (forall k', k' <> k ->
       Raw.get k' d' = Raw.get k' d /\ Raw.has k' d' = Raw.has k' d) /\
    (NoDup (map fst d) -> NoDup (map fst d') /\ Raw.has k d' = false) /\
    (forall v fields, d = (k, v) :: fields -> d' = fields).
Proof.
  induction d as [|[k0 v0] d IH]; [discriminate|].
  rewrite raw_has_cons. cbn [Raw.pop Raw.get].
  destruct (String.eqb_spec k0 k) as [-> | Hne].
  - intros _. exists d. split; [reflexivity|]. split; [|split].
    + intros k' Hk'. rewrite raw_has_cons. cbn [Raw.get].
      apply String.eqb_neq in Hk'. rewrite String.eqb_sym in Hk'.
      now rewrite Hk'.
    + cbn [map fst]. intros Hnd. apply NoDup_cons_iff in Hnd.
      destruct Hnd as [Hk Hnd]. split; [exact Hnd | now apply raw_has_false].
    + now intros v fields [= _ <-].
  - cbn [orb]. intros Hhas. destruct (IH Hhas) as (d' & -> & Hget & Hnd & _).
    exists ((k0, v0) :: d'). split; [reflexivity|]. split; [|split].
    + intros k' Hk'. rewrite !raw_has_cons. cbn [Raw.get].
      destruct (Hget k' Hk') as [-> ->]. auto.
    + cbn [map fst]. intros H. apply NoDup_cons_iff in H. destruct H as [Hk0 H].
      destruct (Hnd H) as [Hnd' Hk]. split.
      * apply NoDup_cons; [|exact Hnd']. apply raw_has_false.
        destruct (Hget k0 Hne) as [_ ->]. now apply raw_has_false.
      * rewrite raw_has_cons. apply String.eqb_neq in Hne.
        rewrite Hne. exact Hk.
    + intros v fields [= E _]. congruence.
Qed.

Lemma raw_set (k : string) (v : Raw.value) (d : Raw.dict) :
  Raw.get k (Raw.set k v d) = v /\
  (forall k', k' <> k ->
     Raw.get k' (Raw.set k v d) = Raw.get k' d /\
     Raw.has k' (Raw.set k v d) = Raw.has k' d) /\
  (NoDup (map fst d) -> NoDup (map fst (Raw.set k v d))) /\
  (Raw.has k d = false -> Raw.set k v d = d ++ [(k, v)]).
Proof.
  induction d as [|[k0 v0] d (IHget & IHother & IHnd & IHnew)];
    cbn [Raw.set Raw.get].
  - rewrite String.eqb_refl. split; [reflexivity|]. split; [|split].
    + intros k' Hk'. apply String.eqb_neq in Hk'. rewrite String.eqb_sym in Hk'.
      rewrite raw_has_cons. cbn [Raw.get]. now rewrite Hk'.
    + intros _. repeat constructor. intros [].
    + reflexivity.
  - rewrite raw_has_cons.
    destruct (String.eqb_spec k0 k) as [-> | Hne]; cbn [Raw.get map fst].
    + rewrite String.eqb_refl. split; [reflexivity|]. split; [|split].
      * intros k' Hk'. apply String.eqb_neq in Hk'. rewrite String.eqb_sym in Hk'.
        rewrite !raw_has_cons. now rewrite Hk'.
      * auto.
      * discriminate.
    + pose proof Hne as Hne'. apply String.eqb_neq in Hne'. rewrite Hne'.
      split; [exact IHget|]. split; [|split].
      * intros k' Hk'. rewrite !raw_has_cons.
        destruct (IHother k' Hk') as [-> ->]. auto.
      * intros H. apply NoDup_cons_iff in H. destruct H as [Hk0 H].
        apply NoDup_cons; [|auto]. apply raw_has_false.
        destruct (IHother k0 Hne) as [_ ->]. now apply raw_has_false.
      * cbn [orb]. intros H. cbn [app]. now rewrite IHnew.
Qed.

Section RawFacts.
Variable repr : Raw.value -> string.

(** X16.  [to_str_id] on any dict.  [None] gives [None]; a dict without
    [_id], or with a falsy one, is returned as it is; otherwise the result
    has no [_id], has [str(_id)] under [id], and has every other key as
    before.  It never raises.  On a stored document, [_id] first and no
    [id] field, the result is the fields in their order followed by
    [id]: what [to_str_id] on documents of the store gives. *)
Theorem to_str_id_contract (doc : Raw.dict) :
  NoDup (map fst doc) ->
  Raw.to_str_id repr None = Raw.Returned None /\
  (Raw.truthy (Raw.get "_id" doc) = false ->
   Raw.to_str_id repr (Some doc) = Raw.Returned (Some doc)) /\
  (Raw.truthy (Raw.get "_id" doc) = true ->
   exists d,
     Raw.to_str_id repr (Some doc) = Raw.Returned (Some d) /\
     NoDup (map fst d) /\
     Raw.has "_id" d = false /\
     Raw.get "id" d = Raw.VStr (Raw.str repr (Raw.get "_id" doc)) /\
     forall k, k <> "_id" -> k <> "id" ->
       Raw.get k d = Raw.get k doc /\ Raw.has k d = Raw.has k doc) /\
  (forall oid fields,
     doc = stored oid fields -> Raw.has "id" fields = false ->
     Raw.to_str_id repr (Some doc)
     = Raw.Returned (Some (fields ++ [("id", Raw.VStr (oid_str oid))]))).
Proof.
  intros Hnd. split; [reflexivity|]. split; [|split].
  - intros H. unfold Raw.to_str_id. now rewrite H.
  - intros H. unfold Raw.to_str_id. rewrite H.
    destruct (raw_pop "_id" doc (raw_get_has _ _ H)) as (d' & -> & Hother & Hd' & _).
    destruct (Hd' Hnd) as [Hnd' Hgone].
    destruct (raw_set "id" (Raw.VStr (Raw.str repr (Raw.get "_id" doc))) d')
      as (Hget & Hset & Hnds & _).
    eexists. split; [reflexivity|]. split; [now apply Hnds|]. split; [|split].
    + destruct (Hset "_id") as [_ ->]; [discriminate | exact Hgone].
    + exact Hget.
    + intros k H1 H2. destruct (Hset k H2) as [-> ->]. now apply Hother.
  - intros oid fields -> Hid.
    unfold Raw.to_str_id, stored. cbn [Raw.get Raw.pop String.eqb Ascii.eqb Bool.eqb
      Raw.truthy Raw.str].
    destruct (raw_set "id" (Raw.VStr (oid_str oid)) fields) as (_ & _ & _ & Hnew).
    now rewrite (Hnew Hid).
Qed.
End RawFacts.

Lemma to_str_id_contract_witness :
  let doc := stored 3%N [("title", Raw.VStr "Aurora Leather Tote");
                         ("price", Raw.VInt 189)] in
  NoDup (map fst doc) /\
  Raw.to_str_id (fun _ => "") (Some doc)
  = Raw.Returned (Some [("title", Raw.VStr "Aurora Leather Tote");
                        ("price", Raw.VInt 189);
                        ("id", Raw.VStr tote_id)]).
Proof.
  cbv zeta.
  assert (Hnd : NoDup (map fst (stored 3%N [("title", Raw.VStr "Aurora Leather Tote");
                                            ("price", Raw.VInt 189)])))
    by (cbn; prove_nodup).
  split; [exact Hnd|].
  destruct (to_str_id_contract (fun _ => "") _ Hnd) as (_ & _ & _ & H).
  apply (H 3%N _ eq_refl). reflexivity.
Defined.

(** * Rows stay *)

Lemma row_kept_refl (row : Document CartItem.t) (db : Database) :
  In row (db_cartitem db) -> row_kept row db.
Proof. intros H. exists row. repeat split; [exact H | lia]. Qed.

Lemma row_kept_update (row : Document CartItem.t) (filt : Document CartItem.t -> bool)
    (n : Z) (l : list (Document CartItem.t)) :
  (0 <= n)%Z -> In row l ->
  exists row', In row' (update_first filt (inc_quantity n) l) /\ _id row' = _id row /\
    cart_key row' = cart_key row /\
    (CartItem.quantity (body row) <= CartItem.quantity (body row'))%Z.
Proof.
  intros Hn. induction l as [|d l IH]; [intros []|]. cbn [update_first].
  intros [-> | Hin].
  - destruct (filt row).
    + eexists. split; [left; reflexivity|]. cbn. repeat split. lia.
    + exists row. split; [left; reflexivity|]. repeat split. lia.
  - destruct (filt d).
    + exists row. split; [now right|]. repeat split. lia.
    + destruct (IH Hin) as (row' & H & H'). exists row'. split; [now right | exact H'].
Qed.

Section RowsStay.
Variable pcre : string -> string -> option (string -> bool).

Lemma serve_keeps_rows (r : request) (db : Database) (row : Document CartItem.t) :
  is_remove r = false -> row_kept row db -> row_kept row (snd (serve pcre r db)).
Proof.
  intros Hr Hrow. pose proof (serve_get pcre r db) as Hget.
  destruct r as [| category q | product_id | cart_id product_id quantity
                | cart_id | s | cart_id];
    try discriminate; try (rewrite Hget; exact Hrow).
  destruct (serve_cart_add pcre cart_id product_id quantity db)
    as [(q & Hq & ->) | ->]; cbn [snd]; [|exact Hrow].
  destruct Hrow as (row1 & Hin & Hid & Hkey & Hle).
  destruct (add_to_cart_run (CartItem.mk cart_id product_id q) db)
    as [(e & _ & ->) | (_ & ->)];
    cbn [db_after snd CartItem.quantity].
  - destruct (row_kept_update row1 (by_id (_id e)) q (db_cartitem db)) as
      (row2 & Hin2 & Hid2 & Hkey2 & Hle2); [lia | exact Hin |].
    exists row2. cbn [set_docs cartitem db_cartitem].
    split; [exact Hin2|]. split; [congruence|]. split; [congruence | lia].
  - exists row1. unfold bump_oid. cbn [set_docs cartitem db_cartitem].
    split; [apply in_or_app; now left|]. auto.
Qed.

(** X17.  Rows leave a cart only by removal: through any sequence of
    requests without a [/api/cart/remove], every row stays under its
    identifier, cart and product id, and its quantity never goes down.  No
    request subtracts: a quantity below 1 is refused. *)
Theorem rows_leave_only_by_removal (rs : list request) (db : Database)
    (row : Document CartItem.t) :
  Forall (fun r => is_remove r = false) rs ->
  In row (db_cartitem db) ->
  row_kept row (serve_all pcre rs db).
Proof.
  intros Hrs Hin. apply row_kept_refl in Hin. revert db Hin.
  induction Hrs as [|r rs Hr _ IH]; intros db Hrow; [exact Hrow|].
  cbn [serve_all fold_left]. fold (serve_all pcre rs (snd (serve pcre r db))).
  apply IH. now apply serve_keeps_rows.
Qed.
End RowsStay.

Lemma rows_leave_only_by_removal_witness :
  let rs := [PostCartAdd "cart-1" tote_id (Some 3%Z);
             PostCartAdd "cart-1" tote_id (Some (-2)%Z);
             PostCheckout "cart-1"; GetCart "cart-1"] in
  let row := mkDoc 6%N (CartItem.mk "cart-1" tote_id 2) in
  Forall (fun r => is_remove r = false) rs /\
  In row (db_cartitem cart_db) /\
  row_kept row (serve_all no_pcre rs cart_db) /\
  db_cartitem (serve_all no_pcre rs cart_db)
  = [mkDoc 6%N (CartItem.mk "cart-1" tote_id 5)].
Proof.
  cbv zeta.
  assert (Hrs : Forall (fun r => is_remove r = false)
                  [PostCartAdd "cart-1" tote_id (Some 3%Z);
                   PostCartAdd "cart-1" tote_id (Some (-2)%Z);
                   PostCheckout "cart-1"; GetCart "cart-1"])
    by (repeat constructor).
  assert (Hin : In (mkDoc 6%N (CartItem.mk "cart-1" tote_id 2)) (db_cartitem cart_db))
    by (left; reflexivity).
  split; [exact Hrs|]. split; [exact Hin|].
  split; [exact (rows_leave_only_by_removal no_pcre _ cart_db _ Hrs Hin)|].
  vm_compute. reflexivity.
Defined.

(** * The listing is well formed *)

Lemma well_formed_oid_str (oid : ObjectId) :
  (oid < oid_bound)%N -> well_formed_id (oid_str oid).
Proof. intros H. apply oid_parse_well_formed. exists oid. now apply oid_parse_str. Qed.

Lemma cart_lines_nodup (db : Database) (items : list (Document CartItem.t)) :
  NoDup (map _id items) -> Forall (fun it => (_id it < oid_bound)%N) items ->
  NoDup (map CartLine.id (flat_map (cart_line db) items)).
Proof.
  induction items as [|it items IH]; cbn [map flat_map]; [constructor|].
  intros Hnd Hlt. apply NoDup_cons_iff in Hnd. destruct Hnd as [Hit Hnd].
  apply Forall_cons_iff in Hlt. destruct Hlt as [Hb Hlt].
  specialize (IH Hnd Hlt). unfold cart_line at 1.
  destruct (resolve db it) as [p|]; [|exact IH].
  cbn [app map CartLine.id]. apply NoDup_cons; [|exact IH].
  intros Hin. apply in_map_iff in Hin. destruct Hin as (line & E & Hline).
  destruct (cart_line_id db items line Hline) as (it' & Hit' & Hid).
  rewrite Hid in E. apply Hit. rewrite Forall_forall in Hlt.
  apply oid_str_inj in E; [| now apply Hlt | exact Hb].
  rewrite <- E. now apply in_map.
Qed.

Lemma NoDup_map_filter {A B} (f : A -> B) (g : A -> bool) (l : list A) :
  NoDup (map f l) -> NoDup (map f (filter g l)).
Proof.
  induction l as [|x l IH]; cbn; [trivial|]. intros H.
  apply NoDup_cons_iff in H. destruct H as [Hx Hl].
  destruct (g x); [|auto]. cbn. apply NoDup_cons; [|auto].
  intros Hin. apply Hx. apply in_map_iff in Hin. destruct Hin as (y & E & Hy).
  apply filter_In in Hy. apply in_map_iff. exists y. tauto.
Qed.

(** X18.  In a store that meets the invariants, the lines that
    [get_cart] lists have pairwise different, well-formed ids and
    quantities of at least 1, and the product on each line is what
    [get_product] answers for its [id]. *)
Theorem listing_is_well_formed (db : Database) (cart_id : string)
    (lines : list CartLine.t) :
  store_ok db -> cart_ok db -> (next_oid db <= oid_bound)%N ->
  get_cart cart_id db = (Ok lines, db) ->
  NoDup (map CartLine.id lines) /\
  Forall (fun line =>
            well_formed_id (CartLine.id line) /\
            (1 <= CartLine.quantity line)%Z /\
            get_product (id (CartLine.product line)) db
            = (Ok (CartLine.product line), db)) lines.
Proof.
  intros Hok [_ Hq] Hbound Hget.
  destruct (store_ok_cartitem db Hok) as [Hnd Hlt].
  destruct (store_ok_product db Hok) as [Hndp Hltp].
  cbn [docs cartitem product] in *.
  apply get_cart_ok in Hget. destruct Hget as (_ & -> & _).
  assert (Hb : forall A (l : list (Document A)),
             Forall (fun d => (_id d < next_oid db)%N) l ->
             Forall (fun d => (_id d < oid_bound)%N) l).
  { intros A l H. eapply Forall_impl; [|exact H]. intros d Hd. cbv beta in Hd.
    unfold ObjectId in *. lia. }
  split.
  - apply cart_lines_nodup.
    + unfold cart_rows. now apply NoDup_map_filter.
    + unfold cart_rows. now apply Forall_filter, Hb.
  - apply Forall_forall. intros line Hline. apply in_flat_map in Hline.
    destruct Hline as (it & Hit & Hl). unfold cart_rows in Hit.
    apply filter_In in Hit. destruct Hit as [Hit _].
    unfold cart_line in Hl. destruct (resolve db it) as [p|] eqn:Hres; [|contradiction].
    destruct Hl as [<- | []]. cbn [CartLine.id CartLine.quantity CartLine.product].
    apply resolve_resolved in Hres. destruct Hres as [Hp _].
    pose proof (Hb _ _ Hlt) as Hlt'. pose proof (Hb _ _ Hltp) as Hltp'.
    rewrite Forall_forall in Hq, Hlt', Hltp'.
    split; [apply well_formed_oid_str; now apply Hlt'|].
    split; [now apply Hq|].
    cbn [to_str_id id].
    rewrite (get_product_parsed _ (_id p) db (oid_parse_str _ (Hltp' p Hp))).
    now rewrite (find_by_id_member _ p Hndp Hp).
Qed.

Lemma cart_ok_example : cart_ok ghost_db.
Proof.
  split; [vm_compute; prove_nodup|].
  vm_compute. repeat (constructor; [discriminate|]). constructor.
Qed.

Lemma listing_is_well_formed_witness :
  store_ok ghost_db /\ cart_ok ghost_db /\ (next_oid ghost_db <= oid_bound)%N /\
  exists line,
    get_cart "cart-1" ghost_db = (Ok [line], ghost_db) /\
    CartLine.id line = "000000000000000000000006" /\
    get_product tote_id ghost_db = (Ok (CartLine.product line), ghost_db).
Proof.
  destruct example_stores_ok as (_ & _ & _ & _ & Hok).
  assert (Hb : (next_oid ghost_db <= oid_bound)%N) by (vm_compute; discriminate).
  split; [exact Hok|]. split; [exact cart_ok_example|]. split; [exact Hb|].
  eexists. split; [vm_compute; reflexivity|]. split; [reflexivity|].
  destruct (listing_is_well_formed ghost_db "cart-1" _ Hok cart_ok_example Hb eq_refl)
    as [_ H].
  apply Forall_inv in H. exact (proj2 (proj2 H)).
Defined.

(** * Identifiers are not used twice *)

Lemma in_update_first (filt : Document CartItem.t -> bool) (n : Z)
    (l : list (Document CartItem.t)) (row : Document CartItem.t) :
  In row (update_first filt (inc_quantity n) l) ->
  exists row0, In row0 l /\ _id row0 = _id row /\ cart_key row0 = cart_key row.
Proof.
  induction l as [|d l IH]; [intros []|]. cbn [update_first].
  destruct (filt d).
  - intros [<- | Hin]; [exists d | exists row]; cbn; auto.
  - intros [<- | Hin]; [exists d; cbn; auto|].
    destruct (IH Hin) as (row0 & H0 & H). exists row0. split; [now right | exact H].
Qed.

Section Identifiers.
Variable pcre : string -> string -> option (string -> bool).

(** A row after a request was there before it, or is new under the next
    identifier. *)
Lemma serve_rows (r : request) (db : Database) (row : Document CartItem.t) :
  In row (db_cartitem (snd (serve pcre r db))) ->
  row_from db row \/ _id row = next_oid db.
Proof.
  pose proof (serve_get pcre r db) as Hget.
  assert (Hsame : In row (db_cartitem db) -> row_from db row \/ _id row = next_oid db)
    by (intros H; left; exists row; auto).
  destruct r as [| category q | product_id | cart_id product_id quantity
                | cart_id | s | cart_id];
    try (rewrite Hget; exact Hsame).
  - destruct (serve_cart_add pcre cart_id product_id quantity db)
      as [(q & _ & ->) | ->]; cbn [snd]; [|exact Hsame].
    destruct (add_to_cart_run (CartItem.mk cart_id product_id q) db)
      as [(e & _ & ->) | (_ & ->)]; unfold bump_oid;
      cbn [db_after snd set_docs cartitem db_cartitem CartItem.quantity].
    + intros H. left. now apply in_update_first in H.
    + intros H. apply in_app_or in H. destruct H as [H | [<- | []]]; auto.
  - destruct (serve_cart_remove pcre s db) as [-> | [-> | (oid & _ & ->)]];
      cbn [snd set_docs cartitem db_cartitem]; try exact Hsame.
    intros H. apply Hsame. now apply (delete_first_incl (by_id oid)).
Qed.

Lemma serve_all_rows (rs : list request) (db : Database) :
  forall db1,
    (next_oid db <= next_oid db1)%N ->
    (forall row, In row (db_cartitem db1) -> (_id row < next_oid db)%N ->
                 row_from db row) ->
    forall row, In row (db_cartitem (serve_all pcre rs db1)) ->
                (_id row < next_oid db)%N -> row_from db row.
Proof.
  induction rs as [|r rs IH]; intros db1 Hle H1; [exact H1|].
  cbn [serve_all fold_left]. fold (serve_all pcre rs (snd (serve pcre r db1))).
  apply IH.
  - destruct (serve_frame pcre r db1) as (_ & _ & _ & H). unfold ObjectId in *. lia.
  - intros row Hrow Hlt. destruct (serve_rows r db1 row Hrow) as [H | H].
    + destruct H as (row1 & Hin1 & Hid1 & Hkey1).
      destruct (H1 row1 Hin1) as (row0 & Hin0 & Hid0 & Hkey0);
        [now rewrite Hid1|].
      exists row0. split; [exact Hin0|]. split; congruence.
    + unfold ObjectId in *. lia.
Qed.

(** X19.  An identifier is never used twice: through any sequence of
    requests, removals included, a cart row found under the identifier of
    a row of the store at the start is of the same cart and product id.
    New rows get new identifiers. *)
Theorem identifiers_are_never_reused (rs : list request) (db : Database)
    (row row' : Document CartItem.t) :
  store_ok db ->
  In row (db_cartitem db) ->
  In row' (db_cartitem (serve_all pcre rs db)) ->
  _id row' = _id row ->
  cart_key row' = cart_key row.
Proof.
  intros Hok Hin Hin' Hid. destruct (store_ok_cartitem db Hok) as [Hnd Hlt].
  cbn [docs cartitem] in Hnd, Hlt.
  assert (Hb : (_id row' < next_oid db)%N).
  { rewrite Hid. rewrite Forall_forall in Hlt. now apply Hlt. }
  destruct (serve_all_rows rs db db (N.le_refl _)
              (fun r Hr _ => ex_intro _ r (conj Hr (conj eq_refl eq_refl)))
              row' Hin' Hb) as (row0 & Hin0 & Hid0 & Hkey0).
  assert (E : row0 = row).
  { pose proof (find_by_id_member _ row0 Hnd Hin0) as F0.
    pose proof (find_by_id_member _ row Hnd Hin) as F.
    rewrite Hid0, Hid in F0. congruence. }
  now rewrite <- Hkey0, E.
Qed.
End Identifiers.

Lemma identifiers_are_never_reused_witness :
  let rs := [PostCartRemove "000000000000000000000006";
             PostCartAdd "cart-9" ghost_id (Some 1%Z);
             PostCartAdd "cart-1" tote_id (Some 1%Z)] in
  store_ok cart_db /\
  db_cartitem cart_db = [mkDoc 6%N (CartItem.mk "cart-1" tote_id 2)] /\
  db_cartitem (serve_all no_pcre rs cart_db)
  = [mkDoc 7%N (CartItem.mk "cart-9" ghost_id 1);
     mkDoc 8%N (CartItem.mk "cart-1" tote_id 1)] /\
  forall row', In row' (db_cartitem (serve_all no_pcre rs cart_db)) ->
    _id row' = 6%N -> cart_key row' = ("cart-1", tote_id).
Proof.
  cbv zeta.
  destruct example_stores_ok as (_ & Hok & _).
  split; [exact Hok|]. split; [reflexivity|]. split; [vm_compute; reflexivity|].
  intros row' Hin Hid.
  exact (identifiers_are_never_reused no_pcre _ cart_db
           (mkDoc 6%N (CartItem.mk "cart-1" tote_id 2)) row' Hok
           (or_introl eq_refl) Hin Hid).
Defined.
